(** * ngtcp2 example server (examples/server.cc): a shallow embedding

    The development follows the layering of the source file:
    - machine integers and bytes;
    - the reserved-version generator [generate_reserved_vesrion];
    - the handshake bridge of [Handler] (the two byte queues, their read
      cursors and the BIO callbacks [bio_read] / [bio_write]);
    - [Handler::tls_handshake], [Handler::setup_crypto_context] and the
      transport-engine callbacks;
    - [Handler::on_read] / [Handler::on_write];
    - the dispatcher [Server::on_read], [timeoutcb] and
      [Server::send_version_negotiation].

    Code that server.cc only calls (the ngtcp2 library, OpenSSL, the crypto
    helpers, libc) is a parameter of the model, gathered in type classes. *)

From Stdlib Require Import ZArith Lia.
From Stdlib.Strings Require Import Byte.
From stdpp Require Import gmap strings list pretty.

Local Open Scope Z_scope.

(** ** Machine integers *)

Definition wrap (w : Z) (z : Z) : Z := z mod 2 ^ w.

(** [uint32_t] arithmetic: every result is reduced modulo 2^32. *)
Definition u32 (z : Z) : Z := wrap 32 z.

(** Conversion to [size_t] (64 bits). *)
Definition to_size_t (z : Z) : Z := wrap 64 z.

(** Conversion of an integer to a signed type of [w] bits (two's
    complement), as in the implicit [size_t] to [int] and [size_t] to
    [ssize_t] conversions of the source. *)
Definition to_signed (w : Z) (z : Z) : Z :=
  let m := wrap w z in if m <? 2 ^ (w - 1) then m else m - 2 ^ w.

Definition to_int (z : Z) : Z := to_signed 32 z.
Definition to_ssize_t (z : Z) : Z := to_signed 64 z.

Definition INT_MAX : Z := 2 ^ 31 - 1.

(** ** Bytes *)

Definition u8 (b : byte) : Z := Z.of_N (Byte.to_N b).

Definition byte_of_Z (z : Z) : byte :=
  match Byte.of_N (Z.to_N (z mod 256)) with
  | Some b => b
  | None => x00
  end.

(** The four bytes of [htonl(v)] in memory order: network order is
    big-endian, whatever the byte order of the host. *)
Definition htonl_bytes (v : Z) : list byte :=
  [byte_of_Z (Z.shiftr v 24); byte_of_Z (Z.shiftr v 16);
   byte_of_Z (Z.shiftr v 8); byte_of_Z v].

Definition htonll_bytes (v : Z) : list byte :=
  htonl_bytes (Z.shiftr v 32) ++ htonl_bytes v.

(** ** [generate_reserved_vesrion] (server.cc, lines 628-647) *)

(** One round of either loop: [h ^= *p; h *= 0x01000193u;]. *)
Definition fnv_round (h : Z) (b : byte) : Z :=
  let h := Z.lxor h (u8 b) in
  u32 (h * 0x01000193).

(** [sa] is the object representation of the socket address: the [salen]
    bytes the first loop walks over. *)
Definition generate_reserved_vesrion (sa : list byte) (version : Z) : Z :=
  let h := 0x811C9DC5 in
  let h := fold_left fnv_round sa h in
  let h := fold_left fnv_round (htonl_bytes version) h in
  let h := Z.land h 0xf0f0f0f0 in
  let h := Z.lor h 0x0a0a0a0a in
  h.

(** *** The generator as the specification words it

    A 32-bit FNV-1a hash (offset basis, then for each byte: xor the byte in
    and multiply by the FNV prime) over the address bytes followed by the
    version in network byte order; then, in every byte of the hash, the low
    nibble is cleared and set to the fixed pattern [0xA]. *)

Definition FNV_offset_basis : Z := 2166136261.
Definition FNV_prime : Z := 16777619.

Fixpoint fnv1a32 (h : Z) (data : list byte) : Z :=
  match data with
  | [] => h
  | b :: rest => fnv1a32 ((Z.lxor h (u8 b) * FNV_prime) mod 4294967296) rest
  end.

Definition force_nibble (b : byte) : byte :=
  byte_of_Z (u8 b - u8 b mod 16 + 10).

Definition of_be (bs : list byte) : Z :=
  fold_left (fun acc b => acc * 256 + u8 b) bs 0.

Definition reserved_version_spec (sa : list byte) (version : Z) : Z :=
  of_be (map force_nibble (htonl_bytes (fnv1a32 FNV_offset_basis (sa ++ htonl_bytes version)))).

(** ** Outcomes and the state monad of the model

    A C++ function is a state transformer that either returns, or leaves
    defined behaviour (a null or dangling pointer is used, an assertion
    aborts the process), or exhausts the fuel that bounds the one unbounded
    loop of the source ([Handler::on_write]). *)

Inductive outcome (A : Type) : Type :=
| Ret (a : A)
| Fault (why : string)
| OutOfFuel.
Arguments Ret {A} a.
Arguments Fault {A} why.
Arguments OutOfFuel {A}.

Definition prog (S A : Type) : Type := S -> outcome (A * S).

Definition prog_ret {S A : Type} (a : A) : prog S A := fun s => Ret (a, s).

Definition prog_bind {S A B : Type} (m : prog S A) (k : A -> prog S B) : prog S B :=
  fun s =>
    match m s with
    | Ret (a, s') => k a s'
    | Fault why => Fault why
    | OutOfFuel => OutOfFuel
    end.

Definition fault {S A : Type} (why : string) : prog S A := fun _ => Fault why.
Definition get {S : Type} : prog S S := fun s => Ret (s, s).
Definition modify {S : Type} (f : S -> S) : prog S unit := fun s => Ret (tt, f s).

#[global] Instance prog_mret (S : Type) : MRet (prog S) := fun A a => prog_ret a.
#[global] Instance prog_mbind (S : Type) : MBind (prog S) := fun A B k m => prog_bind m k.

(** ** Data of the interface *)

Inductive sa_family : Type := AF_INET | AF_INET6 | AF_other (n : Z).

(** A socket address as the server receives it from [recvfrom]: its family
    and its object representation ([salen] is the length of [sa_bytes]). *)
Record sockaddr : Type := {
  ss_family : sa_family;
  sa_bytes : list byte;
}.

Record ngtcp2_pkt_hd : Type := {
  hd_flags : Z;
  hd_type : Z;
  hd_conn_id : Z;
  hd_pkt_num : Z;
  hd_version : Z;
}.

(** What the process writes: lines on [std::cerr] and [sendto] calls (with
    the value the kernel returned). *)
Inductive event : Type :=
| Stderr (msg : string)
| Sendto (fd : Z) (data : list byte) (dest : sockaddr) (ret : Z).

(** The retry flags of the BIO object the handshake engine reads and writes
    through: [BIO_clear_retry_flags] and [BIO_set_retry_read]. *)
Inductive BIO : Type := BIO_no_retry | BIO_retry_read.

Definition BIO_clear_retry_flags (b : BIO) : BIO := BIO_no_retry.
Definition BIO_set_retry_read (b : BIO) : BIO := BIO_retry_read.

(** Modelled from the spec: [crypto::Context] is declared in crypto.h, which
    is not part of the sources at hand. The specification's CryptoContext
    holds "negotiated pseudorandom-function and AEAD algorithm identifiers,
    a fixed-size secret buffer per direction (send/receive)"; server.cc
    names the members [prf], [secretlen], [tx_secret] and [rx_secret]. *)
Record Context : Type := {
  prf : Z;
  aead : Z;
  tx_secret : list byte;
  rx_secret : list byte;
  secretlen : Z;
}.

Definition Context_zero : Context :=
  {| prf := 0; aead := 0; tx_secret := []; rx_secret := []; secretlen := 0 |}.

Definition set_secretlen (v : Z) (c : Context) : Context :=
  {| prf := prf c; aead := aead c; tx_secret := tx_secret c;
     rx_secret := rx_secret c; secretlen := v |}.
Definition set_tx_secret (v : list byte) (c : Context) : Context :=
  {| prf := prf c; aead := aead c; tx_secret := v;
     rx_secret := rx_secret c; secretlen := secretlen c |}.
Definition set_rx_secret (v : list byte) (c : Context) : Context :=
  {| prf := prf c; aead := aead c; tx_secret := tx_secret c;
     rx_secret := v; secretlen := secretlen c |}.

(** ** What server.cc takes from its libraries *)

(** Constants of ngtcp2.h and of the OpenSSL headers. *)
Class Constants : Type := {
  NGTCP2_MAX_PKTLEN_IPV4 : Z;
  NGTCP2_MAX_PKTLEN_IPV6 : Z;
  NGTCP2_PROTO_VERSION : Z;
  NGTCP2_PKT_VERSION_NEGOTIATION : Z;
  NGTCP2_PKT_CLIENT_INITIAL : Z;
  NGTCP2_PKT_FLAG_LONG_FORM : Z;
  NGTCP2_ERR_CALLBACK_FAILURE : Z;
  NGTCP2_ERR_NOBUF : Z;
  SSL_ERROR_WANT_READ : Z;
  SSL_ERROR_WANT_WRITE : Z;
}.

(** Opaque state of the collaborators: the transport engine's connection
    object, the handshake engine's session object, the random generator
    and the operating system. *)
Class Opaque : Type := {
  ngtcp2_conn : Type;
  SSL : Type;
  mt19937 : Type;
  kernel : Type;
}.

(** One call of [SSL_do_handshake]: the handshake engine reads and writes
    through the BIO callbacks of server.cc any finite number of times, each
    time continuing with what the callback returned, and then returns. *)
Inductive ssl_io (SSL : Type) : Type :=
| SslReturn (rv : Z) (s : SSL)
| SslBioRead (len : Z) (k : Z -> list byte -> ssl_io SSL)
| SslBioWrite (buf : list byte) (k : Z -> ssl_io SSL).
Arguments SslReturn {SSL} rv s.
Arguments SslBioRead {SSL} len k.
Arguments SslBioWrite {SSL} buf k.

(** The callbacks of [ngtcp2_conn_callbacks] that server.cc implements
    itself (the debug callbacks only print). *)
Inductive callback : Type :=
| cb_send_server_cleartext (flags : Z) (want_pkt_num : bool)
| cb_recv_handshake_data (data : list byte)
| cb_handshake_completed.

Record cb_result : Type := {
  cb_rv : Z;
  cb_pkt_num : option Z;
  cb_dest : list byte;
}.

(** One call into the transport engine ([ngtcp2_conn_recv] or
    [ngtcp2_conn_send]): the engine, in connection state [c], invokes a
    callback and continues with the callback's result and with the
    connection state the callback left (callbacks call back into the
    engine), any finite number of times, and then returns [rv] and the
    bytes it wrote to the caller's buffer. *)
Inductive conn_io (conn : Type) : Type :=
| ConnReturn (rv : Z) (out : list byte) (c : conn)
| ConnCall (c : conn) (cb : callback) (k : cb_result -> conn -> conn_io conn).
Arguments ConnReturn {conn} rv out c.
Arguments ConnCall {conn} c cb k.

Class Externals `{Opaque} : Type := {
  (* ngtcp2 *)
  ngtcp2_accept : list byte -> Z * ngtcp2_pkt_hd;
  ngtcp2_conn_server_new : Z -> Z -> Z * option ngtcp2_conn;
  ngtcp2_conn_recv : ngtcp2_conn -> list byte -> Z -> conn_io ngtcp2_conn;
  ngtcp2_conn_send : ngtcp2_conn -> Z -> Z -> conn_io ngtcp2_conn;
  ngtcp2_conn_handshake_completed : ngtcp2_conn -> ngtcp2_conn;
  ngtcp2_conn_update_tx_keys :
    ngtcp2_conn -> list byte -> Z -> list byte -> Z -> ngtcp2_conn;
  ngtcp2_conn_update_rx_keys :
    ngtcp2_conn -> list byte -> Z -> list byte -> Z -> ngtcp2_conn;
  ngtcp2_conn_set_aead_overhead : ngtcp2_conn -> Z -> ngtcp2_conn;
  (* OpenSSL *)
  SSL_new : SSL;
  SSL_do_handshake : SSL -> ssl_io SSL;
  SSL_get_error : SSL -> Z -> Z;
  EVP_MD_size : Z -> Z;
  (* crypto.h *)
  negotiated_prf : Context -> SSL -> Z * Context;
  negotiated_aead : Context -> SSL -> Z * Context;
  export_server_secret : list byte -> Z -> SSL -> Z * list byte;
  export_client_secret : list byte -> Z -> SSL -> Z * list byte;
  derive_packet_protection_key :
    list byte -> Z -> list byte -> Z -> Context -> Z * list byte;
  derive_packet_protection_iv :
    list byte -> Z -> list byte -> Z -> Context -> Z * list byte;
  aead_max_overhead : Context -> Z;
  (* libc, libev, util.h *)
  getnameinfo : sockaddr -> Z * (string * string);
  sendto : kernel -> Z -> list byte -> sockaddr -> Z * kernel;
  timestamp : kernel -> Z;
  uniform_int_distribution : Z -> Z -> mt19937 -> Z * mt19937;
}.

Section Model.
Context {consts : Constants} {opaque : Opaque} {ext : Externals}.

(** The process-wide state outside the objects of server.cc: the random
    generator [randgen], the operating system, and what has been written
    so far. *)
Record World : Type := {
  randgen : mt19937;
  os : kernel;
  out : list event;
}.

Definition emit (e : event) (w : World) : World :=
  {| randgen := randgen w; os := os w; out := out w ++ [e] |}.
Definition set_os (k : kernel) (w : World) : World :=
  {| randgen := randgen w; os := k; out := out w |}.
Definition set_randgen (g : mt19937) (w : World) : World :=
  {| randgen := g; os := os w; out := out w |}.

(** ** [Handler]

    [chandshake_] is the outbound queue (written by [bio_write], read by
    the transport engine), [shandshake_] the inbound queue (written by the
    transport engine, read by [bio_read]); [ncread_] and [nsread_] are their
    read cursors. [bio_] is the BIO that [init] attaches to [ssl_];
    [timer_] tells whether the idle timer is running. *)
Record Handler : Type := {
  remote_addr_ : sockaddr;
  max_pktlen_ : Z;
  ssl_ : option SSL;
  bio_ : BIO;
  fd_ : Z;
  chandshake_ : list byte;
  ncread_ : Z;
  shandshake_ : list byte;
  nsread_ : Z;
  conn_ : option ngtcp2_conn;
  crypto_ctx_ : Context;
  timer_ : bool;
}.

Definition set_remote_addr_ (v : sockaddr) (h : Handler) : Handler :=
  {| remote_addr_ := v; max_pktlen_ := max_pktlen_ h; ssl_ := ssl_ h;
     bio_ := bio_ h; fd_ := fd_ h; chandshake_ := chandshake_ h;
     ncread_ := ncread_ h; shandshake_ := shandshake_ h; nsread_ := nsread_ h;
     conn_ := conn_ h; crypto_ctx_ := crypto_ctx_ h; timer_ := timer_ h |}.
Definition set_max_pktlen_ (v : Z) (h : Handler) : Handler :=
  {| remote_addr_ := remote_addr_ h; max_pktlen_ := v; ssl_ := ssl_ h;
     bio_ := bio_ h; fd_ := fd_ h; chandshake_ := chandshake_ h;
     ncread_ := ncread_ h; shandshake_ := shandshake_ h; nsread_ := nsread_ h;
     conn_ := conn_ h; crypto_ctx_ := crypto_ctx_ h; timer_ := timer_ h |}.
Definition set_ssl_ (v : option SSL) (h : Handler) : Handler :=
  {| remote_addr_ := remote_addr_ h; max_pktlen_ := max_pktlen_ h; ssl_ := v;
     bio_ := bio_ h; fd_ := fd_ h; chandshake_ := chandshake_ h;
     ncread_ := ncread_ h; shandshake_ := shandshake_ h; nsread_ := nsread_ h;
     conn_ := conn_ h; crypto_ctx_ := crypto_ctx_ h; timer_ := timer_ h |}.
Definition set_bio_ (v : BIO) (h : Handler) : Handler :=
  {| remote_addr_ := remote_addr_ h; max_pktlen_ := max_pktlen_ h; ssl_ := ssl_ h;
     bio_ := v; fd_ := fd_ h; chandshake_ := chandshake_ h;
     ncread_ := ncread_ h; shandshake_ := shandshake_ h; nsread_ := nsread_ h;
     conn_ := conn_ h; crypto_ctx_ := crypto_ctx_ h; timer_ := timer_ h |}.
Definition set_fd_ (v : Z) (h : Handler) : Handler :=
  {| remote_addr_ := remote_addr_ h; max_pktlen_ := max_pktlen_ h; ssl_ := ssl_ h;
     bio_ := bio_ h; fd_ := v; chandshake_ := chandshake_ h;
     ncread_ := ncread_ h; shandshake_ := shandshake_ h; nsread_ := nsread_ h;
     conn_ := conn_ h; crypto_ctx_ := crypto_ctx_ h; timer_ := timer_ h |}.
Definition set_chandshake_ (v : list byte) (h : Handler) : Handler :=
  {| remote_addr_ := remote_addr_ h; max_pktlen_ := max_pktlen_ h; ssl_ := ssl_ h;
     bio_ := bio_ h; fd_ := fd_ h; chandshake_ := v;
     ncread_ := ncread_ h; shandshake_ := shandshake_ h; nsread_ := nsread_ h;
     conn_ := conn_ h; crypto_ctx_ := crypto_ctx_ h; timer_ := timer_ h |}.
Definition set_ncread_ (v : Z) (h : Handler) : Handler :=
  {| remote_addr_ := remote_addr_ h; max_pktlen_ := max_pktlen_ h; ssl_ := ssl_ h;
     bio_ := bio_ h; fd_ := fd_ h; chandshake_ := chandshake_ h;
     ncread_ := v; shandshake_ := shandshake_ h; nsread_ := nsread_ h;
     conn_ := conn_ h; crypto_ctx_ := crypto_ctx_ h; timer_ := timer_ h |}.
Definition set_shandshake_ (v : list byte) (h : Handler) : Handler :=
  {| remote_addr_ := remote_addr_ h; max_pktlen_ := max_pktlen_ h; ssl_ := ssl_ h;
     bio_ := bio_ h; fd_ := fd_ h; chandshake_ := chandshake_ h;
     ncread_ := ncread_ h; shandshake_ := v; nsread_ := nsread_ h;
     conn_ := conn_ h; crypto_ctx_ := crypto_ctx_ h; timer_ := timer_ h |}.
Definition set_nsread_ (v : Z) (h : Handler) : Handler :=
  {| remote_addr_ := remote_addr_ h; max_pktlen_ := max_pktlen_ h; ssl_ := ssl_ h;
     bio_ := bio_ h; fd_ := fd_ h; chandshake_ := chandshake_ h;
     ncread_ := ncread_ h; shandshake_ := shandshake_ h; nsread_ := v;
     conn_ := conn_ h; crypto_ctx_ := crypto_ctx_ h; timer_ := timer_ h |}.
Definition set_conn_ (v : option ngtcp2_conn) (h : Handler) : Handler :=
  {| remote_addr_ := remote_addr_ h; max_pktlen_ := max_pktlen_ h; ssl_ := ssl_ h;
     bio_ := bio_ h; fd_ := fd_ h; chandshake_ := chandshake_ h;
     ncread_ := ncread_ h; shandshake_ := shandshake_ h; nsread_ := nsread_ h;
     conn_ := v; crypto_ctx_ := crypto_ctx_ h; timer_ := timer_ h |}.
Definition set_crypto_ctx_ (v : Context) (h : Handler) : Handler :=
  {| remote_addr_ := remote_addr_ h; max_pktlen_ := max_pktlen_ h; ssl_ := ssl_ h;
     bio_ := bio_ h; fd_ := fd_ h; chandshake_ := chandshake_ h;
     ncread_ := ncread_ h; shandshake_ := shandshake_ h; nsread_ := nsread_ h;
     conn_ := conn_ h; crypto_ctx_ := v; timer_ := timer_ h |}.
Definition set_timer_ (v : bool) (h : Handler) : Handler :=
  {| remote_addr_ := remote_addr_ h; max_pktlen_ := max_pktlen_ h; ssl_ := ssl_ h;
     bio_ := bio_ h; fd_ := fd_ h; chandshake_ := chandshake_ h;
     ncread_ := ncread_ h; shandshake_ := shandshake_ h; nsread_ := nsread_ h;
     conn_ := conn_ h; crypto_ctx_ := crypto_ctx_ h; timer_ := v |}.

(** [Handler::Handler] (lines 142-155): null pointers, zero cursors, empty
    queues, a value-initialised address and crypto context; the timer is
    initialised, not started. *)
Definition Handler_new : Handler :=
  {| remote_addr_ := {| ss_family := AF_other 0; sa_bytes := [] |};
     max_pktlen_ := 0; ssl_ := None; bio_ := BIO_no_retry; fd_ := -1;
     chandshake_ := []; ncread_ := 0; shandshake_ := []; nsread_ := 0;
     conn_ := None; crypto_ctx_ := Context_zero; timer_ := false |}.

(** ** The handshake bridge (lines 348-368 and 54-79) *)

(** [size()] of a [std::vector] or [std::array], a [size_t]. *)
Definition vsize (v : list byte) : Z := Z.of_nat (length v).

(** [data] stands for the [datalen] bytes at the pointer [data]. *)
Definition write_server_handshake (data : list byte) (h : Handler) : Handler :=
  set_chandshake_ (chandshake_ h ++ data) h.

(** Returns [n] and what [*pdest] points to: the queue's storage from
    offset [ncread_] on. *)
Definition read_server_handshake (h : Handler) : Z * list byte * Handler :=
  let n := to_size_t (vsize (chandshake_ h) - ncread_ h) in
  let pdest := drop (Z.to_nat (ncread_ h)) (chandshake_ h) in
  let h := set_ncread_ (vsize (chandshake_ h)) h in
  (n, pdest, h).

(** Returns [n] and the [n] bytes copied to [buf]. *)
Definition read_client_handshake (buflen : Z) (h : Handler) : Z * list byte * Handler :=
  let n := Z.min buflen (to_size_t (vsize (shandshake_ h) - nsread_ h)) in
  let buf := take (Z.to_nat n) (drop (Z.to_nat (nsread_ h)) (shandshake_ h)) in
  let h := set_nsread_ (to_size_t (nsread_ h + n)) h in
  (n, buf, h).

Definition write_client_handshake (data : list byte) (h : Handler) : Handler :=
  set_shandshake_ (shandshake_ h ++ data) h.

(** [bio_write]: [buf] stands for the [len] bytes at [buf]. *)
Definition bio_write (buf : list byte) (h : Handler) : Z * Handler :=
  let h := set_bio_ (BIO_clear_retry_flags (bio_ h)) h in
  let h := write_server_handshake buf h in
  (vsize buf, h).

(** [bio_read]: [len] is an [int]; it is converted to [size_t] for the
    call and the [size_t] result is converted back. *)
Definition bio_read (len : Z) (h : Handler) : Z * list byte * Handler :=
  let h := set_bio_ (BIO_clear_retry_flags (bio_ h)) h in
  let '(n, buf, h) := read_client_handshake (to_size_t len) h in
  let len := to_int n in
  if len =? 0 then
    let h := set_bio_ (BIO_set_retry_read (bio_ h)) h in
    (-1, buf, h)
  else (len, buf, h).

(** The handshake engine's BIO traffic during one [SSL_do_handshake]. *)
Fixpoint run_ssl_io (p : ssl_io SSL) (h : Handler) : Z * SSL * Handler :=
  match p with
  | SslReturn rv s => (rv, s, h)
  | SslBioRead len k =>
      let '(r, buf, h) := bio_read len h in run_ssl_io (k r buf) h
  | SslBioWrite buf k =>
      let '(r, h) := bio_write buf h in run_ssl_io (k r) h
  end.

(** *** Sequences of bridge operations *)

Inductive bridge_op : Type :=
| op_write_server_handshake (data : list byte)
| op_read_server_handshake
| op_read_client_handshake (buflen : Z)
| op_write_client_handshake (data : list byte).

(** What an operation hands back: a byte count and the bytes read. *)
Definition bridge_step (o : bridge_op) (h : Handler) : Z * list byte * Handler :=
  match o with
  | op_write_server_handshake data => (0, [], write_server_handshake data h)
  | op_read_server_handshake => read_server_handshake h
  | op_read_client_handshake buflen => read_client_handshake (to_size_t buflen) h
  | op_write_client_handshake data => (0, [], write_client_handshake data h)
  end.

Record bridge_call : Type := {
  before : Handler;
  op : bridge_op;
  count : Z;
  bytes : list byte;
  after : Handler;
}.

Fixpoint bridge_run (ops : list bridge_op) (h : Handler) : list bridge_call * Handler :=
  match ops with
  | [] => ([], h)
  | o :: ops =>
      let '(n, bs, h') := bridge_step o h in
      let '(calls, h'') := bridge_run ops h' in
      ({| before := h; op := o; count := n; bytes := bs; after := h' |} :: calls, h'')
  end.

(** ** Member functions of [Handler] as programs over the handler and the world *)

Definition hprog (A : Type) : Type := prog (Handler * World) A.

Definition this : hprog Handler := fun s => Ret (fst s, s).
Definition world : hprog World := fun s => Ret (snd s, s).
Definition update (f : Handler -> Handler) : hprog unit :=
  modify (fun s => (f (fst s), snd s)).
Definition log (msg : string) : hprog unit :=
  modify (fun s => (fst s, emit (Stderr msg) (snd s))).

(** A draw from [randgen]. *)
Definition draw (lo hi : Z) : hprog Z :=
  fun s =>
    let '(v, g) := uniform_int_distribution lo hi (randgen (snd s)) in
    Ret (v, (fst s, set_randgen g (snd s))).

(** [sendto(fd_, buf, n, 0, &remote_addr_.su.sa, remote_addr_.len)]. *)
Definition do_sendto (fd : Z) (data : list byte) (dest : sockaddr) : hprog Z :=
  fun s =>
    let '(r, k) := sendto (os (snd s)) fd data dest in
    Ret (r, (fst s, emit (Sendto fd data dest r) (set_os k (snd s)))).

(** [Handler::tls_handshake] (lines 319-346). *)
Definition tls_handshake : hprog Z :=
  h ← this;
  match ssl_ h with
  | None => fault "SSL_do_handshake: ssl_ is null"
  | Some s =>
      let '(rv, s, h) := run_ssl_io (SSL_do_handshake s) h in
      update (fun _ => set_ssl_ (Some s) h);;
      if rv <=? 0 then
        let err := SSL_get_error s rv in
        if (err =? SSL_ERROR_WANT_READ) || (err =? SSL_ERROR_WANT_WRITE)
        then mret 0
        else log "TLS handshake error: ";; mret (-1)
      else
        match conn_ h with
        | None => fault "ngtcp2_conn_handshake_completed: conn_ is null"
        | Some c =>
            update (set_conn_ (Some (ngtcp2_conn_handshake_completed c)));;
            mret 0
        end
  end.

(** The body of [Handler::setup_crypto_context] (lines 370-435) on the
    three objects it works on: [ssl_], [crypto_ctx_] and [conn_]. The
    variable [rv] is the one of the source: after the third assignment it
    is tested six more times and assigned once more. [keylen] and [ivlen]
    are [ssize_t]; the engine takes them as [size_t]. *)
Definition setup_crypto_context_body
    (ssl : SSL) (ctx : Context) (conn : ngtcp2_conn) : Z * Context * ngtcp2_conn :=
  let '(rv, ctx) := negotiated_prf ctx ssl in
  if negb (rv =? 0) then (-1, ctx, conn) else
  let '(rv, ctx) := negotiated_aead ctx ssl in
  if negb (rv =? 0) then (-1, ctx, conn) else
  let length := EVP_MD_size (prf ctx) in
  let ctx := set_secretlen length ctx in
  let '(rv, secret) := export_server_secret (tx_secret ctx) (secretlen ctx) ssl in
  let ctx := set_tx_secret secret ctx in
  if negb (rv =? 0) then (-1, ctx, conn) else
  let key := replicate 64 x00 in
  let iv := replicate 64 x00 in
  let '(keylen, key) :=
    derive_packet_protection_key key (vsize key) (tx_secret ctx) (secretlen ctx) ctx in
  if negb (rv =? 0) then (-1, ctx, conn) else
  let '(ivlen, iv) :=
    derive_packet_protection_iv iv (vsize iv) (tx_secret ctx) (secretlen ctx) ctx in
  if negb (rv =? 0) then (-1, ctx, conn) else
  let conn := ngtcp2_conn_update_tx_keys conn key (to_size_t keylen) iv (to_size_t ivlen) in
  let '(rv, secret) := export_client_secret (rx_secret ctx) (secretlen ctx) ssl in
  let ctx := set_rx_secret secret ctx in
  if negb (rv =? 0) then (-1, ctx, conn) else
  let '(keylen, key) :=
    derive_packet_protection_key key (vsize key) (rx_secret ctx) (secretlen ctx) ctx in
  if negb (rv =? 0) then (-1, ctx, conn) else
  let '(ivlen, iv) :=
    derive_packet_protection_iv iv (vsize iv) (rx_secret ctx) (secretlen ctx) ctx in
  if negb (rv =? 0) then (-1, ctx, conn) else
  let conn := ngtcp2_conn_update_rx_keys conn key (to_size_t keylen) iv (to_size_t ivlen) in
  let conn := ngtcp2_conn_set_aead_overhead conn (aead_max_overhead ctx) in
  (0, ctx, conn).

Definition setup_crypto_context : hprog Z :=
  h ← this;
  match ssl_ h, conn_ h with
  | Some ssl, Some conn =>
      let '(rv, ctx, conn) := setup_crypto_context_body ssl (crypto_ctx_ h) conn in
      update (fun h => set_conn_ (Some conn) (set_crypto_ctx_ ctx h));;
      mret rv
  | _, _ => fault "setup_crypto_context: ssl_ or conn_ is null"
  end.

(** ** The transport-engine callbacks (lines 172-262) *)

Definition INT32_MAX : Z := 2 ^ 31 - 1.
Definition UINT64_MAX : Z := 2 ^ 64 - 1.

Definition failure (pkt_num : option Z) (dest : list byte) : cb_result :=
  {| cb_rv := NGTCP2_ERR_CALLBACK_FAILURE; cb_pkt_num := pkt_num; cb_dest := dest |}.

(** [ppkt_num] tells whether the engine passed a non-null [ppkt_num]. *)
Definition send_server_cleartext (flags : Z) (ppkt_num : bool) : hprog cb_result :=
  rv ← tls_handshake;
  if negb (rv =? 0) then mret (failure None []) else
  pkt_num ← (if ppkt_num then v ← draw 0 INT32_MAX; mret (Some v) else mret None);
  h ← this;
  let '(len, pdest, h) := read_server_handshake h in
  update (fun _ => h);;
  if ppkt_num && (len =? 0) then mret (failure pkt_num pdest) else
  mret {| cb_rv := to_ssize_t len; cb_pkt_num := pkt_num; cb_dest := pdest |}.

Definition handshake_completed : hprog Z :=
  rv ← setup_crypto_context;
  if negb (rv =? 0) then mret NGTCP2_ERR_CALLBACK_FAILURE else mret 0.

Definition recv_handshake_data (data : list byte) : hprog Z :=
  update (write_client_handshake data);;
  rv ← tls_handshake;
  if negb (rv =? 0) then mret NGTCP2_ERR_CALLBACK_FAILURE else mret 0.

Definition returns (rv : Z) : cb_result :=
  {| cb_rv := rv; cb_pkt_num := None; cb_dest := [] |}.

Definition run_callback (cb : callback) : hprog cb_result :=
  match cb with
  | cb_send_server_cleartext flags ppkt_num => send_server_cleartext flags ppkt_num
  | cb_recv_handshake_data data => rv ← recv_handshake_data data; mret (returns rv)
  | cb_handshake_completed => rv ← handshake_completed; mret (returns rv)
  end.

(** One call into the engine, with the callbacks it makes run on the
    handler ([user_data] is [this]). *)
Fixpoint run_conn_io (p : conn_io ngtcp2_conn) (s : Handler * World)
    : outcome (Z * list byte * (Handler * World)) :=
  match p with
  | ConnReturn rv buf c => Ret (rv, buf, (set_conn_ (Some c) (fst s), snd s))
  | ConnCall c cb k =>
      match run_callback cb (set_conn_ (Some c) (fst s), snd s) with
      | Ret (r, s') =>
          match conn_ (fst s') with
          | Some c' => run_conn_io (k r c') s'
          | None => Fault "callback left conn_ null"
          end
      | Fault why => Fault why
      | OutOfFuel => OutOfFuel
      end
  end.

(** ** [Handler::init], [feed_data], [on_write], [on_read] (lines 264-317, 455-497) *)

Definition Handler_init (fd : Z) (sa : sockaddr) : hprog Z :=
  update (set_remote_addr_ sa);;
  match ss_family sa with
  | AF_other _ => mret (-1)
  | fam =>
      update (set_max_pktlen_
        (match fam with AF_INET => NGTCP2_MAX_PKTLEN_IPV4 | _ => NGTCP2_MAX_PKTLEN_IPV6 end));;
      update (set_fd_ fd);;
      update (set_ssl_ (Some SSL_new));;
      update (set_bio_ BIO_no_retry);;
      conn_id ← draw 0 UINT64_MAX;
      let '(rv, c) := ngtcp2_conn_server_new conn_id NGTCP2_PROTO_VERSION in
      update (fun h => match c with Some _ => set_conn_ c h | None => h end);;
      if negb (rv =? 0) then log "ngtcp2_conn_server_new: ";; mret (-1) else
      update (set_timer_ true);;
      mret 0
  end.

Definition feed_data (data : list byte) : hprog Z :=
  h ← this;
  match conn_ h with
  | None => fault "ngtcp2_conn_recv: conn_ is null"
  | Some c =>
      w ← world;
      '(rv, _) ← run_conn_io (ngtcp2_conn_recv c data (timestamp (os w)));
      if negb (rv =? 0) then log "ngtcp2_conn_recv: ";; mret (-1) else mret 0
  end.

(** The [for (;;)] loop of [Handler::on_write]; [fuel] bounds the number
    of iterations. *)
Fixpoint on_write_loop (fuel : nat) : hprog Z :=
  match fuel with
  | O => fun _ => OutOfFuel
  | S fuel =>
      h ← this;
      match conn_ h with
      | None => fault "ngtcp2_conn_send: conn_ is null"
      | Some c =>
          w ← world;
          '(n, buf) ← run_conn_io
            (ngtcp2_conn_send c NGTCP2_MAX_PKTLEN_IPV4 (timestamp (os w)));
          if n <? 0 then log "ngtcp2_conn_send: ";; mret (-1) else
          if n =? 0 then mret 0 else
          h ← this;
          nwrite ← do_sendto (fd_ h) (take (Z.to_nat n) buf) (remote_addr_ h);
          if nwrite =? -1 then log "sendto: ";; mret (-1) else
          on_write_loop fuel
      end
  end.

Definition on_write (fuel : nat) : hprog Z :=
  h ← this;
  if NGTCP2_MAX_PKTLEN_IPV4 <? max_pktlen_ h
  then fault "assert(buf.size() >= max_pktlen_)"
  else on_write_loop fuel.

Definition Handler_on_read (fuel : nat) (data : list byte) : hprog Z :=
  rv ← feed_data data;
  if negb (rv =? 0) then mret (-1) else on_write fuel.

(** ** The unprotected-packet encoder *)

Record ngtcp2_upe : Type := {
  upe_buf : list byte;
  upe_cap : Z;
}.

(** Modelled from the spec: [ngtcp2_upe_new] belongs to the ngtcp2 library
    (lib/ngtcp2_upe.c), of which server.cc is a caller. It starts an
    encoder over the caller's buffer of [cap] bytes. *)
Definition ngtcp2_upe_new (cap : Z) : Z * ngtcp2_upe :=
  (0, {| upe_buf := []; upe_cap := cap |}).

Definition upe_put (bs : list byte) (upe : ngtcp2_upe) : Z * ngtcp2_upe :=
  if vsize (upe_buf upe) + vsize bs <=? upe_cap upe
  then (0, {| upe_buf := upe_buf upe ++ bs; upe_cap := upe_cap upe |})
  else (NGTCP2_ERR_NOBUF, upe).

(** Modelled from the spec: [ngtcp2_upe_encode_hd] belongs to the ngtcp2
    library. Section 6, wire packet header: "flag byte (long/short form,
    packet type), connection identifier, packet number, version (4 bytes,
    network order) - present on long-form headers only". The packet type is
    the low seven bits of the flag byte (server.cc, line 604), the form is
    its top bit; the connection identifier is a 64-bit value (line 304) and
    the packet number is written on 32 bits (line 183), both in network
    order. The call fails when the buffer has no room. *)
Definition ngtcp2_upe_encode_hd (upe : ngtcp2_upe) (hd : ngtcp2_pkt_hd) : Z * ngtcp2_upe :=
  let long := negb (Z.land (hd_flags hd) NGTCP2_PKT_FLAG_LONG_FORM =? 0) in
  let flag := Z.lor (if long then 0x80 else 0) (Z.land (hd_type hd) 0x7f) in
  upe_put ([byte_of_Z flag] ++ htonll_bytes (hd_conn_id hd) ++ htonl_bytes (hd_pkt_num hd)
           ++ (if long then htonl_bytes (hd_version hd) else [])) upe.

(** Modelled from the spec: [ngtcp2_upe_encode_version_negotiation] belongs
    to the ngtcp2 library. Section 6: the header is "followed by a sequence
    of 4-byte version values (network order)". *)
Definition ngtcp2_upe_encode_version_negotiation (upe : ngtcp2_upe) (sv : list Z)
    : Z * ngtcp2_upe :=
  upe_put (concat (map htonl_bytes sv)) upe.

(** Modelled from the spec: [ngtcp2_upe_final] belongs to the ngtcp2
    library; it gives the length of the packet, which lies at the start of
    the caller's buffer. *)
Definition ngtcp2_upe_final (upe : ngtcp2_upe) : list byte := upe_buf upe.

(** ** [Server] (lines 511-625, 650-701) and [timeoutcb] (lines 132-140)

    [handlers_] is the [std::map] from connection key to
    [std::unique_ptr<Handler>]; a pointer is an address, [objects] holds
    the [Handler] objects that are alive at their addresses. The timer of a
    handler holds the raw pointer [timer_.data = this]. *)

Definition address : Type := nat.

Record Server : Type := {
  handlers_ : gmap string address;
  objects : gmap address Handler;
  next_address : address;
  Server_fd_ : Z;
  env : World;
}.

Definition set_handlers_ (v : gmap string address) (s : Server) : Server :=
  {| handlers_ := v; objects := objects s; next_address := next_address s;
     Server_fd_ := Server_fd_ s; env := env s |}.
Definition set_objects (v : gmap address Handler) (s : Server) : Server :=
  {| handlers_ := handlers_ s; objects := v; next_address := next_address s;
     Server_fd_ := Server_fd_ s; env := env s |}.
Definition set_next_address (v : address) (s : Server) : Server :=
  {| handlers_ := handlers_ s; objects := objects s; next_address := v;
     Server_fd_ := Server_fd_ s; env := env s |}.
Definition set_env (v : World) (s : Server) : Server :=
  {| handlers_ := handlers_ s; objects := objects s; next_address := next_address s;
     Server_fd_ := Server_fd_ s; env := v |}.

Definition sprog (A : Type) : Type := prog Server A.

Definition slog (msg : string) : sprog unit :=
  modify (fun s => set_env (emit (Stderr msg) (env s)) s).

(** [new Handler]: a fresh address. *)
Definition new_Handler : sprog address :=
  fun s =>
    let p := next_address s in
    Ret (p, set_next_address (Datatypes.S p) (set_objects (<[p := Handler_new]> (objects s)) s)).

(** A member function called through the pointer [p]. *)
Definition call {A : Type} (p : address) (m : hprog A) : sprog A :=
  fun s =>
    match objects s !! p with
    | None => Fault "member call on a deleted Handler"
    | Some h =>
        match m (h, env s) with
        | Ret (a, (h', w')) => Ret (a, set_env w' (set_objects (<[p := h']> (objects s)) s))
        | Fault why => Fault why
        | OutOfFuel => OutOfFuel
        end
    end.

(** [delete h]: [Handler::~Handler] (lines 157-170) prints, stops the timer
    and frees the engine and TLS objects; then the storage is released. *)
Definition delete_Handler (p : address) : sprog unit :=
  s ← get;
  match objects s !! p with
  | None => fault "delete of a deleted Handler"
  | Some _ =>
      slog "Closing QUIC connection";;
      modify (fun s => set_objects (delete p (objects s)) s)
  end.

(** [handlers_.erase(conn_key)]: the entry goes, and with it the
    [unique_ptr], which deletes the handler. *)
Definition erase (conn_key : string) : sprog unit :=
  s ← get;
  match handlers_ s !! conn_key with
  | None => mret tt
  | Some p =>
      delete_Handler p;;
      modify (fun s => set_handlers_ (delete conn_key (handlers_ s)) s)
  end.

Definition timeoutcb (p : address) : sprog unit :=
  slog "Timeout";;
  delete_Handler p.

Definition create_conn_key (sa : sockaddr) : sprog string :=
  let '(rv, (host, serv)) := getnameinfo sa in
  if negb (rv =? 0) then slog "getnameinfo: ";; mret ""
  else mret ("[" +:+ host +:+ "]:" +:+ serv).

Definition Server_sendto (data : list byte) (dest : sockaddr) : sprog Z :=
  fun s =>
    let '(r, k) := sendto (os (env s)) (Server_fd_ s) data dest in
    Ret (r, set_env (emit (Sendto (Server_fd_ s) data dest r) (set_os k (env s))) s).

Definition send_version_negotiation (chd : ngtcp2_pkt_hd) (sa : sockaddr) : sprog Z :=
  let hd := {| hd_type := NGTCP2_PKT_VERSION_NEGOTIATION;
               hd_flags := NGTCP2_PKT_FLAG_LONG_FORM;
               hd_conn_id := hd_conn_id chd;
               hd_pkt_num := hd_pkt_num chd;
               hd_version := hd_version chd |} in
  let reserved_ver := generate_reserved_vesrion (sa_bytes sa) (hd_version hd) in
  let sv := [reserved_ver; NGTCP2_PROTO_VERSION] in
  let '(rv, upe) := ngtcp2_upe_new 256 in
  if negb (rv =? 0) then slog "ngtcp2_upe_new: ";; mret (-1) else
  let '(rv, upe) := ngtcp2_upe_encode_hd upe hd in
  if negb (rv =? 0) then mret (-1) else
  let '(rv, upe) := ngtcp2_upe_encode_version_negotiation upe sv in
  if negb (rv =? 0) then slog "ngtcp2_upe_encode_version_negotiation: ";; mret (-1) else
  let pkt := ngtcp2_upe_final upe in
  nwrite ← Server_sendto pkt sa;
  if nwrite =? -1 then slog "sendto: ";; mret (-1) else
  mret 0.

(** What [recvfrom] delivered: an error, or a datagram ([nread] is its
    length) and the address of its sender. *)
Inductive recvfrom_result : Type :=
| recvfrom_error
| recvfrom_ok (buf : list byte) (su : sockaddr).

(** The [switch (su.storage.ss_family)] of lines 576-591: the message of
    the length floor the datagram is under, if any. *)
Definition too_short (fam : sa_family) (nread : Z) : option string :=
  match fam with
  | AF_INET =>
      if nread <? NGTCP2_MAX_PKTLEN_IPV4 then Some "IPv4 packet is too short: " else None
  | AF_INET6 =>
      if nread <? NGTCP2_MAX_PKTLEN_IPV6 then Some "IPv6 packet is too short: " else None
  | AF_other _ => None
  end.

Definition Server_on_read (fuel : nat) (r : recvfrom_result) : sprog Z :=
  match r with
  | recvfrom_error => slog "recvfrom: ";; mret 0
  | recvfrom_ok buf su =>
      let nread := vsize buf in
      conn_key ← create_conn_key su;
      if String.eqb conn_key "" then mret 0 else
      s ← get;
      match handlers_ s !! conn_key with
      | None =>
          match too_short (ss_family su) nread with
          | Some msg => slog msg;; mret 0
          | None =>
              let '(rv, hd) := ngtcp2_accept buf in
              if rv =? -1 then slog "Unexpected packet received";; mret 0 else
              if rv =? 1 then
                slog "Unsupported version: Send Version Negotiation";;
                send_version_negotiation hd su;;
                mret 0
              else
              match buf with
              | [] => fault "buf[0] read from an empty datagram"
              | b0 :: _ =>
                  if negb (Z.land (u8 b0) 0x7f =? NGTCP2_PKT_CLIENT_INITIAL)
                  then mret 0 else
                  h ← new_Handler;
                  call h (Handler_init (Server_fd_ s) su);;
                  rv ← call h (Handler_on_read fuel buf);
                  if negb (rv =? 0) then delete_Handler h;; mret 0 else
                  modify (fun s => set_handlers_ (<[conn_key := h]> (handlers_ s)) s);;
                  mret 0
              end
          end
      | Some h =>
          rv ← call h (Handler_on_read fuel buf);
          if negb (rv =? 0) then erase conn_key;; mret 0 else
          mret 0
      end
  end.

(** The events of the loop: the socket is readable, or the idle timer of
    the handler at [p] expires (it does so only while that handler is alive
    and its timer is running). *)
Inductive loop_event : Type :=
| readable (r : recvfrom_result)
| timer_expired (p : address).

Definition dispatch (fuel : nat) (e : loop_event) : sprog unit :=
  match e with
  | readable r => Server_on_read fuel r;; mret tt
  | timer_expired p =>
      s ← get;
      match objects s !! p with
      | Some h => if timer_ h then timeoutcb p else mret tt
      | None => mret tt
      end
  end.

Fixpoint ev_run (fuel : nat) (es : list loop_event) : sprog unit :=
  match es with
  | [] => mret tt
  | e :: es => dispatch fuel e;; ev_run fuel es
  end.

End Model.

(** ** Predicates the theorems are stated with *)

Section Predicates.
Context {consts : Constants} {opaque : Opaque} {ext : Externals}.

(** Both read cursors lie within their queues. *)
Definition cursors_ok (h : Handler) : Prop :=
  0 <= ncread_ h <= vsize (chandshake_ h) /\ 0 <= nsread_ h <= vsize (shandshake_ h).

(** The sizes of the queues are [size_t] values. *)
Definition sizes_fit (h : Handler) : Prop :=
  vsize (chandshake_ h) < 2 ^ 64 /\ vsize (shandshake_ h) < 2 ^ 64.

(** The unread suffix of either queue. *)
Definition unread_server (h : Handler) : list byte :=
  drop (Z.to_nat (ncread_ h)) (chandshake_ h).
Definition unread_client (h : Handler) : list byte :=
  drop (Z.to_nat (nsread_ h)) (shandshake_ h).

(** What one bridge operation must have done. *)
Definition call_ok (c : bridge_call) : Prop :=
  let h := before c in
  let h' := after c in
  cursors_ok h' /\
  chandshake_ h `prefix_of` chandshake_ h' /\
  shandshake_ h `prefix_of` shandshake_ h' /\
  match op c with
  | op_write_server_handshake data =>
      chandshake_ h' = chandshake_ h ++ data /\ shandshake_ h' = shandshake_ h /\
      ncread_ h' = ncread_ h /\ nsread_ h' = nsread_ h
  | op_read_server_handshake =>
      bytes c = unread_server h /\ count c = vsize (bytes c) /\
      ncread_ h' = ncread_ h + count c /\ nsread_ h' = nsread_ h /\
      chandshake_ h' = chandshake_ h /\ shandshake_ h' = shandshake_ h
  | op_read_client_handshake buflen =>
      bytes c `prefix_of` unread_client h /\ count c = vsize (bytes c) /\
      count c = Z.min (to_size_t buflen) (vsize (unread_client h)) /\
      nsread_ h' = nsread_ h + count c /\ ncread_ h' = ncread_ h /\
      chandshake_ h' = chandshake_ h /\ shandshake_ h' = shandshake_ h
  | op_write_client_handshake data =>
      shandshake_ h' = shandshake_ h ++ data /\ chandshake_ h' = chandshake_ h /\
      ncread_ h' = ncread_ h /\ nsread_ h' = nsread_ h
  end.

(** The key [create_conn_key] builds from the numeric host and service. *)
Definition conn_key_of (host serv : string) : string :=
  "[" +:+ host +:+ "]:" +:+ serv.

(** The Version-Negotiation datagram for the header [chd] of a datagram
    that came from [su]: flag byte (long form, type version negotiation),
    the connection identifier, packet number and version of [chd], then the
    reserved version and the supported version. *)
Definition vn_packet (chd : ngtcp2_pkt_hd) (su : sockaddr) : list byte :=
  [byte_of_Z (Z.lor 0x80 (Z.land NGTCP2_PKT_VERSION_NEGOTIATION 0x7f))]
  ++ htonll_bytes (hd_conn_id chd) ++ htonl_bytes (hd_pkt_num chd)
  ++ htonl_bytes (hd_version chd)
  ++ htonl_bytes (generate_reserved_vesrion (sa_bytes su) (hd_version chd))
  ++ htonl_bytes NGTCP2_PROTO_VERSION.

(** What a step of the dispatcher wrote. *)
Definition written (s s' : Server) (evs : list event) : Prop :=
  out (env s') = out (env s) ++ evs.

Definition is_sendto (e : event) : bool :=
  match e with Sendto _ _ _ _ => true | Stderr _ => false end.

Definition no_sendto (evs : list event) : Prop := filter is_sendto evs = [].

(** Every run of [m] that returns has appended to [out] events that
    satisfy [P] together with the result. *)
Definition emits {A : Type} (P : A -> list event -> Prop) (m : hprog A) : Prop :=
  forall s a s', m s = Ret (a, s') ->
    exists evs, out (snd s') = out (snd s) ++ evs /\ P a evs.

Definition quiet {A : Type} (m : hprog A) : Prop := emits (fun _ evs => no_sendto evs) m.

End Predicates.

(** ** An instance of the collaborators, to run the model on

    The theorems below hold for every instance of [Constants], [Opaque] and
    [Externals]. The closed examples are computed with this one: the
    constants have the values of QUIC draft 05 (version 0xff000005, initial
    packets of at least 1252 octets over IPv4 and 1232 over IPv6); the
    engines are small state machines that do in one round trip what the
    real ones do in several. *)

Definition ngtcp2_h : Constants :=
  {| NGTCP2_MAX_PKTLEN_IPV4 := 1252;
     NGTCP2_MAX_PKTLEN_IPV6 := 1232;
     NGTCP2_PROTO_VERSION := 0xff000005;
     NGTCP2_PKT_VERSION_NEGOTIATION := 0x01;
     NGTCP2_PKT_CLIENT_INITIAL := 0x02;
     NGTCP2_PKT_FLAG_LONG_FORM := 0x01;
     NGTCP2_ERR_CALLBACK_FAILURE := -207;
     NGTCP2_ERR_NOBUF := -203;
     SSL_ERROR_WANT_READ := 2;
     SSL_ERROR_WANT_WRITE := 3 |}.

(** The connection object records the calls the application made. *)
Inductive demo_api : Type :=
| api_handshake_completed
| api_update_tx_keys (key : list byte) (keylen : Z) (iv : list byte) (ivlen : Z)
| api_update_rx_keys (key : list byte) (keylen : Z) (iv : list byte) (ivlen : Z)
| api_set_aead_overhead (overhead : Z).

Record demo_conn : Type := {
  api : list demo_api;
  owed : bool;
  sent : nat;
  announced : bool;
}.

Definition demo_called (a : demo_api) (c : demo_conn) : demo_conn :=
  {| api := api c ++ [a]; owed := owed c; sent := sent c; announced := announced c |}.

(** The TLS object is 0 while the ClientHello is awaited, 1 after a fatal
    alert, and [0x1300 + n] once the handshake completed with cipher suite
    [n]; the kernel is the list of results of the coming [sendto] calls
    (none left: the call succeeds). *)
Definition demo_opaque : Opaque :=
  {| ngtcp2_conn := demo_conn; SSL := Z; mt19937 := Z; kernel := list Z |}.

Definition demo_server_flight : list byte := [x16; x03; x03].

Definition demo_SSL_do_handshake (s : Z) : ssl_io Z :=
  if s =? 0 then
    SslBioRead 4096 (fun r buf =>
      if r <=? 0 then SslReturn (-1) 0 else
      match buf with
      | [] => SslReturn (-1) 0
      | b :: _ =>
          if u8 b =? 0 then SslReturn (-1) 1 else
          SslBioWrite demo_server_flight (fun _ => SslReturn 1 (0x1300 + u8 b))
      end)
  else if s =? 1 then SslReturn (-1) 1
  else SslReturn 1 s.

Definition demo_negotiated_prf (ctx : Context) (ssl : Z) : Z * Context :=
  if 0x1300 <? ssl
  then (0, {| prf := 256; aead := aead ctx; tx_secret := tx_secret ctx;
              rx_secret := rx_secret ctx; secretlen := secretlen ctx |})
  else (-1, ctx).

Definition demo_negotiated_aead (ctx : Context) (ssl : Z) : Z * Context :=
  if 0x1300 <? ssl
  then (0, {| prf := prf ctx; aead := ssl; tx_secret := tx_secret ctx;
              rx_secret := rx_secret ctx; secretlen := secretlen ctx |})
  else (-1, ctx).

(** Cipher suite 0xff stands for an AEAD whose key is longer than the
    64 bytes the server provides: its key derivation fails. *)
Definition demo_derive (len : Z) (dest : list byte) (destlen : Z) (secret : list byte)
    : Z * list byte :=
  if destlen <? len then (-1, dest)
  else (len, take (Z.to_nat len) secret ++ drop (Z.to_nat len) dest).

Definition demo_derive_key (dest : list byte) (destlen : Z) (secret : list byte)
    (secretlen : Z) (ctx : Context) : Z * list byte :=
  demo_derive (if aead ctx =? 0x13ff then 128 else 16) dest destlen secret.

Definition demo_derive_iv (dest : list byte) (destlen : Z) (secret : list byte)
    (secretlen : Z) (ctx : Context) : Z * list byte :=
  demo_derive 12 dest destlen secret.

Definition demo_is_completed (a : demo_api) : bool :=
  match a with api_handshake_completed => true | _ => false end.

(** [ngtcp2_conn_recv]: hands the payload to [recv_handshake_data] and,
    the first time the application has reported the handshake complete,
    invokes [handshake_completed]; a failing callback fails the call. *)
Definition demo_conn_recv (c : demo_conn) (data : list byte) (ts : Z) : conn_io demo_conn :=
  let c := {| api := api c; owed := true; sent := sent c; announced := announced c |} in
  ConnCall c (cb_recv_handshake_data (drop 17 data)) (fun r c1 =>
    if negb (cb_rv r =? 0) then ConnReturn (cb_rv r) [] c1 else
    if negb (announced c1) && existsb demo_is_completed (api c1) then
      ConnCall c1 cb_handshake_completed (fun r2 c2 =>
        if negb (cb_rv r2 =? 0) then ConnReturn (cb_rv r2) [] c2 else
        ConnReturn 0 []
          {| api := api c2; owed := owed c2; sent := sent c2; announced := true |})
    else ConnReturn 0 [] c1).

(** [ngtcp2_conn_send]: answers each received datagram with one packet
    that carries the handshake bytes [send_server_cleartext] hands over. *)
Definition demo_conn_send (c : demo_conn) (destlen : Z) (ts : Z) : conn_io demo_conn :=
  if owed c then
    ConnCall c (cb_send_server_cleartext 0 (Nat.eqb (sent c) 0)) (fun r c1 =>
      if cb_rv r <? 0 then ConnReturn (cb_rv r) [] c1 else
      let pkt := x84 :: take (Z.to_nat (cb_rv r)) (cb_dest r) in
      ConnReturn (vsize pkt) pkt
        {| api := api c1; owed := false; sent := S (sent c1); announced := announced c1 |})
  else ConnReturn 0 [] c.

Definition demo_hd (b0 : byte) (rest : list byte) : ngtcp2_pkt_hd :=
  {| hd_flags := 0x01;
     hd_type := Z.land (u8 b0) 0x7f;
     hd_conn_id := of_be (take 8 rest);
     hd_pkt_num := of_be (take 4 (drop 8 rest));
     hd_version := of_be (take 4 (drop 12 rest)) |}.

Definition demo_accept (buf : list byte) : Z * ngtcp2_pkt_hd :=
  match buf with
  | [] => (-1, demo_hd x00 [])
  | b0 :: rest =>
      if (Z.land (u8 b0) 0x80 =? 0) || (vsize buf <? 17) then (-1, demo_hd b0 rest) else
      if hd_version (demo_hd b0 rest) =? 0xff000005 then (0, demo_hd b0 rest)
      else (1, demo_hd b0 rest)
  end.

Definition demo_getnameinfo (sa : sockaddr) : Z * (string * string) :=
  match ss_family sa, sa_bytes sa with
  | AF_INET, _ :: _ :: p1 :: p0 :: a :: b :: c :: d :: _ =>
      (0, (pretty (Byte.to_N a) +:+ "." +:+ pretty (Byte.to_N b) +:+ "." +:+
           pretty (Byte.to_N c) +:+ "." +:+ pretty (Byte.to_N d),
           pretty (Z.to_N (u8 p1 * 256 + u8 p0))))
  | _, _ => (-6, ("", ""))
  end.

Definition demo_sendto (k : list Z) (fd : Z) (data : list byte) (dest : sockaddr)
    : Z * list Z :=
  match k with
  | r :: k => (r, k)
  | [] => (vsize data, [])
  end.

Definition demo_ext : @Externals demo_opaque :=
  {| ngtcp2_accept := demo_accept : list byte -> Z * ngtcp2_pkt_hd;
     ngtcp2_conn_server_new := fun _ _ =>
       (0, Some ({| api := []; owed := false; sent := 0%nat; announced := false |}
                 : @ngtcp2_conn demo_opaque));
     ngtcp2_conn_recv := demo_conn_recv;
     ngtcp2_conn_send := demo_conn_send;
     ngtcp2_conn_handshake_completed := demo_called api_handshake_completed;
     ngtcp2_conn_update_tx_keys := fun c key keylen iv ivlen =>
       demo_called (api_update_tx_keys key keylen iv ivlen) c;
     ngtcp2_conn_update_rx_keys := fun c key keylen iv ivlen =>
       demo_called (api_update_rx_keys key keylen iv ivlen) c;
     ngtcp2_conn_set_aead_overhead := fun c n => demo_called (api_set_aead_overhead n) c;
     SSL_new := 0;
     SSL_do_handshake := demo_SSL_do_handshake;
     SSL_get_error := fun s rv => if s =? 1 then 1 else 2;
     EVP_MD_size := fun _ => 32;
     negotiated_prf := demo_negotiated_prf;
     negotiated_aead := demo_negotiated_aead;
     export_server_secret := fun dest len ssl => (0, replicate (Z.to_nat len) x53);
     export_client_secret := fun dest len ssl => (0, replicate (Z.to_nat len) x43);
     derive_packet_protection_key := demo_derive_key;
     derive_packet_protection_iv := demo_derive_iv;
     aead_max_overhead := fun _ => 16;
     getnameinfo := demo_getnameinfo;
     sendto := demo_sendto;
     timestamp := fun _ => 0;
     uniform_int_distribution := fun lo hi g => (lo + g mod (hi - lo + 1), g + 1) |}.

Section Demo.
#[local] Existing Instances ngtcp2_h demo_opaque demo_ext.

(** The peer 127.0.0.1:4433, as a [sockaddr_in]. *)
Definition demo_peer : sockaddr :=
  {| ss_family := AF_INET;
     sa_bytes := [x02; x00; x11; x51; x7f; x00; x00; x01] ++ replicate 8 x00 |}.

Definition demo_key : string := "[127.0.0.1]:4433".

(** A long-form packet of type Client Initial with connection identifier
    1, packet number 7 and the given version and first payload byte,
    padded with zeros to [len] bytes. *)
Definition demo_datagram (version : Z) (hello : byte) (len : nat) : list byte :=
  let hd := [x82] ++ htonll_bytes 1 ++ htonl_bytes 7 ++ htonl_bytes version ++ [hello] in
  take len (hd ++ replicate (len - length hd) x00).

(** A server that has just started: no session, [sendto] results [k]. *)
Definition demo_server (k : list Z) : Server :=
  {| handlers_ := ∅; objects := ∅; next_address := 0%nat; Server_fd_ := 3;
     env := {| randgen := 0; os := k; out := [] |} |}.

Definition demo_fuel : nat := 8.

(** The state a program ends in, when it returns. *)
Definition final {S A : Type} (d : S) (r : outcome (A * S)) : S :=
  match r with Ret (_, s) => s | _ => d end.

(** The server after a valid first datagram (cipher suite [hello]) from
    [demo_peer], with the results [k] for the [sendto] calls that follow. *)
Definition demo_established (hello : byte) (k : list Z) : Server :=
  let s := final (demo_server [])
    (Server_on_read demo_fuel
       (recvfrom_ok (demo_datagram 0xff000005 hello 1252) demo_peer) (demo_server [])) in
  set_env (set_os k (env s)) s.

(** The Handler of that Session (it sits at address 0). *)
Definition demo_handler (hello : byte) : Handler :=
  default Handler_new (objects (demo_established hello []) !! 0%nat).

(** Its connection object. *)
Definition demo_conn_of (h : Handler) : demo_conn :=
  default {| api := []; owed := false; sent := 0%nat; announced := false |} (conn_ h).

(** The value a program returns, when it returns. *)
Definition result {S A : Type} (d : A) (r : outcome (A * S)) : A :=
  match r with Ret (a, _) => a | _ => d end.

(** The events a step added to [out]. *)
Definition added (s s' : Server) : list event :=
  drop (length (out (env s))) (out (env s')).

(** The key installations the connection object has recorded. *)
Definition demo_is_install (a : demo_api) : bool :=
  match a with
  | api_update_tx_keys _ _ _ _ | api_update_rx_keys _ _ _ _ => true
  | _ => false
  end.

Definition demo_installs (h : Handler) : list demo_api :=
  match conn_ h with
  | Some c => filter demo_is_install (api c)
  | None => []
  end.

Definition demo_lengths (a : demo_api) : Z * Z :=
  match a with
  | api_update_tx_keys _ keylen _ ivlen | api_update_rx_keys _ keylen _ ivlen => (keylen, ivlen)
  | _ => (0, 0)
  end.

Definition demo_ops : list bridge_op :=
  [op_write_client_handshake [x01; x02; x03]; op_read_client_handshake 2;
   op_write_server_handshake [x16; x03]; op_read_client_handshake 5;
   op_read_server_handshake; op_read_server_handshake;
   op_write_server_handshake [x17]; op_read_server_handshake].

End Demo.

(** ** Further predicates: the handler over a whole call, the table *)

Section MorePredicates.
Context {consts : Constants} {opaque : Opaque} {ext : Externals}.

(** The bytes a sequence of bridge operations appends to either queue. *)
Fixpoint appended_client (ops : list bridge_op) : list byte :=
  match ops with
  | [] => []
  | op_write_client_handshake data :: ops => data ++ appended_client ops
  | _ :: ops => appended_client ops
  end.

Fixpoint appended_server (ops : list bridge_op) : list byte :=
  match ops with
  | [] => []
  | op_write_server_handshake data :: ops => data ++ appended_server ops
  | _ :: ops => appended_server ops
  end.

(** The bytes the reads of a transcript returned, in order. *)
Fixpoint read_client (calls : list bridge_call) : list byte :=
  match calls with
  | [] => []
  | c :: calls =>
      match op c with
      | op_read_client_handshake _ => bytes c ++ read_client calls
      | _ => read_client calls
      end
  end.

Fixpoint read_server (calls : list bridge_call) : list byte :=
  match calls with
  | [] => []
  | c :: calls =>
      match op c with
      | op_read_server_handshake => bytes c ++ read_server calls
      | _ => read_server calls
      end
  end.

(** [h'] is a later state of the initialised handler [h]: the queues have
    only grown at their ends, the peer address, socket, packet length and
    timer are the same, the TLS and connection objects are still there, and
    the cursors are within the queues if they were (queue sizes being
    [size_t] values). *)
Definition evolves (h h' : Handler) : Prop :=
  chandshake_ h `prefix_of` chandshake_ h' /\
  shandshake_ h `prefix_of` shandshake_ h' /\
  remote_addr_ h' = remote_addr_ h /\ fd_ h' = fd_ h /\
  max_pktlen_ h' = max_pktlen_ h /\ timer_ h' = timer_ h /\
  (is_Some (ssl_ h) -> is_Some (ssl_ h')) /\
  (is_Some (conn_ h) -> is_Some (conn_ h')) /\
  (cursors_ok h -> sizes_fit h' -> cursors_ok h').

(** The life of a Session: its Handler reads one datagram after the other,
    for as long as [on_read] returns 0 (the server destroys the Handler
    when it does not). *)
Fixpoint on_reads (fuel : nat) (datagrams : list (list byte)) : hprog Z :=
  match datagrams with
  | [] => mret 0
  | d :: rest =>
      rv ← Handler_on_read fuel d;
      if negb (rv =? 0) then mret rv else on_reads fuel rest
  end.

Definition steps {A : Type} (m : hprog A) : Prop :=
  forall s a s', m s = Ret (a, s') -> evolves (fst s) (fst s').

(** Every [sendto] among [evs] is on socket [fd] and to address [dest]. *)
Definition sends_only_to (fd : Z) (dest : sockaddr) (evs : list event) : Prop :=
  forall fd' d a r, Sendto fd' d a r ∈ evs -> fd' = fd /\ a = dest.

(** A member function that returns an [int] status: 0, or -1 with a line
    on [std::cerr] as the last thing written. *)
Definition reported (rv : Z) (evs : list event) : Prop :=
  rv = 0 \/ (rv = -1 /\ exists msg, last evs = Some (Stderr msg)).

(** The table and the live Handlers agree: every entry points to a live
    Handler, every live Handler has an entry, no two entries share a
    Handler, and the addresses in use are below the next fresh one. *)
Definition table_ok (s : Server) : Prop :=
  (forall key p, handlers_ s !! key = Some p -> is_Some (objects s !! p)) /\
  (forall p, is_Some (objects s !! p) -> exists key, handlers_ s !! key = Some p) /\
  (forall k1 k2 p, handlers_ s !! k1 = Some p -> handlers_ s !! k2 = Some p -> k1 = k2) /\
  (forall p : address, is_Some (objects s !! p) -> (p < next_address s)%nat).

(** The key of the sender of a datagram. *)
Definition sender_key (su : sockaddr) : string :=
  conn_key_of (getnameinfo su).2.1 (getnameinfo su).2.2.

(** The key of the peer a socket event is about: none when [recvfrom]
    failed. *)
Definition sender_of (r : recvfrom_result) : option string :=
  match r with
  | recvfrom_ok _ su => Some (sender_key su)
  | recvfrom_error => None
  end.

(** What one datagram of the peer [key] can do to the table and to the
    Handlers: nothing; feed the peer's Handler; erase the peer's entry and
    Handler; construct a Handler and destroy it again; construct a Handler
    and enter it for the peer. *)
Inductive table_change (key : string) (s s' : Server) : Prop :=
| unchanged :
    handlers_ s' = handlers_ s -> objects s' = objects s ->
    next_address s' = next_address s -> table_change key s s'
| fed (p : address) (h' : Handler) :
    handlers_ s !! key = Some p -> is_Some (objects s !! p) ->
    handlers_ s' = handlers_ s -> objects s' = <[p := h']> (objects s) ->
    next_address s' = next_address s -> table_change key s s'
| erased (p : address) :
    handlers_ s !! key = Some p ->
    handlers_ s' = delete key (handlers_ s) -> objects s' = delete p (objects s) ->
    next_address s' = next_address s -> table_change key s s'
| rejected :
    handlers_ s !! key = None ->
    handlers_ s' = handlers_ s -> objects s' = delete (next_address s) (objects s) ->
    next_address s' = S (next_address s) -> table_change key s s'
| created (h' : Handler) :
    handlers_ s !! key = None ->
    handlers_ s' = <[key := next_address s]> (handlers_ s) ->
    objects s' = <[next_address s := h']> (objects s) ->
    next_address s' = S (next_address s) -> table_change key s s'.

(** What [Server::on_read] requires of a datagram before it constructs a
    Handler for it. *)
Definition opens_session (buf : list byte) (su : sockaddr) : Prop :=
  (getnameinfo su).1 = 0 /\
  too_short (ss_family su) (vsize buf) = None /\
  (ngtcp2_accept buf).1 <> -1 /\ (ngtcp2_accept buf).1 <> 1 /\
  exists b0 rest, buf = b0 :: rest /\ Z.land (u8 b0) 0x7f = NGTCP2_PKT_CLIENT_INITIAL.

(** Where the answers to a datagram from [su] go: the socket and peer
    address recorded in the sender's Handler if it has one, else the
    server's socket and [su] itself. *)
Definition reply_target (s : Server) (su : sockaddr) : Z * sockaddr :=
  match handlers_ s !! sender_key su with
  | Some p =>
      match objects s !! p with
      | Some h => (fd_ h, remote_addr_ h)
      | None => (Server_fd_ s, su)
      end
  | None => (Server_fd_ s, su)
  end.

(** The outcome of a run, with the packet length of the Handler it leaves
    set to [v]. *)
Definition with_max_pktlen {A : Type} (v : Z) (r : outcome (A * (Handler * World)))
    : outcome (A * (Handler * World)) :=
  match r with
  | Ret (a, (h, w)) => Ret (a, (set_max_pktlen_ v h, w))
  | Fault why => Fault why
  | OutOfFuel => OutOfFuel
  end.

(** [m] runs the same whatever [max_pktlen_] is, and leaves it alone. *)
Definition ignores_max_pktlen {A : Type} (m : hprog A) : Prop :=
  forall v h w, m (set_max_pktlen_ v h, w) = with_max_pktlen v (m (h, w)).

(** The two ways the model leaves defined behaviour on the heap: a member
    function is called through a pointer to a destroyed Handler, or a
    destroyed Handler is destroyed again. *)
Definition heap_fault (why : string) : Prop :=
  why = "member call on a deleted Handler" \/ why = "delete of a deleted Handler".

(** [m] never ends in such a fault. *)
Definition off_the_heap {S A : Type} (m : prog S A) : Prop :=
  forall s why, m s = Fault why -> ~ heap_fault why.

End MorePredicates.

(** ** Variants of the instance, and further inputs for the closed examples *)

(** [demo_ext] with an [ngtcp2_conn_server_new] that fails for want of
    memory and leaves the connection pointer null, or with an export of the
    client secret that fails. *)
Definition demo_faulty (no_memory no_client_secret : bool) : @Externals demo_opaque :=
  {| ngtcp2_accept := @ngtcp2_accept demo_opaque demo_ext;
     ngtcp2_conn_server_new := fun conn_id version =>
       if no_memory then (-501, None)
       else @ngtcp2_conn_server_new demo_opaque demo_ext conn_id version;
     ngtcp2_conn_recv := @ngtcp2_conn_recv demo_opaque demo_ext;
     ngtcp2_conn_send := @ngtcp2_conn_send demo_opaque demo_ext;
     ngtcp2_conn_handshake_completed := @ngtcp2_conn_handshake_completed demo_opaque demo_ext;
     ngtcp2_conn_update_tx_keys := @ngtcp2_conn_update_tx_keys demo_opaque demo_ext;
     ngtcp2_conn_update_rx_keys := @ngtcp2_conn_update_rx_keys demo_opaque demo_ext;
     ngtcp2_conn_set_aead_overhead := @ngtcp2_conn_set_aead_overhead demo_opaque demo_ext;
     SSL_new := @SSL_new demo_opaque demo_ext;
     SSL_do_handshake := @SSL_do_handshake demo_opaque demo_ext;
     SSL_get_error := @SSL_get_error demo_opaque demo_ext;
     EVP_MD_size := @EVP_MD_size demo_opaque demo_ext;
     negotiated_prf := @negotiated_prf demo_opaque demo_ext;
     negotiated_aead := @negotiated_aead demo_opaque demo_ext;
     export_server_secret := @export_server_secret demo_opaque demo_ext;
     export_client_secret := fun dest len ssl =>
       if no_client_secret then (-1, dest)
       else @export_client_secret demo_opaque demo_ext dest len ssl;
     derive_packet_protection_key := @derive_packet_protection_key demo_opaque demo_ext;
     derive_packet_protection_iv := @derive_packet_protection_iv demo_opaque demo_ext;
     aead_max_overhead := @aead_max_overhead demo_opaque demo_ext;
     getnameinfo := @getnameinfo demo_opaque demo_ext;
     sendto := @sendto demo_opaque demo_ext;
     timestamp := @timestamp demo_opaque demo_ext;
     uniform_int_distribution := @uniform_int_distribution demo_opaque demo_ext |}.

Definition demo_out_of_memory : @Externals demo_opaque := demo_faulty true false.
Definition demo_no_client_secret : @Externals demo_opaque := demo_faulty false true.

Section MoreDemo.
#[local] Existing Instances ngtcp2_h demo_opaque demo_ext.

(** A Handler that [init] has just set up for [demo_peer], with the world
    of a server that has just started. *)
Definition demo_initialised : Handler * World :=
  final (Handler_new, env (demo_server []))
    (Handler_init 3 demo_peer (Handler_new, env (demo_server []))).

(** The same with a ClientHello in the inbound queue. *)
Definition demo_greeted : Handler * World :=
  (write_client_handshake [x01] demo_initialised.1, demo_initialised.2).

(** The Handler of the established Session and the world at that time. *)
Definition demo_session : Handler * World :=
  (demo_handler x01, env (demo_established x01 [])).

(** The established Session after a fatal TLS alert: the server as it
    was, with the TLS object of the Handler in its failed state. *)
Definition demo_alerted_handler : Handler := set_ssl_ (Some 1) (demo_handler x01).

Definition demo_alerted : Server :=
  set_objects (<[0%nat := demo_alerted_handler]> (objects (demo_established x01 [])))
    (demo_established x01 []).

(** A second peer, 127.0.0.2:4433, and the server with a Session for each
    of the two peers ([demo_peer] at address 0, this one at address 1), and
    the results [k] for the [sendto] calls that follow. *)
Definition demo_other_peer : sockaddr :=
  {| ss_family := AF_INET;
     sa_bytes := [x02; x00; x11; x51; x7f; x00; x00; x02] ++ replicate 8 x00 |}.

Definition demo_two_sessions (k : list Z) : Server :=
  let d := demo_datagram 0xff000005 x01 1252 in
  let s := final (demo_server [])
    (ev_run demo_fuel
       [readable (recvfrom_ok d demo_peer); readable (recvfrom_ok d demo_other_peer)]
       (demo_server [])) in
  set_env (set_os k (env s)) s.

End MoreDemo.

(** * Theorems *)

Section ReservedVersionFacts.

Lemma u8_range (b : byte) : 0 <= u8 b < 256.
Proof.
  unfold u8. pose proof (Byte.to_N_bounded b). lia.
Qed.

Lemma u8_byte_of_Z (z : Z) : u8 (byte_of_Z z) = z mod 256.
Proof.
  unfold u8, byte_of_Z.
  assert (Hr : 0 <= z mod 256 < 256) by (apply Z.mod_pos_bound; lia).
  destruct (Byte.of_N (Z.to_N (z mod 256))) as [b|] eqn:E.
  - apply Byte.to_of_N in E. rewrite E. lia.
  - exfalso.
    pose proof (Byte.to_of_N_option_map (Z.to_N (z mod 256))) as H.
    rewrite E in H. simpl in H.
    destruct (N.leb_spec (Z.to_N (z mod 256)) 255); [discriminate | lia].
Qed.

Lemma fold_fnv_round (data : list byte) (h : Z) :
  fold_left fnv_round data h = fnv1a32 h data.
Proof.
  revert h. induction data as [|b rest IH]; intros h; [reflexivity|].
  simpl. rewrite IH. reflexivity.
Qed.

Lemma fnv1a32_app (a b : list byte) (h : Z) :
  fnv1a32 h (a ++ b) = fnv1a32 (fnv1a32 h a) b.
Proof.
  rewrite <- !fold_fnv_round. apply fold_left_app.
Qed.

Lemma fnv1a32_range (data : list byte) (h : Z) :
  0 <= h < 2 ^ 32 -> 0 <= fnv1a32 h data < 2 ^ 32.
Proof.
  revert h. induction data as [|b rest IH]; intros h Hh; [exact Hh|].
  simpl. apply IH. change (2 ^ 32) with 4294967296.
  apply Z.mod_pos_bound. lia.
Qed.

Lemma testbit_above (w h n : Z) :
  0 <= h < 2 ^ w -> w <= n -> Z.testbit h n = false.
Proof.
  intros Hh Hn. destruct (Z.eq_dec h 0) as [->|Hne]; [apply Z.testbit_0_l|].
  apply Z.bits_above_log2; [lia|].
  assert (Z.log2 h < w) by (apply Z.log2_lt_pow2; lia). lia.
Qed.


Lemma testbit_u8_high (b : byte) (n : Z) : 8 <= n -> Z.testbit (u8 b) n = false.
Proof.
  intros Hn. apply (testbit_above 8); [apply u8_range | exact Hn].
Qed.

Lemma push_byte (a : Z) (b : byte) :
  a * 256 + u8 b = Z.lor (Z.shiftl a 8) (u8 b).
Proof.
  rewrite Z.shiftl_mul_pow2 by lia. change (2 ^ 8) with 256.
  apply Z.add_nocarry_lor. apply Z.bits_inj'. intros n Hn.
  rewrite Z.land_spec, Z.bits_0.
  destruct (Z.lt_ge_cases n 8) as [Hlt|Hge].
  - change 256 with (2 ^ 8). rewrite Z.mul_pow2_bits_low by lia. reflexivity.
  - rewrite (testbit_u8_high b n Hge). apply andb_false_r.
Qed.

Lemma force_nibble_bits (b : byte) :
  u8 (force_nibble b) = Z.lor (Z.land (u8 b) 0xf0) 0x0a.
Proof. destruct b; reflexivity. Qed.

Lemma u8_byte_of_shiftr (x k : Z) :
  u8 (byte_of_Z (Z.shiftr x k)) = Z.land (Z.shiftr x k) 255.
Proof.
  rewrite u8_byte_of_Z. change 255 with (Z.ones 8).
  rewrite Z.land_ones by lia. reflexivity.
Qed.

(** Bit [n] of a term built from [Z.lor], [Z.land] and shifts, for a
    literal [n]: push [Z.testbit] to the leaves and evaluate it on the
    constants. *)
Ltac testbit_leaves x :=
  repeat first
    [ rewrite Z.lor_spec | rewrite Z.land_spec
    | match goal with
      | |- context [Z.testbit ?a ?i] => rewrite (Z.testbit_neg_r a i) by lia
      | |- context [Z.testbit (Z.shiftl ?a ?k) ?i] =>
          rewrite (Z.shiftl_spec a k i) by lia
      | |- context [Z.testbit (Z.shiftr ?a ?k) ?i] =>
          rewrite (Z.shiftr_spec a k i) by lia
      end ];
  repeat match goal with
  | |- context [Z.testbit ?a ?i] =>
      let i' := eval vm_compute in i in
      progress change (Z.testbit a i) with (Z.testbit a i')
  end;
  repeat match goal with
  | |- context [Z.testbit ?c ?i] =>
      lazymatch c with
      | context [x] => fail
      | _ => let v := eval vm_compute in (Z.testbit c i) in
             progress change (Z.testbit c i) with v
      end
  end;
  repeat match goal with
  | |- context [Z.testbit x ?i] => destruct (Z.testbit x i)
  end;
  reflexivity.

Lemma force_pattern_bytewise (x : Z) :
  0 <= x < 2 ^ 32 ->
  of_be (map force_nibble (htonl_bytes x)) =
  Z.lor (Z.land x 0xf0f0f0f0) 0x0a0a0a0a.
Proof.
  intros Hx. unfold of_be, htonl_bytes. cbn [map fold_left].
  rewrite !push_byte, !force_nibble_bits.
  replace x with (Z.shiftr x 0) at 4 by apply Z.shiftr_0_r.
  rewrite !u8_byte_of_shiftr.
  apply Z.bits_inj'. intros n Hn.
  destruct (Z.lt_ge_cases n 32) as [Hlt|Hge].
  - assert (Hk : (Z.to_nat n < 32)%nat) by lia.
    rewrite <- (Z2Nat.id n Hn). clear Hn Hlt.
    generalize dependent (Z.to_nat n). intros k Hk.
    do 32 (destruct k as [|k];
           [match goal with
            | |- context [Z.of_nat ?m] =>
                let v := eval vm_compute in (Z.of_nat m) in
                change (Z.of_nat m) with v
            end; testbit_leaves x|]).
    lia.
  - rewrite !Z.lor_spec, !Z.land_spec.
    rewrite (testbit_above 32 x n Hx Hge).
    rewrite (testbit_above 32 0x0a0a0a0a n) by lia.
    rewrite !Z.shiftl_spec by lia.
    rewrite !Z.lor_spec, !Z.land_spec.
    rewrite !Z.shiftl_spec by lia.
    rewrite !Z.lor_spec, !Z.land_spec.
    rewrite !Z.shiftl_spec by lia.
    rewrite !Z.lor_spec, !Z.land_spec.
    rewrite !Z.shiftl_spec by lia.
    rewrite Z.testbit_0_l.
    rewrite (testbit_above 8 255 (n - 8 - 8 - 8)) by lia.
    rewrite (testbit_above 8 255 (n - 8 - 8)) by lia.
    rewrite (testbit_above 8 255 (n - 8)) by lia.
    rewrite (testbit_above 8 255 n) by lia.
    rewrite (testbit_above 8 10 (n - 8 - 8 - 8)) by lia.
    rewrite (testbit_above 8 10 (n - 8 - 8)) by lia.
    rewrite (testbit_above 8 10 (n - 8)) by lia.
    rewrite (testbit_above 8 10 n) by lia.
    rewrite !andb_false_r. reflexivity.
Qed.


Lemma force_pattern_masks (h : Z) :
  let r := Z.lor (Z.land h 0xf0f0f0f0) 0x0a0a0a0a in
  0 <= r < 2 ^ 32 /\
  Z.land r 0x0f0f0f0f = 0x0a0a0a0a /\
  Z.land r 0xf0f0f0f0 = Z.land h 0xf0f0f0f0.
Proof.
  intros r. subst r. split; [|split].
  - assert (E : Z.land (Z.lor (Z.land h 0xf0f0f0f0) 0x0a0a0a0a) (Z.ones 32) =
                Z.lor (Z.land h 0xf0f0f0f0) 0x0a0a0a0a).
    { rewrite Z.land_lor_distr_l, <- Z.land_assoc. reflexivity. }
    rewrite Z.land_ones in E by lia. rewrite <- E.
    apply Z.mod_pos_bound. lia.
  - rewrite Z.land_lor_distr_l, <- Z.land_assoc.
    change (Z.land 0xf0f0f0f0 0x0f0f0f0f) with 0.
    rewrite Z.land_0_r. reflexivity.
  - rewrite Z.land_lor_distr_l, <- Z.land_assoc.
    change (Z.land 0xf0f0f0f0 0xf0f0f0f0) with 0xf0f0f0f0.
    change (Z.land 0x0a0a0a0a 0xf0f0f0f0) with 0.
    apply Z.lor_0_r.
Qed.

(** C6. The reserved-version generator is the function of (address bytes,
    requested version) that the specification describes: the 32-bit FNV-1a
    hash (offset basis 0x811C9DC5, xor then multiply by 0x01000193 for each
    byte) of the address bytes followed by the version in network byte
    order, in which every byte then gets its low nibble replaced by the
    fixed pattern 0xA while its high nibble is kept. Being a function of
    these two arguments alone, equal pairs give equal values. *)
Theorem reserved_version_is_patched_fnv1a (sa : list byte) (version : Z) :
  let h := fnv1a32 FNV_offset_basis (sa ++ htonl_bytes version) in
  let r := generate_reserved_vesrion sa version in
  r = reserved_version_spec sa version /\
  0 <= r < 2 ^ 32 /\
  Z.land r 0x0f0f0f0f = 0x0a0a0a0a /\
  Z.land r 0xf0f0f0f0 = Z.land h 0xf0f0f0f0.
Proof.
  intros h r.
  assert (Hh : 0 <= h < 2 ^ 32).
  { apply fnv1a32_range. unfold FNV_offset_basis. lia. }
  assert (Er : r = Z.lor (Z.land h 0xf0f0f0f0) 0x0a0a0a0a).
  { subst r h. unfold generate_reserved_vesrion.
    rewrite !fold_fnv_round, fnv1a32_app. reflexivity. }
  split.
  - rewrite Er. unfold reserved_version_spec. fold h.
    symmetry. apply force_pattern_bytewise. exact Hh.
  - rewrite Er. apply force_pattern_masks.
Qed.

End ReservedVersionFacts.

Section BridgeFacts.
Context {consts : Constants} {opaque : Opaque} {ext : Externals}.

Lemma vsize_nonneg (v : list byte) : 0 <= vsize v.
Proof. unfold vsize. lia. Qed.

Lemma size_app (a b : list byte) : vsize (a ++ b) = vsize a + vsize b.
Proof. unfold vsize. rewrite length_app. lia. Qed.

Lemma size_drop (n : Z) (v : list byte) :
  0 <= n <= vsize v -> vsize (drop (Z.to_nat n) v) = vsize v - n.
Proof. unfold vsize. intros Hn. rewrite length_drop. lia. Qed.

Lemma size_take (n : Z) (v : list byte) :
  0 <= n <= vsize v -> vsize (take (Z.to_nat n) v) = n.
Proof. unfold vsize. intros Hn. rewrite length_take. lia. Qed.

Lemma to_size_t_small (z : Z) : 0 <= z < 2 ^ 64 -> to_size_t z = z.
Proof. intros Hz. unfold to_size_t, wrap. apply Z.mod_small. exact Hz. Qed.

Lemma to_size_t_range (z : Z) : 0 <= to_size_t z < 2 ^ 64.
Proof. unfold to_size_t, wrap. apply Z.mod_pos_bound. lia. Qed.

Lemma read_server_handshake_spec (h : Handler) :
  cursors_ok h -> sizes_fit h ->
  read_server_handshake h =
    (vsize (unread_server h), unread_server h, set_ncread_ (ncread_ h + vsize (unread_server h)) h).
Proof.
  intros [Hc _] [Hf _]. unfold read_server_handshake, unread_server.
  rewrite size_drop by exact Hc.
  rewrite to_size_t_small by lia.
  replace (ncread_ h + (vsize (chandshake_ h) - ncread_ h)) with (vsize (chandshake_ h)) by lia.
  reflexivity.
Qed.

Lemma read_client_handshake_spec (buflen : Z) (h : Handler) :
  cursors_ok h -> sizes_fit h -> 0 <= buflen ->
  let n := Z.min buflen (vsize (unread_client h)) in
  read_client_handshake buflen h =
    (n, take (Z.to_nat n) (unread_client h), set_nsread_ (nsread_ h + n) h).
Proof.
  intros [_ Hc] [_ Hf] Hb n. subst n. unfold read_client_handshake, unread_client.
  rewrite size_drop by exact Hc.
  rewrite (to_size_t_small (vsize (shandshake_ h) - nsread_ h)) by lia.
  rewrite to_size_t_small by lia.
  reflexivity.
Qed.


Lemma bridge_step_queues (o : bridge_op) (h : Handler) :
  chandshake_ h `prefix_of` chandshake_ (bridge_step o h).2 /\
  shandshake_ h `prefix_of` shandshake_ (bridge_step o h).2.
Proof.
  destruct o; cbn; split; try reflexivity; apply prefix_app_r; reflexivity.
Qed.

Lemma prefix_vsize (a b : list byte) : a `prefix_of` b -> vsize a <= vsize b.
Proof. intros H. apply prefix_length in H. unfold vsize. lia. Qed.

Lemma bridge_run_queues (ops : list bridge_op) (h : Handler) :
  chandshake_ h `prefix_of` chandshake_ (bridge_run ops h).2 /\
  shandshake_ h `prefix_of` shandshake_ (bridge_run ops h).2.
Proof.
  revert h. induction ops as [|o ops IH]; intros h; [split; reflexivity|].
  cbn. pose proof (bridge_step_queues o h) as [Hc Hs].
  destruct (bridge_step o h) as [[n bs] h'].
  specialize (IH h'). destruct (bridge_run ops h') as [calls h''].
  cbn in *. destruct IH as [IHc IHs]. split; etrans; eauto.
Qed.

Lemma sizes_fit_prefix (h h' : Handler) :
  chandshake_ h `prefix_of` chandshake_ h' ->
  shandshake_ h `prefix_of` shandshake_ h' ->
  sizes_fit h' -> sizes_fit h.
Proof.
  intros Hc Hs [Fc Fs]. apply prefix_vsize in Hc, Hs. split; lia.
Qed.

Lemma unread_client_vsize (h : Handler) :
  cursors_ok h -> vsize (unread_client h) = vsize (shandshake_ h) - nsread_ h.
Proof. intros [_ Hc]. apply size_drop. exact Hc. Qed.

Lemma bridge_step_ok (o : bridge_op) (h : Handler) :
  cursors_ok h -> sizes_fit h ->
  call_ok {| before := h; op := o; count := (bridge_step o h).1.1;
             bytes := (bridge_step o h).1.2; after := (bridge_step o h).2 |}.
Proof.
  intros Hok Hfit. pose proof (bridge_step_queues o h) as [Hpc Hps].
  unfold call_ok. cbn [before after op count bytes].
  split; [|split; [exact Hpc|split; [exact Hps|]]].
  - pose proof Hok as [Hc Hs]. destruct o; cbn [bridge_step].
    + unfold cursors_ok. cbn. rewrite size_app. pose proof (vsize_nonneg data). lia.
    + rewrite read_server_handshake_spec by assumption.
      unfold cursors_ok. cbn. unfold unread_server.
      rewrite size_drop by exact Hc. lia.
    + pose proof (to_size_t_range buflen) as Hb.
      rewrite read_client_handshake_spec by (try assumption; lia).
      unfold cursors_ok. cbn.
      rewrite unread_client_vsize by assumption. lia.
    + unfold cursors_ok. cbn. rewrite size_app. pose proof (vsize_nonneg data). lia.
  - destruct o; cbn [bridge_step].
    + cbn. auto.
    + rewrite read_server_handshake_spec by assumption. cbn. auto 8.
    + pose proof (to_size_t_range buflen) as Hb.
      rewrite read_client_handshake_spec by (try assumption; lia). cbn.
      pose proof (vsize_nonneg (unread_client h)).
      split; [apply prefix_take|].
      split; [symmetry; apply size_take; lia|]. auto 8.
    + cbn. auto.
Qed.

(** C8. Along every sequence of bridge operations, started in a state whose
    cursors lie within their queues (a new Handler is one), each cursor
    stays within its queue; every read returns the unread suffix of its
    queue ([read_server_handshake]) or a prefix of it
    ([read_client_handshake]) and advances the cursor by the number of bytes
    returned; every operation leaves each queue as it was or appends to it.
    Queue sizes are [size_t] values, hence below 2^64. *)
Theorem queue_cursors_invariant (ops : list bridge_op) (h0 : Handler) :
  cursors_ok h0 ->
  sizes_fit (bridge_run ops h0).2 ->
  cursors_ok (bridge_run ops h0).2 /\ Forall call_ok (bridge_run ops h0).1.
Proof.
  revert h0. induction ops as [|o ops IH]; intros h0 Hok Hfit.
  - cbn. split; [exact Hok | constructor].
  - cbn in *.
    pose proof (bridge_step_queues o h0) as [Hpc Hps].
    pose proof (bridge_step_ok o h0 Hok) as Hstep.
    destruct (bridge_step o h0) as [[n bs] h'] eqn:Estep.
    pose proof (bridge_run_queues ops h') as [Hrc Hrs].
    specialize (IH h').
    destruct (bridge_run ops h') as [calls h''] eqn:Erun.
    cbn in *.
    assert (Hfit' : sizes_fit h') by (eapply sizes_fit_prefix; eauto).
    assert (Hfit0 : sizes_fit h0) by (eapply sizes_fit_prefix; eauto).
    specialize (Hstep Hfit0).
    destruct (IH (proj1 Hstep) Hfit) as [Hfin Hcalls].
    split; [exact Hfin | constructor; assumption].
Qed.


Lemma to_int_small (z : Z) : 0 <= z <= INT_MAX -> to_int z = z.
Proof.
  unfold INT_MAX, to_int, to_signed, wrap. intros Hz.
  rewrite Z.mod_small by lia.
  change (2 ^ (32 - 1)) with 2147483648.
  destruct (Z.ltb_spec z 2147483648); lia.
Qed.

(** C9. [bio_read] with a positive [len]: when the inbound queue holds
    unread bytes it returns the first [min len unread] of them (a positive
    count), advances the cursor by that count and leaves no retry flag;
    when nothing is unread it returns -1 with the retry-read flag set, and
    not 0, and leaves the cursor where it was. The queues themselves are
    never changed. *)
Theorem bio_read_blocks_when_empty (len : Z) (h : Handler) :
  cursors_ok h -> sizes_fit h -> 0 < len <= INT_MAX ->
  let r := bio_read len h in
  let ret := r.1.1 in
  let buf := r.1.2 in
  let h' := r.2 in
  shandshake_ h' = shandshake_ h /\ chandshake_ h' = chandshake_ h /\
  ncread_ h' = ncread_ h /\
  match unread_client h with
  | [] => ret = -1 /\ buf = [] /\ bio_ h' = BIO_retry_read /\ nsread_ h' = nsread_ h
  | _ :: _ =>
      0 < ret /\ ret = Z.min len (vsize (unread_client h)) /\
      buf = take (Z.to_nat ret) (unread_client h) /\
      nsread_ h' = nsread_ h + ret /\ bio_ h' = BIO_no_retry
  end.
Proof.
  intros Hok Hfit Hlen r ret buf h'. subst ret buf h' r.
  assert (Hok' : cursors_ok (set_bio_ (BIO_clear_retry_flags (bio_ h)) h)) by exact Hok.
  assert (Hfit' : sizes_fit (set_bio_ (BIO_clear_retry_flags (bio_ h)) h)) by exact Hfit.
  unfold bio_read.
  assert (Hl : to_size_t len = len).
  { apply to_size_t_small. unfold INT_MAX in Hlen. lia. }
  rewrite Hl.
  rewrite (read_client_handshake_spec len _ Hok' Hfit') by lia.
  change (unread_client (set_bio_ (BIO_clear_retry_flags (bio_ h)) h))
    with (unread_client h).
  pose proof (vsize_nonneg (unread_client h)) as Hnn.
  rewrite to_int_small by lia.
  destruct (unread_client h) as [|b rest] eqn:Eu.
  - change (vsize []) with 0. rewrite Z.min_r by lia. cbn.
    repeat split; try reflexivity. lia.
  - assert (Hpos : 0 < vsize (b :: rest)) by (unfold vsize; cbn; lia).
    destruct (Z.eqb_spec (Z.min len (vsize (b :: rest))) 0) as [E0|Hne]; [lia|].
    cbn. repeat split; try reflexivity. lia.
Qed.

End BridgeFacts.

Section CryptoFacts.
Context {consts : Constants} {opaque : Opaque} {ext : Externals}.

(** The body returns 0 exactly when the four calls whose result it tests
    return 0; what the four derivation calls return is never looked at. *)
Lemma setup_crypto_context_body_unfold (ssl : SSL) (ctx : Context) (conn : ngtcp2_conn) :
  let p1 := negotiated_prf ctx ssl in
  let p2 := negotiated_aead p1.2 ssl in
  let ctx3 := set_secretlen (EVP_MD_size (prf p2.2)) p2.2 in
  let e1 := export_server_secret (tx_secret ctx3) (secretlen ctx3) ssl in
  let ctx4 := set_tx_secret e1.2 ctx3 in
  let k1 := derive_packet_protection_key (replicate 64 x00) 64
              (tx_secret ctx4) (secretlen ctx4) ctx4 in
  let i1 := derive_packet_protection_iv (replicate 64 x00) 64
              (tx_secret ctx4) (secretlen ctx4) ctx4 in
  let conn1 := ngtcp2_conn_update_tx_keys conn k1.2 (to_size_t k1.1) i1.2 (to_size_t i1.1) in
  let e2 := export_client_secret (rx_secret ctx4) (secretlen ctx4) ssl in
  let ctx5 := set_rx_secret e2.2 ctx4 in
  let k2 := derive_packet_protection_key k1.2 (vsize k1.2)
              (rx_secret ctx5) (secretlen ctx5) ctx5 in
  let i2 := derive_packet_protection_iv i1.2 (vsize i1.2)
              (rx_secret ctx5) (secretlen ctx5) ctx5 in
  let conn2 := ngtcp2_conn_update_rx_keys conn1 k2.2 (to_size_t k2.1) i2.2 (to_size_t i2.1) in
  setup_crypto_context_body ssl ctx conn =
    if negb (p1.1 =? 0) then (-1, p1.2, conn) else
    if negb (p2.1 =? 0) then (-1, p2.2, conn) else
    if negb (e1.1 =? 0) then (-1, ctx4, conn) else
    if negb (e2.1 =? 0) then (-1, ctx5, conn1) else
    (0, ctx5, ngtcp2_conn_set_aead_overhead conn2 (aead_max_overhead ctx5)).
Proof.
  cbv zeta. unfold setup_crypto_context_body.
  destruct (negotiated_prf ctx ssl) as [rv1 ctx1]. cbn [fst snd].
  destruct (negb (rv1 =? 0)); [reflexivity|].
  destruct (negotiated_aead ctx1 ssl) as [rv2 ctx2]. cbn [fst snd].
  destruct (negb (rv2 =? 0)); [reflexivity|].
  destruct (export_server_secret _ _ ssl) as [rv3 sec]. cbn [fst snd].
  destruct (negb (rv3 =? 0)); [reflexivity|].
  change (vsize (replicate 64 x00)) with 64.
  destruct (derive_packet_protection_key (replicate 64 x00) _ _ _ _) as [keylen key].
  destruct (derive_packet_protection_iv (replicate 64 x00) _ _ _ _) as [ivlen iv].
  cbn [fst snd].
  destruct (export_client_secret _ _ ssl) as [rv4 sec']. cbn [fst snd].
  destruct (negb (rv4 =? 0)); [reflexivity|].
  destruct (derive_packet_protection_key key _ _ _ _) as [keylen' key'].
  destruct (derive_packet_protection_iv iv _ _ _ _) as [ivlen' iv'].
  reflexivity.
Qed.


Lemma handshake_completed_unfold (h : Handler) (w : World) (ssl : SSL) (conn : ngtcp2_conn) :
  ssl_ h = Some ssl -> conn_ h = Some conn ->
  handshake_completed (h, w) =
    let r := setup_crypto_context_body ssl (crypto_ctx_ h) conn in
    Ret (if negb (r.1.1 =? 0) then NGTCP2_ERR_CALLBACK_FAILURE else 0,
         (set_conn_ (Some r.2) (set_crypto_ctx_ r.1.2 h), w)).
Proof.
  intros Hs Hc.
  unfold handshake_completed, setup_crypto_context, mbind, prog_mbind, prog_bind, this.
  cbn [fst snd]. rewrite Hs, Hc.
  destruct (setup_crypto_context_body ssl (crypto_ctx_ h) conn) as [[rv ctx] c].
  cbn. destruct (negb (rv =? 0)); reflexivity.
Qed.

(** C4 (the code departs from it). When the four calls whose result
    [setup_crypto_context] tests succeed, the handshake-completed callback
    reports success to the engine and installs the keys of both
    directions, also when a key or IV derivation failed (returned a
    negative length): the length is then installed as the [size_t] value it
    converts to. *)
Theorem derivation_failure_is_not_detected
    (h : Handler) (w : World) (ssl : SSL) (conn : ngtcp2_conn) :
  let p1 := negotiated_prf (crypto_ctx_ h) ssl in
  let p2 := negotiated_aead p1.2 ssl in
  let ctx3 := set_secretlen (EVP_MD_size (prf p2.2)) p2.2 in
  let e1 := export_server_secret (tx_secret ctx3) (secretlen ctx3) ssl in
  let ctx4 := set_tx_secret e1.2 ctx3 in
  let k1 := derive_packet_protection_key (replicate 64 x00) 64
              (tx_secret ctx4) (secretlen ctx4) ctx4 in
  let i1 := derive_packet_protection_iv (replicate 64 x00) 64
              (tx_secret ctx4) (secretlen ctx4) ctx4 in
  let conn1 := ngtcp2_conn_update_tx_keys conn k1.2 (to_size_t k1.1) i1.2 (to_size_t i1.1) in
  let e2 := export_client_secret (rx_secret ctx4) (secretlen ctx4) ssl in
  let ctx5 := set_rx_secret e2.2 ctx4 in
  let k2 := derive_packet_protection_key k1.2 (vsize k1.2)
              (rx_secret ctx5) (secretlen ctx5) ctx5 in
  let i2 := derive_packet_protection_iv i1.2 (vsize i1.2)
              (rx_secret ctx5) (secretlen ctx5) ctx5 in
  let conn2 := ngtcp2_conn_update_rx_keys conn1 k2.2 (to_size_t k2.1) i2.2 (to_size_t i2.1) in
  ssl_ h = Some ssl -> conn_ h = Some conn ->
  p1.1 = 0 -> p2.1 = 0 -> e1.1 = 0 -> e2.1 = 0 ->
  k1.1 < 0 \/ i1.1 < 0 \/ k2.1 < 0 \/ i2.1 < 0 ->
  handshake_completed (h, w) =
    Ret (0, (set_conn_ (Some (ngtcp2_conn_set_aead_overhead conn2 (aead_max_overhead ctx5)))
               (set_crypto_ctx_ ctx5 h), w)).
Proof.
  intros p1 p2 ctx3 e1 ctx4 k1 i1 conn1 e2 ctx5 k2 i2 conn2 Hs Hc H1 H2 H3 H4 _.
  rewrite (handshake_completed_unfold h w ssl conn Hs Hc).
  rewrite setup_crypto_context_body_unfold.
  fold p1. fold p2. fold ctx3. fold e1. fold ctx4. fold k1. fold i1. fold conn1.
  fold e2. fold ctx5. fold k2. fold i2. fold conn2.
  rewrite H1, H2, H3, H4. reflexivity.
Qed.

(** Whenever the body succeeds it has installed keys for both directions
    and the overhead, on top of whatever the connection held. *)
Lemma setup_crypto_context_body_installs
    (ssl : SSL) (ctx ctx' : Context) (conn conn' : ngtcp2_conn) :
  setup_crypto_context_body ssl ctx conn = (0, ctx', conn') ->
  exists key keylen iv ivlen key' keylen' iv' ivlen',
    conn' = ngtcp2_conn_set_aead_overhead
              (ngtcp2_conn_update_rx_keys
                 (ngtcp2_conn_update_tx_keys conn key keylen iv ivlen)
                 key' keylen' iv' ivlen')
              (aead_max_overhead ctx').
Proof.
  rewrite setup_crypto_context_body_unfold. cbv zeta.
  repeat match goal with
  | |- context [if negb (?x =? 0) then _ else _] =>
      destruct (negb (x =? 0)); [intros [=]|]
  end.
  intros [= <- <-]. eauto 10.
Qed.


Lemma run_ssl_io_conn (p : ssl_io SSL) (h : Handler) :
  conn_ (run_ssl_io p h).2 = conn_ h.
Proof.
  revert h. induction p as [rv s | len k IH | buf k IH]; intros h; cbn [run_ssl_io].
  - reflexivity.
  - unfold bio_read, read_client_handshake.
    destruct (to_int _ =? 0); cbn; rewrite IH; reflexivity.
  - cbn. rewrite IH. reflexivity.
Qed.

(** C5 (as the code has it). server.cc keeps no record of a derivation
    already done. On a handler with its TLS and connection objects, in
    whatever state its crypto context is: every call of the
    [handshake_completed] callback runs [setup_crypto_context] on the
    current context and, when that succeeds, leaves the keys of both
    directions and the AEAD overhead installed again on the connection; and
    every [tls_handshake] in which [SSL_do_handshake] returns a positive
    value tells the engine again that the handshake completed. *)
Theorem handshake_complete_path_has_no_guard
    (h : Handler) (w : World) (ssl : SSL) (conn : ngtcp2_conn) :
  ssl_ h = Some ssl -> conn_ h = Some conn ->
  (forall ctx' conn',
     setup_crypto_context_body ssl (crypto_ctx_ h) conn = (0, ctx', conn') ->
     handshake_completed (h, w) =
       Ret (0, (set_conn_ (Some conn') (set_crypto_ctx_ ctx' h), w)) /\
     exists key keylen iv ivlen key' keylen' iv' ivlen',
       conn' = ngtcp2_conn_set_aead_overhead
                 (ngtcp2_conn_update_rx_keys
                    (ngtcp2_conn_update_tx_keys conn key keylen iv ivlen)
                    key' keylen' iv' ivlen')
                 (aead_max_overhead ctx')) /\
  (forall rv ssl' h',
     run_ssl_io (SSL_do_handshake ssl) h = (rv, ssl', h') -> 0 < rv ->
     tls_handshake (h, w) =
       Ret (0, (set_conn_ (Some (ngtcp2_conn_handshake_completed conn))
                  (set_ssl_ (Some ssl') h'), w))).
Proof.
  intros Hs Hc. split.
  - intros ctx' conn' Hbody. split.
    + rewrite (handshake_completed_unfold h w ssl conn Hs Hc), Hbody. reflexivity.
    + eapply setup_crypto_context_body_installs. exact Hbody.
  - intros rv ssl' h' Hrun Hrv.
    pose proof (run_ssl_io_conn (SSL_do_handshake ssl) h) as Hconn.
    rewrite Hrun in Hconn. cbn [snd] in Hconn.
    unfold tls_handshake, mbind, prog_mbind, prog_bind, this, update, modify,
      mret, prog_mret, prog_ret.
    cbn [fst snd]. rewrite Hs, Hrun.
    destruct (Z.leb_spec rv 0) as [?|_]; [lia|].
    cbn [fst snd conn_ set_ssl_]. rewrite Hconn, Hc. reflexivity.
Qed.

End CryptoFacts.

Section ServerFacts.
Context {consts : Constants} {opaque : Opaque} {ext : Externals}.

Ltac monad :=
  unfold slog, log, this, world, update in *;
  unfold mbind, mret, prog_mbind, prog_mret, prog_bind, prog_ret,
    get, modify, fault in *;
  cbn beta iota in *.

Lemma create_conn_key_ok (su : sockaddr) (host serv : string) (s : Server) :
  getnameinfo su = (0, (host, serv)) ->
  create_conn_key su s = Ret (conn_key_of host serv, s).
Proof.
  intros H. unfold create_conn_key. rewrite H. reflexivity.
Qed.

Lemma conn_key_nonempty (host serv : string) :
  String.eqb (conn_key_of host serv) "" = false.
Proof. reflexivity. Qed.

Lemma htonl_bytes_length (v : Z) : length (htonl_bytes v) = 4%nat.
Proof. reflexivity. Qed.

Lemma send_version_negotiation_sends (chd : ngtcp2_pkt_hd) (su : sockaddr) (s : Server) :
  NGTCP2_PKT_FLAG_LONG_FORM <> 0 ->
  let r := sendto (os (env s)) (Server_fd_ s) (vn_packet chd su) su in
  let w := emit (Sendto (Server_fd_ s) (vn_packet chd su) su r.1) (set_os r.2 (env s)) in
  send_version_negotiation chd su s =
    if r.1 =? -1 then Ret (-1, set_env (emit (Stderr "sendto: ") w) s)
    else Ret (0, set_env w s).
Proof.
  intros Hlong r w. subst w r.
  unfold send_version_negotiation, ngtcp2_upe_new, ngtcp2_upe_encode_hd,
    ngtcp2_upe_encode_version_negotiation, ngtcp2_upe_final, upe_put.
  cbn [hd_flags hd_type hd_conn_id hd_pkt_num hd_version upe_buf upe_cap].
  rewrite Z.land_diag.
  destruct (Z.eqb_spec NGTCP2_PKT_FLAG_LONG_FORM 0) as [E|_]; [contradiction|].
  cbn [negb Z.eqb].
  change (vsize [] + vsize _ <=? 256) with true. cbn iota.
  cbn [negb Z.eqb upe_buf upe_cap app].
  change (vsize _ + vsize _ <=? 256) with true. cbn iota.
  cbn [negb Z.eqb upe_buf upe_cap].
  unfold Server_sendto. monad.
  match goal with
  | |- context [sendto ?k ?fd ?d ?a] =>
      change d with (vn_packet chd su)
  end.
  destruct (sendto (os (env s)) (Server_fd_ s) (vn_packet chd su) su) as [r k].
  cbn [fst snd]. destruct (r =? -1); reflexivity.
Qed.

Lemma version_negotiation_reply
    (fuel : nat) (buf : list byte) (su : sockaddr) (host serv : string)
    (chd : ngtcp2_pkt_hd) (s : Server) :
  NGTCP2_PKT_FLAG_LONG_FORM <> 0 ->
  getnameinfo su = (0, (host, serv)) ->
  handlers_ s !! conn_key_of host serv = None ->
  too_short (ss_family su) (vsize buf) = None ->
  ngtcp2_accept buf = (1, chd) ->
  exists s' ret evs,
    Server_on_read fuel (recvfrom_ok buf su) s = Ret (0, s') /\
    handlers_ s' = handlers_ s /\ objects s' = objects s /\
    written s s' evs /\
    filter is_sendto evs = [Sendto (Server_fd_ s) (vn_packet chd su) su ret].
Proof.
  intros Hlong Hname Hnone Hfloor Hacc.
  unfold Server_on_read. monad.
  rewrite (create_conn_key_ok su host serv s Hname).
  rewrite conn_key_nonempty, Hnone, Hfloor, Hacc.
  cbn [Z.eqb Pos.eqb]. cbn beta iota.
  pose proof (send_version_negotiation_sends chd su
    (set_env (emit (Stderr "Unsupported version: Send Version Negotiation") (env s)) s) Hlong)
    as Hsend.
  cbv zeta in Hsend. cbn [env set_env Server_fd_ os emit] in Hsend.
  rewrite Hsend. clear Hsend.
  destruct (sendto (os (env s)) (Server_fd_ s) (vn_packet chd su) su) as [r k].
  cbn [fst snd]. destruct (r =? -1).
  - eexists _, r, _. split; [reflexivity|]. repeat split.
    + unfold written. cbn. rewrite <- !app_assoc. reflexivity.
    + reflexivity.
  - eexists _, r, _. split; [reflexivity|]. repeat split.
    + unfold written. cbn. rewrite <- !app_assoc. reflexivity.
    + reflexivity.
Qed.


Lemma short_datagram_dropped
    (fuel : nat) (buf : list byte) (su : sockaddr) (host serv msg : string) (s : Server) :
  getnameinfo su = (0, (host, serv)) ->
  handlers_ s !! conn_key_of host serv = None ->
  too_short (ss_family su) (vsize buf) = Some msg ->
  Server_on_read fuel (recvfrom_ok buf su) s =
    Ret (0, set_env (emit (Stderr msg) (env s)) s).
Proof.
  intros Hname Hnone Hfloor.
  unfold Server_on_read. monad.
  rewrite (create_conn_key_ok su host serv s Hname).
  rewrite conn_key_nonempty, Hnone, Hfloor. reflexivity.
Qed.

(** *** Programs that write on [out] only by appending *)

Lemma no_sendto_app (a b : list event) : no_sendto a -> no_sendto b -> no_sendto (a ++ b).
Proof. unfold no_sendto. intros Ha Hb. rewrite filter_app, Ha, Hb. reflexivity. Qed.

Lemma emits_bind {A B : Type} (P : A -> list event -> Prop) (Q : B -> list event -> Prop)
    (R : B -> list event -> Prop) (m : hprog A) (k : A -> hprog B) :
  emits P m ->
  (forall a, emits Q (k a)) ->
  (forall a b e1 e2, P a e1 -> Q b e2 -> R b (e1 ++ e2)) ->
  emits R (m ≫= k).
Proof.
  intros Hm Hk HR s b s'. unfold mbind, prog_mbind, prog_bind.
  destruct (m s) as [[a s1]| |] eqn:Em; try discriminate.
  intros Ek.
  destruct (Hm _ _ _ Em) as (e1 & E1 & HP).
  destruct (Hk a _ _ _ Ek) as (e2 & E2 & HQ).
  exists (e1 ++ e2). split; [rewrite E2, E1, app_assoc; reflexivity | eauto].
Qed.


Lemma quiet_bind {A B : Type} (m : hprog A) (k : A -> hprog B) :
  quiet m -> (forall a, quiet (k a)) -> quiet (m ≫= k).
Proof.
  intros Hm Hk. eapply emits_bind; [exact Hm | exact Hk |].
  intros; apply no_sendto_app; assumption.
Qed.

Lemma quiet_ret {A : Type} (a : A) : quiet (mret a : hprog A).
Proof.
  intros s a' s' [= <- <-]. exists []. split; [rewrite app_nil_r|]; reflexivity.
Qed.

Lemma quiet_fault {A : Type} (why : string) : quiet (fault why : hprog A).
Proof. intros s a s' [=]. Qed.

Lemma quiet_this : quiet this.
Proof.
  intros s a' s' [= <- <-]. exists []. split; [rewrite app_nil_r|]; reflexivity.
Qed.

Lemma quiet_world : quiet world.
Proof.
  intros s a' s' [= <- <-]. exists []. split; [rewrite app_nil_r|]; reflexivity.
Qed.

Lemma quiet_update (f : Handler -> Handler) : quiet (update f).
Proof.
  intros s a' s' [= <- <-]. exists []. split; [rewrite app_nil_r|]; reflexivity.
Qed.

Lemma quiet_log (msg : string) : quiet (log msg).
Proof.
  intros s a' s' [= <- <-]. exists [Stderr msg]. split; reflexivity.
Qed.

Lemma quiet_draw (lo hi : Z) : quiet (draw lo hi).
Proof.
  intros s a s'. unfold draw.
  destruct (uniform_int_distribution lo hi (randgen s.2)) as [v g].
  intros [= <- <-]. exists []. split; [rewrite app_nil_r|]; reflexivity.
Qed.

Ltac quiet :=
  repeat first
    [ apply quiet_ret | apply quiet_fault | apply quiet_this | apply quiet_world
    | apply quiet_update | apply quiet_log | apply quiet_draw
    | apply quiet_bind; [|intros ?]
    | progress cbv zeta
    | match goal with
      | |- quiet (if ?b then _ else _) => destruct b
      | |- quiet (match ?x with _ => _ end) => destruct x
      | |- quiet (let '(_, _) := ?x in _) => destruct x
      end ].

Lemma quiet_tls_handshake : quiet tls_handshake.
Proof. unfold tls_handshake. quiet. Qed.

Lemma quiet_setup_crypto_context : quiet setup_crypto_context.
Proof. unfold setup_crypto_context. quiet. Qed.

Lemma quiet_run_callback (cb : callback) : quiet (run_callback cb).
Proof.
  destruct cb; cbn [run_callback];
    unfold send_server_cleartext, recv_handshake_data, handshake_completed.
  - apply quiet_bind; [apply quiet_tls_handshake|intros ?]. quiet.
  - apply quiet_bind; [|intros ?; quiet].
    apply quiet_bind; [quiet|intros ?].
    apply quiet_bind; [apply quiet_tls_handshake|intros ?]. quiet.
  - apply quiet_bind; [|intros ?; quiet].
    apply quiet_bind; [apply quiet_setup_crypto_context|intros ?]. quiet.
Qed.

Lemma quiet_run_conn_io (p : conn_io ngtcp2_conn) : quiet (run_conn_io p).
Proof.
  induction p as [rv buf c | c cb k IH]; intros s a s'; cbn [run_conn_io].
  - intros [= <- <-]. exists []. split; [rewrite app_nil_r|]; reflexivity.
  - destruct (run_callback cb _) as [[r s1]| |] eqn:Ecb; try discriminate.
    destruct (conn_ s1.1) as [c'|]; [|discriminate].
    intros Ek.
    destruct (quiet_run_callback cb _ _ _ Ecb) as (e1 & E1 & H1).
    destruct (IH r c' _ _ _ Ek) as (e2 & E2 & H2).
    exists (e1 ++ e2). split; [|apply no_sendto_app; assumption].
    rewrite E2, E1, app_assoc. reflexivity.
Qed.

Lemma quiet_feed_data (data : list byte) : quiet (feed_data data).
Proof.
  unfold feed_data.
  apply quiet_bind; [quiet|intros h]. destruct (conn_ h); [|quiet].
  apply quiet_bind; [quiet|intros w].
  apply quiet_bind; [apply quiet_run_conn_io|intros [rv buf]]. quiet.
Qed.


Lemma no_sendto_elem (evs : list event) (fd : Z) (d : list byte) (a : sockaddr) (r : Z) :
  no_sendto evs -> Sendto fd d a r ∈ evs -> False.
Proof.
  unfold no_sendto. intros Hq Hin.
  assert (Hf : Sendto fd d a r ∈ filter is_sendto evs).
  { apply list_elem_of_filter. split; [reflexivity | exact Hin]. }
  rewrite Hq in Hf. inversion Hf.
Qed.


Lemma on_write_loop_step (fuel : nat) (s : Handler * World) (c : ngtcp2_conn) :
  conn_ s.1 = Some c ->
  on_write_loop (S fuel) s =
    match run_conn_io (ngtcp2_conn_send c NGTCP2_MAX_PKTLEN_IPV4 (timestamp (os s.2))) s with
    | Ret (n, buf, s1) =>
        if n <? 0 then Ret (-1, (s1.1, emit (Stderr "ngtcp2_conn_send: ") s1.2)) else
        if n =? 0 then Ret (0, s1) else
        let d := take (Z.to_nat n) buf in
        let r := sendto (os s1.2) (fd_ s1.1) d (remote_addr_ s1.1) in
        let w := emit (Sendto (fd_ s1.1) d (remote_addr_ s1.1) r.1) (set_os r.2 s1.2) in
        if r.1 =? -1 then Ret (-1, (s1.1, emit (Stderr "sendto: ") w))
        else on_write_loop fuel (s1.1, w)
    | Fault why => Fault why
    | OutOfFuel => OutOfFuel
    end.
Proof.
  intros Hc. cbn [on_write_loop]. monad. cbn [fst snd]. rewrite Hc.
  destruct (run_conn_io _ s) as [[[n buf] s1]| |]; try reflexivity.
  destruct (n <? 0); [reflexivity|].
  destruct (n =? 0); [destruct s1; reflexivity|].
  unfold do_sendto. cbn [fst snd].
  destruct (sendto _ _ _ _) as [r k]. cbn [fst snd].
  destruct (r =? -1); reflexivity.
Qed.


(** *** The two paths of [Server::on_read] *)

Lemma known_peer_read
    (fuel : nat) (buf : list byte) (su : sockaddr) (host serv : string)
    (s : Server) (p : address) (h : Handler) :
  getnameinfo su = (0, (host, serv)) ->
  handlers_ s !! conn_key_of host serv = Some p ->
  objects s !! p = Some h ->
  Server_on_read fuel (recvfrom_ok buf su) s =
    match Handler_on_read fuel buf (h, env s) with
    | Ret (rv, (h', w')) =>
        if negb (rv =? 0) then
          Ret (0, set_handlers_ (delete (conn_key_of host serv) (handlers_ s))
                    (set_objects (delete p (objects s))
                       (set_env (emit (Stderr "Closing QUIC connection") w') s)))
        else Ret (0, set_env w' (set_objects (<[p := h']> (objects s)) s))
    | Fault why => Fault why
    | OutOfFuel => OutOfFuel
    end.
Proof.
  intros Hname Hkey Hobj.
  unfold Server_on_read. monad.
  rewrite (create_conn_key_ok su host serv s Hname).
  rewrite conn_key_nonempty, Hkey. unfold call. rewrite Hobj.
  destruct (Handler_on_read fuel buf (h, env s)) as [[rv [h' w']]| |]; try reflexivity.
  destruct (negb (rv =? 0)); [|reflexivity].
  unfold erase, delete_Handler. monad. cbn [handlers_ set_env set_objects objects].
  rewrite Hkey. cbn [handlers_ set_env set_objects objects].
  rewrite lookup_insert_eq. cbn.
  rewrite delete_insert_eq. reflexivity.
Qed.

Lemma Handler_init_returns (fd : Z) (sa : sockaddr) (s : Handler * World) :
  exists rv s', Handler_init fd sa s = Ret (rv, s').
Proof.
  unfold Handler_init. monad. cbn [fst snd].
  destruct (ss_family sa); cbn; unfold draw; cbn;
    try (destruct (uniform_int_distribution _ _ _) as [v g]; cbn;
         destruct (ngtcp2_conn_server_new v NGTCP2_PROTO_VERSION) as [rv c]; cbn;
         destruct (negb (rv =? 0))); eauto.
Qed.

Lemma new_peer_read
    (fuel : nat) (b0 : byte) (rest : list byte) (su : sockaddr) (host serv : string)
    (s : Server) (rv : Z) (chd : ngtcp2_pkt_hd) :
  let buf := b0 :: rest in
  let p := next_address s in
  getnameinfo su = (0, (host, serv)) ->
  handlers_ s !! conn_key_of host serv = None ->
  too_short (ss_family su) (vsize buf) = None ->
  ngtcp2_accept buf = (rv, chd) -> rv <> -1 -> rv <> 1 ->
  Z.land (u8 b0) 0x7f = NGTCP2_PKT_CLIENT_INITIAL ->
  objects s !! p = None ->
  Server_on_read fuel (recvfrom_ok buf su) s =
    match Handler_init (Server_fd_ s) su (Handler_new, env s) with
    | Ret (_, s0) =>
        match Handler_on_read fuel buf s0 with
        | Ret (rv', (h1, w1)) =>
            if negb (rv' =? 0) then
              Ret (0, set_next_address (S p)
                        (set_env (emit (Stderr "Closing QUIC connection") w1) s))
            else
              Ret (0, set_handlers_ (<[conn_key_of host serv := p]> (handlers_ s))
                        (set_next_address (S p)
                           (set_objects (<[p := h1]> (objects s)) (set_env w1 s))))
        | Fault why => Fault why
        | OutOfFuel => OutOfFuel
        end
    | Fault why => Fault why
    | OutOfFuel => OutOfFuel
    end.
Proof.
  intros buf p Hname Hkey Hfloor Hacc Hrv1 Hrv2 Htype Hfresh. subst buf.
  unfold Server_on_read. monad.
  rewrite (create_conn_key_ok su host serv s Hname).
  rewrite conn_key_nonempty, Hkey, Hfloor, Hacc.
  destruct (Z.eqb_spec rv (-1)) as [?|_]; [contradiction|].
  destruct (Z.eqb_spec rv 1) as [?|_]; [contradiction|].
  rewrite Htype, Z.eqb_refl. cbn [negb].
  unfold new_Handler, call. cbn [objects set_objects set_next_address env].
  rewrite lookup_insert_eq.
  destruct (Handler_init (Server_fd_ s) su (Handler_new, env s)) as [[ri [h0 w0]]| |];
    try reflexivity.
  cbn [objects set_objects set_next_address set_env env].
  rewrite lookup_insert_eq.
  destruct (Handler_on_read fuel (b0 :: rest) (h0, w0)) as [[rv' [h1 w1]]| |];
    try reflexivity.
  destruct (negb (rv' =? 0)).
  - unfold delete_Handler. monad. cbn [objects set_objects set_next_address set_env env].
    rewrite lookup_insert_eq. cbn.
    rewrite !insert_insert_eq, delete_insert_eq.
    fold p. rewrite (delete_id (objects s) p Hfresh). reflexivity.
  - cbn. rewrite !insert_insert_eq. reflexivity.
Qed.


(** C7. A datagram from a peer without a Session that is not under the
    length floor of its family and whose header [ngtcp2_accept] reports as
    of an unsupported version: the server hands exactly one datagram to
    [sendto], addressed to the peer. It is a long-form header of type
    version negotiation with the connection identifier, packet number and
    version of the peer's header, followed by two 4-byte versions in
    network order: the reserved value and the supported version. No Handler
    is allocated and the table is unchanged. (The long-form flag of ngtcp2.h
    is a non-zero bit.) *)
Theorem version_negotiation_for_unsupported_version
    (fuel : nat) (buf : list byte) (su : sockaddr) (host serv : string)
    (chd : ngtcp2_pkt_hd) (s : Server) :
  NGTCP2_PKT_FLAG_LONG_FORM <> 0 ->
  getnameinfo su = (0, (host, serv)) ->
  handlers_ s !! conn_key_of host serv = None ->
  too_short (ss_family su) (vsize buf) = None ->
  ngtcp2_accept buf = (1, chd) ->
  exists s' ret evs,
    Server_on_read fuel (recvfrom_ok buf su) s = Ret (0, s') /\
    handlers_ s' = handlers_ s /\ objects s' = objects s /\
    written s s' evs /\
    filter is_sendto evs =
      [Sendto (Server_fd_ s)
         ([byte_of_Z (Z.lor 0x80 (Z.land NGTCP2_PKT_VERSION_NEGOTIATION 0x7f))]
          ++ htonll_bytes (hd_conn_id chd) ++ htonl_bytes (hd_pkt_num chd)
          ++ htonl_bytes (hd_version chd)
          ++ htonl_bytes (generate_reserved_vesrion (sa_bytes su) (hd_version chd))
          ++ htonl_bytes NGTCP2_PROTO_VERSION)
         su ret].
Proof.
  intros Hlong Hname Hnone Hfloor Hacc.
  exact (version_negotiation_reply fuel buf su host serv chd s Hlong Hname Hnone Hfloor Hacc).
Qed.

(** C3 (as the code has it). From an IPv4 peer without a Session: a
    datagram shorter than NGTCP2_MAX_PKTLEN_IPV4 (one of 20 bytes is) is
    dropped whatever its version field says: a line on [std::cerr], no
    [sendto], no Handler, the table unchanged. A datagram of at least that
    length whose header reports an unsupported version is answered by
    exactly one datagram, the version-negotiation packet listing the
    reserved and the supported version, and creates no Session. *)
Theorem ipv4_floor_precedes_version_negotiation
    (fuel : nat) (buf : list byte) (su : sockaddr) (host serv : string) (s : Server) :
  ss_family su = AF_INET ->
  getnameinfo su = (0, (host, serv)) ->
  handlers_ s !! conn_key_of host serv = None ->
  (vsize buf < NGTCP2_MAX_PKTLEN_IPV4 ->
   exists s',
     Server_on_read fuel (recvfrom_ok buf su) s = Ret (0, s') /\
     handlers_ s' = handlers_ s /\ objects s' = objects s /\
     written s s' [Stderr "IPv4 packet is too short: "]) /\
  (NGTCP2_MAX_PKTLEN_IPV4 <= vsize buf ->
   NGTCP2_PKT_FLAG_LONG_FORM <> 0 ->
   forall chd, ngtcp2_accept buf = (1, chd) ->
   exists s' ret evs,
     Server_on_read fuel (recvfrom_ok buf su) s = Ret (0, s') /\
     handlers_ s' = handlers_ s /\ objects s' = objects s /\
     written s s' evs /\
     filter is_sendto evs = [Sendto (Server_fd_ s) (vn_packet chd su) su ret]).
Proof.
  intros Hfam Hname Hnone. split.
  - intros Hshort.
    assert (Hfloor : too_short (ss_family su) (vsize buf) = Some "IPv4 packet is too short: ").
    { rewrite Hfam. cbn. destruct (Z.ltb_spec (vsize buf) NGTCP2_MAX_PKTLEN_IPV4);
        [reflexivity | lia]. }
    rewrite (short_datagram_dropped fuel buf su host serv _ s Hname Hnone Hfloor).
    eexists. split; [reflexivity|]. repeat split.
  - intros Hlen Hlong chd Hacc.
    assert (Hfloor : too_short (ss_family su) (vsize buf) = None).
    { rewrite Hfam. cbn. destruct (Z.ltb_spec (vsize buf) NGTCP2_MAX_PKTLEN_IPV4);
        [lia | reflexivity]. }
    exact (version_negotiation_reply fuel buf su host serv chd s Hlong Hname Hnone Hfloor Hacc).
Qed.

(** C10. A datagram from a peer without a Session that passes the length
    floor, is accepted as of the supported version and is of type Client
    Initial makes the server allocate a Handler at a fresh address. If
    feeding the datagram to that Handler fails ([Handler::on_read] returns
    non-zero), the Handler is deleted and never inserted: the table and the
    set of live Handlers are what they were before the datagram. *)
Theorem failed_first_feed_leaves_table_unchanged
    (fuel : nat) (b0 : byte) (rest : list byte) (su : sockaddr) (host serv : string)
    (s : Server) (rv ri rv' : Z) (chd : ngtcp2_pkt_hd) (s0 s1 : Handler * World) :
  getnameinfo su = (0, (host, serv)) ->
  handlers_ s !! conn_key_of host serv = None ->
  too_short (ss_family su) (vsize (b0 :: rest)) = None ->
  ngtcp2_accept (b0 :: rest) = (rv, chd) -> rv <> -1 -> rv <> 1 ->
  Z.land (u8 b0) 0x7f = NGTCP2_PKT_CLIENT_INITIAL ->
  objects s !! next_address s = None ->
  Handler_init (Server_fd_ s) su (Handler_new, env s) = Ret (ri, s0) ->
  Handler_on_read fuel (b0 :: rest) s0 = Ret (rv', s1) ->
  rv' <> 0 ->
  exists s',
    Server_on_read fuel (recvfrom_ok (b0 :: rest) su) s = Ret (0, s') /\
    handlers_ s' = handlers_ s /\ objects s' = objects s /\
    out (env s') = out s1.2 ++ [Stderr "Closing QUIC connection"].
Proof.
  intros Hname Hnone Hfloor Hacc Hrv1 Hrv2 Htype Hfresh Hinit Hread Hfail.
  rewrite (new_peer_read fuel b0 rest su host serv s rv chd
             Hname Hnone Hfloor Hacc Hrv1 Hrv2 Htype Hfresh).
  rewrite Hinit, Hread. destruct s1 as [h1 w1].
  destruct (Z.eqb_spec rv' 0) as [?|_]; [contradiction|].
  eexists. split; [reflexivity|]. repeat split.
Qed.

Lemma quiet_Handler_init (fd : Z) (sa : sockaddr) : quiet (Handler_init fd sa).
Proof.
  unfold Handler_init.
  apply quiet_bind; [quiet|intros ?].
  destruct (ss_family sa); quiet.
Qed.


(** *** The drain of [Handler::on_write] *)

(** A result of the loop does not depend on the bound on its iterations. *)
Lemma on_write_loop_more_fuel (fuel k : nat) (s : Handler * World) (r : Z * (Handler * World)) :
  on_write_loop fuel s = Ret r -> on_write_loop (fuel + k) s = Ret r.
Proof.
  revert s. induction fuel as [|fuel IH]; intros s; [discriminate|].
  destruct (conn_ s.1) as [c|] eqn:Hc.
  2:{ cbn [on_write_loop]. monad. cbn [fst snd]. rewrite Hc. discriminate. }
  change (S fuel + k)%nat with (S (fuel + k)).
  rewrite (on_write_loop_step fuel s c Hc), (on_write_loop_step (fuel + k) s c Hc).
  destruct (run_conn_io _ s) as [[[n pkt] s1]| |]; try discriminate.
  destruct (n <? 0); [exact id|]. destruct (n =? 0); [exact id|].
  cbv zeta. destruct (sendto _ _ _ _) as [r0 kn]. cbn [fst snd].
  destruct (r0 =? -1); [exact id | apply IH].
Qed.

(** What the loop has written when it returns: if a [sendto] failed, it
    was the last one, the line "sendto: " follows it, nothing follows that,
    and the loop returned -1. *)
Lemma on_write_loop_stops_at_failure (fuel : nat) (s s' : Handler * World) (rv : Z) :
  on_write_loop fuel s = Ret (rv, s') ->
  exists evs, out s'.2 = out s.2 ++ evs /\
    forall fd d a, Sendto fd d a (-1) ∈ evs ->
      rv = -1 /\
      exists sent, evs = sent ++ [Sendto fd d a (-1); Stderr "sendto: "] /\
        forall fd' d' a', Sendto fd' d' a' (-1) ∉ sent.
Proof.
  revert s. induction fuel as [|fuel IH]; intros s; [discriminate|].
  destruct (conn_ s.1) as [c|] eqn:Hc.
  2:{ cbn [on_write_loop]. monad. cbn [fst snd]. rewrite Hc. discriminate. }
  rewrite (on_write_loop_step fuel s c Hc).
  destruct (run_conn_io _ s) as [[[n pkt] s1]| |] eqn:Er; try discriminate.
  destruct (quiet_run_conn_io _ _ _ _ Er) as (e1 & E1 & Q1).
  destruct (n <? 0).
  { intros [= <- <-]. exists (e1 ++ [Stderr "ngtcp2_conn_send: "]). split.
    - cbn. rewrite E1, app_assoc. reflexivity.
    - intros fd d a Hin. exfalso.
      apply (no_sendto_elem (e1 ++ [Stderr "ngtcp2_conn_send: "]) fd d a (-1)); [|exact Hin].
      apply no_sendto_app; [exact Q1 | reflexivity]. }
  destruct (n =? 0).
  { intros [= <- <-]. exists e1. split; [exact E1|].
    intros fd d a Hin. destruct (no_sendto_elem _ _ _ _ _ Q1 Hin). }
  cbv zeta.
  destruct (sendto _ _ _ _) as [r k]. cbn [fst snd].
  destruct (Z.eqb_spec r (-1)) as [->|Hr].
  - intros [= <- <-].
    exists (e1 ++ [Sendto (fd_ s1.1) (take (Z.to_nat n) pkt) (remote_addr_ s1.1) (-1);
                   Stderr "sendto: "]).
    split; [cbn; rewrite E1, <- !app_assoc; reflexivity|].
    intros fd d a Hin. split; [reflexivity|].
    apply elem_of_app in Hin as [Hin|Hin]; [destruct (no_sendto_elem _ _ _ _ _ Q1 Hin)|].
    apply elem_of_cons in Hin as [Hin|Hin].
    2:{ apply list_elem_of_singleton in Hin. discriminate. }
    injection Hin as -> -> ->. exists e1. split; [reflexivity|].
    intros fd' d' a' Hin'. exact (no_sendto_elem _ _ _ _ _ Q1 Hin').
  - intros Ek. destruct (IH _ Ek) as (e2 & E2 & F2).
    cbn [snd out emit set_os] in E2.
    exists (e1 ++ [Sendto (fd_ s1.1) (take (Z.to_nat n) pkt) (remote_addr_ s1.1) r] ++ e2).
    split; [rewrite E2, E1, <- !app_assoc; reflexivity|].
    intros fd d a Hin.
    rewrite !elem_of_app in Hin. destruct Hin as [Hin|[Hin|Hin]].
    + destruct (no_sendto_elem _ _ _ _ _ Q1 Hin).
    + apply list_elem_of_singleton in Hin. congruence.
    + destruct (F2 _ _ _ Hin) as (Hrv & sent & Es & Hnone).
      split; [exact Hrv|].
      exists (e1 ++ [Sendto (fd_ s1.1) (take (Z.to_nat n) pkt) (remote_addr_ s1.1) r] ++ sent).
      split; [rewrite Es, <- !app_assoc; reflexivity|].
      intros fd' d' a' Hin'.
      rewrite !elem_of_app in Hin'. destruct Hin' as [Hin'|[Hin'|Hin']].
      * exact (no_sendto_elem _ _ _ _ _ Q1 Hin').
      * apply list_elem_of_singleton in Hin'. congruence.
      * exact (Hnone _ _ _ Hin').
Qed.

(** [Handler::on_read] after a successful feed is the drain, on the state
    the feed left. *)
Lemma on_read_is_feed_then_drain (fuel : nat) (buf : list byte) (s0 s1 : Handler * World) :
  feed_data buf s0 = Ret (0, s1) ->
  max_pktlen_ s1.1 <= NGTCP2_MAX_PKTLEN_IPV4 ->
  Handler_on_read fuel buf s0 = on_write_loop fuel s1.
Proof.
  intros Hfeed Hlen. unfold Handler_on_read, on_write.
  unfold mbind at 1, prog_mbind, prog_bind. rewrite Hfeed. cbn [Z.eqb negb].
  monad. cbn [fst snd].
  destruct (Z.ltb_spec NGTCP2_MAX_PKTLEN_IPV4 (max_pktlen_ s1.1)); [lia|reflexivity].
Qed.

(** A drain in which a [sendto] failed makes [on_read] return -1, with
    any bound on the iterations that is at least as large. *)
Lemma failed_drain_fails_on_read
    (fuel fuel' : nat) (buf : list byte) (s0 s1 s2 : Handler * World) (rv : Z)
    (evs : list event) (fd : Z) (d : list byte) (a : sockaddr) :
  feed_data buf s0 = Ret (0, s1) ->
  max_pktlen_ s1.1 <= NGTCP2_MAX_PKTLEN_IPV4 ->
  on_write_loop fuel s1 = Ret (rv, s2) ->
  out s2.2 = out s1.2 ++ evs ->
  Sendto fd d a (-1) ∈ evs ->
  (fuel <= fuel')%nat ->
  Handler_on_read fuel' buf s0 = Ret (-1, s2).
Proof.
  intros Hfeed Hlen Hloop Hevs Hin Hfuel.
  rewrite (on_read_is_feed_then_drain fuel' buf s0 s1 Hfeed Hlen).
  destruct (on_write_loop_stops_at_failure _ _ _ _ Hloop) as (evs' & E' & F').
  assert (evs' = evs) as -> by (rewrite Hevs in E'; exact (app_inv_head _ _ _ (eq_sym E'))).
  destruct (F' _ _ _ Hin) as [-> _].
  replace fuel' with (fuel + (fuel' - fuel))%nat by lia.
  apply on_write_loop_more_fuel. exact Hloop.
Qed.

(** C2 (as the code has it). After a datagram was fed into a Session
    successfully, [Handler::on_read] is the drain of [Handler::on_write] on
    the state the feed left. Each turn of the drain asks the engine for a
    datagram and hands what it produced to [sendto], on the Handler's
    socket and to its peer; a [sendto] that returns -1 is logged and ends
    the drain with -1: it is the last [sendto] of the drain, and nothing
    but the line "sendto: " follows it. The dispatcher then deletes the
    Session: for a peer in the table [Server::on_read] returns 0 with the
    entry erased and the Handler destroyed; for a peer that was being
    entered it returns 0 with the new Handler destroyed and the table as it
    was. This holds with every bound on the iterations of the drain that is
    at least one with which the drain returns. *)
Theorem failed_sendto_deletes_the_session
    (fuel : nat) (buf : list byte) (su : sockaddr) (host serv : string) (s : Server) :
  getnameinfo su = (0, (host, serv)) ->
  (forall (fuel' : nat) (s0 s1 : Handler * World),
     feed_data buf s0 = Ret (0, s1) ->
     max_pktlen_ s1.1 <= NGTCP2_MAX_PKTLEN_IPV4 ->
     Handler_on_read fuel' buf s0 = on_write_loop fuel' s1) /\
  (forall (fuel' : nat) (s0 : Handler * World) (c : ngtcp2_conn),
     conn_ s0.1 = Some c ->
     on_write_loop (S fuel') s0 =
       match run_conn_io
               (ngtcp2_conn_send c NGTCP2_MAX_PKTLEN_IPV4 (timestamp (os s0.2))) s0 with
       | Ret (n, pkt, s1) =>
           if n <? 0 then Ret (-1, (s1.1, emit (Stderr "ngtcp2_conn_send: ") s1.2)) else
           if n =? 0 then Ret (0, s1) else
           let d := take (Z.to_nat n) pkt in
           let r := sendto (os s1.2) (fd_ s1.1) d (remote_addr_ s1.1) in
           let w := emit (Sendto (fd_ s1.1) d (remote_addr_ s1.1) r.1) (set_os r.2 s1.2) in
           if r.1 =? -1 then Ret (-1, (s1.1, emit (Stderr "sendto: ") w))
           else on_write_loop fuel' (s1.1, w)
       | Fault why => Fault why
       | OutOfFuel => OutOfFuel
       end) /\
  (forall (s1 s2 : Handler * World) (rv : Z),
     on_write_loop fuel s1 = Ret (rv, s2) ->
     (forall fuel', (fuel <= fuel')%nat -> on_write_loop fuel' s1 = Ret (rv, s2)) /\
     exists evs, out s2.2 = out s1.2 ++ evs /\
       forall fd d a, Sendto fd d a (-1) ∈ evs ->
         rv = -1 /\
         exists sent, evs = sent ++ [Sendto fd d a (-1); Stderr "sendto: "] /\
           forall fd' d' a', Sendto fd' d' a' (-1) ∉ sent) /\
  (forall (p : address) (h : Handler) (s1 s2 : Handler * World) (rv : Z)
          (evs : list event) (fd : Z) (d : list byte) (a : sockaddr) (fuel' : nat),
     handlers_ s !! conn_key_of host serv = Some p ->
     objects s !! p = Some h ->
     feed_data buf (h, env s) = Ret (0, s1) ->
     max_pktlen_ s1.1 <= NGTCP2_MAX_PKTLEN_IPV4 ->
     on_write_loop fuel s1 = Ret (rv, s2) ->
     out s2.2 = out s1.2 ++ evs ->
     Sendto fd d a (-1) ∈ evs ->
     (fuel <= fuel')%nat ->
     Server_on_read fuel' (recvfrom_ok buf su) s =
       Ret (0, set_handlers_ (delete (conn_key_of host serv) (handlers_ s))
                 (set_objects (delete p (objects s))
                    (set_env (emit (Stderr "Closing QUIC connection") s2.2) s)))) /\
  (forall (b0 : byte) (rest : list byte) (ra ri : Z) (chd : ngtcp2_pkt_hd)
          (s0 s1 s2 : Handler * World) (rv : Z)
          (evs : list event) (fd : Z) (d : list byte) (a : sockaddr) (fuel' : nat),
     buf = b0 :: rest ->
     handlers_ s !! conn_key_of host serv = None ->
     objects s !! next_address s = None ->
     too_short (ss_family su) (vsize buf) = None ->
     ngtcp2_accept buf = (ra, chd) -> ra <> -1 -> ra <> 1 ->
     Z.land (u8 b0) 0x7f = NGTCP2_PKT_CLIENT_INITIAL ->
     Handler_init (Server_fd_ s) su (Handler_new, env s) = Ret (ri, s0) ->
     feed_data buf s0 = Ret (0, s1) ->
     max_pktlen_ s1.1 <= NGTCP2_MAX_PKTLEN_IPV4 ->
     on_write_loop fuel s1 = Ret (rv, s2) ->
     out s2.2 = out s1.2 ++ evs ->
     Sendto fd d a (-1) ∈ evs ->
     (fuel <= fuel')%nat ->
     Server_on_read fuel' (recvfrom_ok buf su) s =
       Ret (0, set_next_address (S (next_address s))
                 (set_env (emit (Stderr "Closing QUIC connection") s2.2) s))).
Proof.
  intros Hname. split; [|split; [|split; [|split]]].
  - intros fuel' s0 s1 Hfeed Hlen. exact (on_read_is_feed_then_drain fuel' buf s0 s1 Hfeed Hlen).
  - intros fuel' s0 c Hc. apply on_write_loop_step. exact Hc.
  - intros s1 s2 rv Hloop. split.
    + intros fuel' Hfuel. replace fuel' with (fuel + (fuel' - fuel))%nat by lia.
      apply on_write_loop_more_fuel. exact Hloop.
    + exact (on_write_loop_stops_at_failure _ _ _ _ Hloop).
  - intros p h s1 s2 rv evs fd d a fuel' Hkey Hobj Hfeed Hlen Hloop Hevs Hin Hfuel.
    rewrite (known_peer_read fuel' buf su host serv s p h Hname Hkey Hobj).
    rewrite (failed_drain_fails_on_read fuel fuel' buf (h, env s) s1 s2 rv evs fd d a
               Hfeed Hlen Hloop Hevs Hin Hfuel).
    destruct s2 as [h2 w2]. reflexivity.
  - intros b0 rest ra ri chd s0 s1 s2 rv evs fd d a fuel'
      -> Hkey Hfresh Hfloor Hacc Hra1 Hra2 Htype Hinit Hfeed Hlen Hloop Hevs Hin Hfuel.
    rewrite (new_peer_read fuel' b0 rest su host serv s ra chd
               Hname Hkey Hfloor Hacc Hra1 Hra2 Htype Hfresh).
    rewrite Hinit.
    rewrite (failed_drain_fails_on_read fuel fuel' (b0 :: rest) s0 s1 s2 rv evs fd d a
               Hfeed Hlen Hloop Hevs Hin Hfuel).
    destruct s2 as [h2 w2]. reflexivity.
Qed.

(** C1 (the code departs from it). When the idle timer of a Handler that
    is in the table expires, [timeoutcb] deletes the Handler and leaves its
    entry in [handlers_]: the entry now holds a dangling pointer. The next
    datagram from the same peer finds that entry and calls [on_read] on the
    deleted Handler; no new Session is created. *)
Theorem timeout_leaves_dangling_entry
    (fuel : nat) (buf : list byte) (su : sockaddr) (host serv : string)
    (s : Server) (p : address) (h : Handler) :
  getnameinfo su = (0, (host, serv)) ->
  handlers_ s !! conn_key_of host serv = Some p ->
  objects s !! p = Some h ->
  timer_ h = true ->
  exists s',
    dispatch fuel (timer_expired p) s = Ret (tt, s') /\
    written s s' [Stderr "Timeout"; Stderr "Closing QUIC connection"] /\
    objects s' = delete p (objects s) /\
    handlers_ s' !! conn_key_of host serv = Some p /\
    Server_on_read fuel (recvfrom_ok buf su) s' =
      Fault "member call on a deleted Handler".
Proof.
  intros Hname Hkey Hobj Htimer.
  unfold dispatch, timeoutcb, delete_Handler. monad.
  rewrite Hobj, Htimer. cbn [objects set_env]. rewrite Hobj.
  eexists. split; [reflexivity|].
  split; [unfold written; cbn; rewrite <- app_assoc; reflexivity|].
  split; [reflexivity|]. split; [exact Hkey|].
  unfold Server_on_read. monad.
  rewrite (create_conn_key_ok su host serv _ Hname).
  rewrite conn_key_nonempty. cbn [handlers_ set_objects set_env]. rewrite Hkey.
  unfold call. cbn [objects set_objects set_env]. rewrite lookup_delete_eq.
  reflexivity.
Qed.

End ServerFacts.

(** * Further properties of the code *)
Section MoreBridgeFacts.
Context {consts : Constants} {opaque : Opaque} {ext : Externals}.

Lemma bridge_run_appended (ops : list bridge_op) (h : Handler) :
  shandshake_ (bridge_run ops h).2 = shandshake_ h ++ appended_client ops /\
  chandshake_ (bridge_run ops h).2 = chandshake_ h ++ appended_server ops.
Proof.
  revert h. induction ops as [|o ops IH]; intros h.
  - cbn. rewrite !app_nil_r. split; reflexivity.
  - cbn [bridge_run]. destruct (bridge_step o h) as [[n bs] h1] eqn:E.
    specialize (IH h1). destruct (bridge_run ops h1) as [calls h2]. cbn [snd] in *.
    destruct IH as [IHs IHc]. rewrite IHs, IHc.
    destruct o; cbn in E; injection E as <- <- <-; cbn; rewrite <- ?app_assoc;
      split; reflexivity.
Qed.

(** X1. The queues accumulate exactly what was written, whatever reads come
    in between; in particular writing chunks one by one leaves the queue
    that writing their concatenation leaves. *)
Theorem queues_accumulate_the_writes
    (ops : list bridge_op) (chunks : list (list byte)) (h : Handler) :
  shandshake_ (bridge_run ops h).2 = shandshake_ h ++ appended_client ops /\
  chandshake_ (bridge_run ops h).2 = chandshake_ h ++ appended_server ops /\
  shandshake_ (fold_left (fun h c => write_client_handshake c h) chunks h) =
    shandshake_ (write_client_handshake (concat chunks) h).
Proof.
  pose proof (bridge_run_appended ops h) as [Hs Hc].
  split; [exact Hs|]. split; [exact Hc|].
  clear Hs Hc. revert h. induction chunks as [|c chunks IH]; intros h.
  - cbn. rewrite app_nil_r. reflexivity.
  - cbn [fold_left concat]. rewrite IH. cbn. rewrite app_assoc. reflexivity.
Qed.


Lemma take_in_prefix (n a : nat) (q k : list byte) :
  (a + n <= length q)%nat ->
  take n (drop a (q ++ k)) = take n (drop a q).
Proof.
  intros H. rewrite drop_app_le by lia.
  rewrite take_app_le by (rewrite length_drop; lia). reflexivity.
Qed.

(** X2. First in, first out. Over any sequence of bridge operations from
    a state with the cursors inside the queues, the bytes the reads of one
    queue returned, put end to end, are the bytes of that queue between the
    cursor's first and last position: none is lost, repeated or reordered. *)
Theorem reads_are_first_in_first_out (ops : list bridge_op) (h0 : Handler) :
  cursors_ok h0 ->
  sizes_fit (bridge_run ops h0).2 ->
  let hf := (bridge_run ops h0).2 in
  let calls := (bridge_run ops h0).1 in
  nsread_ h0 <= nsread_ hf /\ ncread_ h0 <= ncread_ hf /\
  read_client calls =
    take (Z.to_nat (nsread_ hf - nsread_ h0)) (drop (Z.to_nat (nsread_ h0)) (shandshake_ hf)) /\
  read_server calls =
    take (Z.to_nat (ncread_ hf - ncread_ h0)) (drop (Z.to_nat (ncread_ h0)) (chandshake_ hf)).
Proof.
  revert h0. induction ops as [|o ops IH]; intros h0 Hok Hfit.
  - cbn. rewrite !Z.sub_diag. cbn. repeat split; lia.
  - cbn [bridge_run] in *.
    pose proof (bridge_step_queues o h0) as [Hpc Hps].
    pose proof (bridge_step_ok o h0 Hok) as Hstep.
    destruct (bridge_step o h0) as [[n bs] h1] eqn:Estep.
    pose proof (bridge_run_queues ops h1) as [Hrc Hrs].
    specialize (IH h1).
    destruct (bridge_run ops h1) as [calls hf] eqn:Erun.
    cbn [fst snd] in *.
    assert (Hfit1 : sizes_fit h1) by (eapply sizes_fit_prefix; eauto).
    assert (Hfit0 : sizes_fit h0) by (eapply sizes_fit_prefix; eauto).
    specialize (Hstep Hfit0). destruct Hstep as (Hok1 & _ & _ & Hop).
    cbn [before after op count bytes] in Hop, Hok1.
    destruct (IH Hok1 Hfit) as (Hns & Hnc & Hrc' & Hrs').
    destruct Hrc as [kc Hkc]. destruct Hrs as [ks Hks].
    pose proof Hok as [Hc0 Hs0]. pose proof Hok1 as [Hc1 Hs1].
    cbn [read_client read_server op bytes].
    destruct o.
    + destruct Hop as (Eq & Es & Enc & Ens). rewrite <- Enc, <- Ens.
      repeat split; assumption.
    + destruct Hop as (Eb & En & Enc & Ens & Eqc & Eqs).
      pose proof (vsize_nonneg bs) as Hbs0.
      rewrite <- Ens. split; [lia|]. split; [lia|]. split; [exact Hrc'|].
      rewrite Hrs'. rewrite Eb. unfold unread_server.
      assert (Hlen : vsize bs = vsize (chandshake_ h0) - ncread_ h0).
      { rewrite Eb. unfold unread_server. apply size_drop. exact Hc0. }
      rewrite Hkc, Eqc.
      assert (E1 : drop (Z.to_nat (ncread_ h0)) (chandshake_ h0) =
                   take (Z.to_nat (vsize (chandshake_ h0) - ncread_ h0))
                     (drop (Z.to_nat (ncread_ h0)) (chandshake_ h0 ++ kc))).
      { rewrite drop_app_le by (unfold vsize in *; lia).
        rewrite take_app_length'; [reflexivity|].
        rewrite length_drop. unfold vsize in *. lia. }
      rewrite E1 at 1.
      replace (drop (Z.to_nat (ncread_ h1)) (chandshake_ h0 ++ kc))
        with (drop (Z.to_nat (vsize (chandshake_ h0) - ncread_ h0))
                (drop (Z.to_nat (ncread_ h0)) (chandshake_ h0 ++ kc))).
      2:{ rewrite drop_drop. f_equal. unfold vsize in *. lia. }
      rewrite take_take_drop. f_equal. unfold vsize in *. lia.
    + destruct Hop as (Eb & En & Emin & Ens & Enc & Eqc & Eqs).
      rewrite <- Enc. split; [pose proof (vsize_nonneg bs); lia|]. split; [lia|].
      split; [|exact Hrs'].
      rewrite Hrc'. destruct Eb as [rest Eb]. unfold unread_client in Eb.
      assert (Hbs : bs = take (Z.to_nat n) (drop (Z.to_nat (nsread_ h0)) (shandshake_ h0))).
      { rewrite Eb. rewrite take_app_length'; [reflexivity|]. unfold vsize in En. lia. }
      assert (Hle : n <= vsize (shandshake_ h0) - nsread_ h0).
      { rewrite Emin. unfold unread_client. rewrite size_drop by exact Hs0. lia. }
      pose proof (vsize_nonneg bs) as Hnn. rewrite <- En in Hnn.
      rewrite Hbs, Hks, Eqs.
      rewrite <- (take_in_prefix (Z.to_nat n) (Z.to_nat (nsread_ h0)) (shandshake_ h0) ks)
        by (unfold vsize in *; lia).
      replace (drop (Z.to_nat (nsread_ h1)) (shandshake_ h0 ++ ks))
        with (drop (Z.to_nat n) (drop (Z.to_nat (nsread_ h0)) (shandshake_ h0 ++ ks))).
      2:{ rewrite drop_drop. f_equal. lia. }
      rewrite take_take_drop. f_equal. lia.
    + destruct Hop as (Eq & Es & Enc & Ens). rewrite <- Enc, <- Ens.
      repeat split; assumption.
Qed.


Lemma evolves_bio_write_cursors (buf : list byte) (h : Handler) :
  cursors_ok h -> cursors_ok (bio_write buf h).2.
Proof.
  intros [Hc Hs]. unfold cursors_ok, bio_write. cbn.
  rewrite size_app. pose proof (vsize_nonneg buf). lia.
Qed.

(** X3. What the transport engine hands in is what the handshake engine
    reads. After [write_client_handshake data], a [bio_read] with a
    positive [len] returns the first [min len] bytes of the unread bytes
    followed by [data], and leaves the rest unread; on a drained queue and
    with [len] at least the size of [data] it returns [data] and the queue
    is drained again. *)
Theorem inbound_round_trip (data : list byte) (len : Z) (h : Handler) :
  cursors_ok h ->
  sizes_fit (write_client_handshake data h) ->
  0 < len <= INT_MAX ->
  unread_client h ++ data <> [] ->
  let r := bio_read len (write_client_handshake data h) in
  r.1.1 = Z.min len (vsize (unread_client h ++ data)) /\
  r.1.2 = take (Z.to_nat r.1.1) (unread_client h ++ data) /\
  unread_client r.2 = drop (Z.to_nat r.1.1) (unread_client h ++ data) /\
  (unread_client h = [] -> vsize data <= len -> r.1.2 = data /\ unread_client r.2 = []).
Proof.
  intros Hok Hfit Hlen Hne r.
  set (h1 := set_bio_ (BIO_clear_retry_flags (bio_ (write_client_handshake data h)))
               (write_client_handshake data h)).
  pose proof Hok as [Hc Hs].
  assert (Hok1 : cursors_ok h1).
  { split; [exact Hc|]. cbn. rewrite size_app. pose proof (vsize_nonneg data). lia. }
  assert (Hfit1 : sizes_fit h1) by exact Hfit.
  assert (Hu : unread_client h1 = unread_client h ++ data).
  { unfold unread_client. cbn. apply drop_app_le. unfold vsize in Hs. lia. }
  assert (Hl : to_size_t len = len).
  { apply to_size_t_small. unfold INT_MAX in Hlen. lia. }
  assert (Hpos : 0 < vsize (unread_client h ++ data)).
  { destruct (unread_client h ++ data); [congruence|]. unfold vsize. cbn. lia. }
  assert (Er : r = (Z.min len (vsize (unread_client h ++ data)),
                    take (Z.to_nat (Z.min len (vsize (unread_client h ++ data))))
                      (unread_client h ++ data),
                    set_nsread_ (nsread_ h1 + Z.min len (vsize (unread_client h ++ data))) h1)).
  { subst r. unfold bio_read. fold h1. rewrite Hl.
    rewrite (read_client_handshake_spec len h1 Hok1 Hfit1) by lia.
    rewrite Hu. rewrite to_int_small by lia.
    destruct (Z.eqb_spec (Z.min len (vsize (unread_client h ++ data))) 0); [lia|].
    reflexivity. }
  rewrite Er. cbn [fst snd].
  assert (Hrest : unread_client
            (set_nsread_ (nsread_ h1 + Z.min len (vsize (unread_client h ++ data))) h1) =
          drop (Z.to_nat (Z.min len (vsize (unread_client h ++ data))))
            (unread_client h ++ data)).
  { rewrite <- Hu. unfold unread_client. cbn [nsread_ shandshake_ set_nsread_].
    rewrite drop_drop. f_equal.
    destruct Hok1 as [_ Hn1]. apply Z2Nat.inj_add; unfold vsize in *; lia. }
  split; [reflexivity|]. split; [reflexivity|]. split; [exact Hrest|].
  intros Hdr Hle. rewrite Hrest, Hdr. cbn [app].
  rewrite Hdr in Hpos. cbn [app] in Hpos.
  rewrite Z.min_r by lia.
  split; [apply take_ge | apply drop_ge]; unfold vsize; lia.
Qed.

(** X4. What the handshake engine writes is what the transport engine is
    handed. [bio_write] never blocks: it takes all of [buf], returns its
    length and leaves no retry flag. The next [read_server_handshake]
    returns the bytes that were unread followed by [buf], all at once, and
    drains the queue: a second read returns nothing. *)
Theorem outbound_round_trip (buf : list byte) (h : Handler) :
  cursors_ok h ->
  sizes_fit (bio_write buf h).2 ->
  let w := bio_write buf h in
  let r1 := read_server_handshake w.2 in
  let r2 := read_server_handshake r1.2 in
  w.1 = vsize buf /\ bio_ w.2 = BIO_no_retry /\
  r1.1.2 = unread_server h ++ buf /\ r1.1.1 = vsize (unread_server h ++ buf) /\
  unread_server r1.2 = [] /\
  r2.1.1 = 0 /\ r2.1.2 = [] /\ ncread_ r2.2 = ncread_ r1.2.
Proof.
  intros Hok Hfit w r1 r2.
  assert (Hok1 : cursors_ok w.2).
  { destruct (evolves_bio_write_cursors buf h Hok) as [Hc Hs]. split; assumption. }
  assert (Hu : unread_server w.2 = unread_server h ++ buf).
  { unfold unread_server. subst w. cbn. destruct Hok as [[Hc0 Hc1] _].
    apply drop_app_le. unfold vsize in Hc1. lia. }
  assert (E1 : r1 = (vsize (unread_server h ++ buf), unread_server h ++ buf,
                     set_ncread_ (ncread_ w.2 + vsize (unread_server h ++ buf)) w.2)).
  { subst r1. rewrite (read_server_handshake_spec w.2 Hok1 Hfit), Hu. reflexivity. }
  assert (Hn : vsize (unread_server h ++ buf) = vsize (chandshake_ w.2) - ncread_ w.2).
  { rewrite <- Hu. unfold unread_server. apply size_drop. apply Hok1. }
  assert (Hdrained : unread_server r1.2 = []).
  { rewrite E1, Hn. unfold unread_server. cbn [snd ncread_ chandshake_ set_ncread_].
    apply drop_ge. destruct Hok1 as [Hc _]. unfold vsize in *. lia. }
  assert (Hok2 : cursors_ok r1.2).
  { rewrite E1, Hn. cbn [snd]. destruct Hok1 as [Hc Hs]. split; [|exact Hs].
    cbn [ncread_ chandshake_ set_ncread_]. lia. }
  assert (Hfit2 : sizes_fit r1.2) by (rewrite E1; exact Hfit).
  assert (E2 : r2 = (0, [], set_ncread_ (ncread_ r1.2 + 0) r1.2)).
  { subst r2. rewrite (read_server_handshake_spec r1.2 Hok2 Hfit2), Hdrained. reflexivity. }
  split; [reflexivity|]. split; [reflexivity|].
  rewrite E2. cbn [fst snd ncread_ set_ncread_].
  rewrite E1 at 1 2. cbn [fst snd].
  split; [reflexivity|]. split; [reflexivity|]. split; [exact Hdrained|].
  split; [reflexivity|]. split; [reflexivity|]. lia.
Qed.

End MoreBridgeFacts.

Section HandlerFacts.
Context {consts : Constants} {opaque : Opaque} {ext : Externals}.

Ltac monad :=
  unfold slog, log, this, world, update in *;
  unfold mbind, mret, prog_mbind, prog_mret, prog_bind, prog_ret,
    get, modify, fault in *;
  cbn beta iota in *.

(** *** A handler over a whole call *)

Lemma evolves_refl (h : Handler) : evolves h h.
Proof. unfold evolves. split_and!; auto; reflexivity. Qed.

Lemma evolves_trans (h1 h2 h3 : Handler) : evolves h1 h2 -> evolves h2 h3 -> evolves h1 h3.
Proof.
  intros (Ac & As & Aa & Af & Am & At & Assl & Aconn & Acur)
         (Bc & Bs & Ba & Bf & Bm & Bt & Bssl & Bconn & Bcur).
  unfold evolves. split_and!; try congruence; auto.
  - etrans; eauto.
  - etrans; eauto.
  - intros Hok Hfit. apply Bcur; [|exact Hfit].
    apply Acur; [exact Hok|]. exact (sizes_fit_prefix _ _ Bc Bs Hfit).
Qed.

(** A change of the members that [evolves] does not speak of. *)
Lemma evolves_frame (h h' : Handler) :
  chandshake_ h' = chandshake_ h -> ncread_ h' = ncread_ h ->
  shandshake_ h' = shandshake_ h -> nsread_ h' = nsread_ h ->
  remote_addr_ h' = remote_addr_ h -> fd_ h' = fd_ h ->
  max_pktlen_ h' = max_pktlen_ h -> timer_ h' = timer_ h ->
  (is_Some (ssl_ h) -> is_Some (ssl_ h')) ->
  (is_Some (conn_ h) -> is_Some (conn_ h')) ->
  evolves h h'.
Proof.
  intros Ec Enc Es Ens Ea Ef Em Et Hssl Hconn.
  unfold evolves, cursors_ok. rewrite Ec, Enc, Es, Ens.
  split_and!; auto; reflexivity.
Qed.

Lemma evolves_bio_write (buf : list byte) (h : Handler) : evolves h (bio_write buf h).2.
Proof.
  unfold evolves, cursors_ok, bio_write. cbn.
  split_and!; auto; try (apply prefix_app_r; reflexivity); try reflexivity.
  rewrite size_app. pose proof (vsize_nonneg buf). lia.
Qed.

Lemma evolves_write_client_handshake (data : list byte) (h : Handler) :
  evolves h (write_client_handshake data h).
Proof.
  unfold evolves, cursors_ok, write_client_handshake. cbn.
  split_and!; auto; try (apply prefix_app_r; reflexivity); try reflexivity.
  rewrite size_app. pose proof (vsize_nonneg data). lia.
Qed.

Lemma evolves_bridge_step (o : bridge_op) (h : Handler) :
  evolves h (bridge_step o h).2.
Proof.
  pose proof (bridge_step_queues o h) as [Hc Hs].
  unfold evolves. split; [exact Hc|]. split; [exact Hs|].
  split_and!; try (destruct o; reflexivity); try (destruct o; cbn; tauto).
  intros Hok Hfit.
  pose proof (sizes_fit_prefix _ _ Hc Hs Hfit) as Hfit0.
  destruct (bridge_step_ok o h Hok Hfit0) as [Hok' _]. exact Hok'.
Qed.

Lemma evolves_read_server_handshake (h : Handler) : evolves h (read_server_handshake h).2.
Proof. exact (evolves_bridge_step op_read_server_handshake h). Qed.

Lemma evolves_bio_read (len : Z) (h : Handler) : evolves h (bio_read len h).2.
Proof.
  set (h1 := set_bio_ (BIO_clear_retry_flags (bio_ h)) h).
  assert (E1 : evolves h h1) by (apply evolves_frame; auto).
  pose proof (evolves_bridge_step (op_read_client_handshake len) h1) as E2.
  cbn [bridge_step] in E2.
  unfold bio_read. fold h1.
  destruct (read_client_handshake (to_size_t len) h1) as [[n buf] h2]. cbn [snd] in E2.
  destruct (to_int n =? 0); cbn [snd].
  - eapply evolves_trans; [exact E1|]. eapply evolves_trans; [exact E2|].
    apply evolves_frame; auto.
  - exact (evolves_trans _ _ _ E1 E2).
Qed.

Lemma evolves_run_ssl_io (p : ssl_io SSL) (h : Handler) : evolves h (run_ssl_io p h).2.
Proof.
  revert h. induction p as [rv s | len k IH | buf k IH]; intros h; cbn [run_ssl_io].
  - apply evolves_refl.
  - pose proof (evolves_bio_read len h) as E.
    destruct (bio_read len h) as [[r bs] h1]. cbn [snd] in E.
    eapply evolves_trans; [exact E | apply IH].
  - pose proof (evolves_bio_write buf h) as E.
    destruct (bio_write buf h) as [r h1]. cbn [snd] in E.
    eapply evolves_trans; [exact E | apply IH].
Qed.

(** *** Programs that keep the handler *)

Lemma steps_bind {A B : Type} (m : hprog A) (k : A -> hprog B) :
  steps m -> (forall a, steps (k a)) -> steps (m ≫= k).
Proof.
  intros Hm Hk s b s'. unfold mbind, prog_mbind, prog_bind.
  destruct (m s) as [[a s1]| |] eqn:Em; try discriminate.
  intros Ek. eapply evolves_trans; [exact (Hm _ _ _ Em) | exact (Hk _ _ _ _ Ek)].
Qed.

Lemma steps_ret {A : Type} (a : A) : steps (mret a : hprog A).
Proof. intros s a' s' [= <- <-]. apply evolves_refl. Qed.

Lemma steps_fault {A : Type} (why : string) : steps (fault why : hprog A).
Proof. intros s a s' [=]. Qed.

Lemma steps_this : steps this.
Proof. intros s a' s' [= <- <-]. apply evolves_refl. Qed.

Lemma steps_world : steps world.
Proof. intros s a' s' [= <- <-]. apply evolves_refl. Qed.

Lemma steps_log (msg : string) : steps (log msg).
Proof. intros s a' s' [= <- <-]. apply evolves_refl. Qed.

Lemma steps_update (f : Handler -> Handler) : (forall h, evolves h (f h)) -> steps (update f).
Proof. intros Hf s a' s' [= <- <-]. apply Hf. Qed.

Lemma steps_draw (lo hi : Z) : steps (draw lo hi).
Proof.
  intros s a s'. unfold draw.
  destruct (uniform_int_distribution lo hi (randgen s.2)) as [v g].
  intros [= <- <-]. apply evolves_refl.
Qed.

Lemma steps_do_sendto (fd : Z) (data : list byte) (dest : sockaddr) :
  steps (do_sendto fd data dest).
Proof.
  intros s a s'. unfold do_sendto.
  destruct (sendto _ _ _ _) as [r k].
  intros [= <- <-]. apply evolves_refl.
Qed.

Ltac steps :=
  repeat first
    [ apply steps_ret | apply steps_fault | apply steps_this | apply steps_world
    | apply steps_log | apply steps_draw | apply steps_do_sendto
    | apply steps_update; intros ?; apply evolves_frame; cbn; auto; fail
    | apply steps_bind; [|intros ?]
    | progress cbv zeta
    | match goal with
      | |- steps (if ?b then _ else _) => destruct b
      | |- steps (match ?x with _ => _ end) => destruct x
      | |- steps (let '(_, _) := ?x in _) => destruct x
      end ].

Lemma steps_tls_handshake : steps tls_handshake.
Proof.
  intros s a s'. unfold tls_handshake. monad. cbn [fst snd].
  destruct (ssl_ s.1) as [ssl|] eqn:Essl; [|discriminate].
  pose proof (evolves_run_ssl_io (SSL_do_handshake ssl) s.1) as E.
  pose proof (run_ssl_io_conn (SSL_do_handshake ssl) s.1) as Ec.
  destruct (run_ssl_io (SSL_do_handshake ssl) s.1) as [[rv ssl'] h1].
  cbn [fst snd] in *.
  assert (E1 : evolves s.1 (set_ssl_ (Some ssl') h1)).
  { eapply evolves_trans; [exact E|]. apply evolves_frame; cbn; auto. }
  destruct (rv <=? 0).
  - destruct (_ || _); intros [= <- <-]; exact E1.
  - cbn [conn_ set_ssl_]. destruct (conn_ h1) as [c|]; [|discriminate].
    intros [= <- <-]. cbn [fst].
    eapply evolves_trans; [exact E1|]. apply evolves_frame; cbn; auto.
Qed.

Lemma steps_setup_crypto_context : steps setup_crypto_context.
Proof. unfold setup_crypto_context. steps. Qed.

Lemma steps_send_server_cleartext (flags : Z) (ppkt_num : bool) :
  steps (send_server_cleartext flags ppkt_num).
Proof.
  unfold send_server_cleartext.
  apply steps_bind; [apply steps_tls_handshake|intros rv].
  destruct (negb (rv =? 0)); [steps|].
  apply steps_bind; [steps|intros pkt_num].
  intros s a s'. monad. cbn [fst snd].
  pose proof (evolves_read_server_handshake s.1) as E.
  destruct (read_server_handshake s.1) as [[len pdest] h1]. cbn [snd] in E.
  destruct (_ && _); intros [= <- <-]; exact E.
Qed.

Lemma steps_run_callback (cb : callback) : steps (run_callback cb).
Proof.
  destruct cb; cbn [run_callback].
  - apply steps_send_server_cleartext.
  - unfold recv_handshake_data.
    apply steps_bind; [|intros ?; steps].
    apply steps_bind; [apply steps_update, evolves_write_client_handshake|intros ?].
    apply steps_bind; [apply steps_tls_handshake|intros ?]. steps.
  - unfold handshake_completed.
    apply steps_bind; [|intros ?; steps].
    apply steps_bind; [apply steps_setup_crypto_context|intros ?]. steps.
Qed.

Lemma steps_run_conn_io (p : conn_io ngtcp2_conn) : steps (run_conn_io p).
Proof.
  induction p as [rv buf c | c cb k IH]; intros s a s'; cbn [run_conn_io].
  - intros [= <- <-]. apply evolves_frame; cbn; auto.
  - destruct (run_callback cb _) as [[r s1]| |] eqn:Ecb; try discriminate.
    destruct (conn_ s1.1) as [c'|]; [|discriminate].
    intros Ek.
    eapply evolves_trans; [|exact (IH r c' _ _ _ Ek)].
    eapply evolves_trans; [|exact (steps_run_callback cb _ _ _ Ecb)].
    apply evolves_frame; cbn; auto.
Qed.

Lemma steps_feed_data (data : list byte) : steps (feed_data data).
Proof.
  unfold feed_data.
  apply steps_bind; [steps|intros h]. destruct (conn_ h); [|steps].
  apply steps_bind; [steps|intros w].
  apply steps_bind; [apply steps_run_conn_io|intros [rv buf]]. steps.
Qed.

Lemma steps_on_write_loop (fuel : nat) : steps (on_write_loop fuel).
Proof.
  induction fuel as [|fuel IH]; [intros s a s'; discriminate|].
  cbn [on_write_loop].
  apply steps_bind; [steps|intros h]. destruct (conn_ h); [|steps].
  apply steps_bind; [steps|intros w].
  apply steps_bind; [apply steps_run_conn_io|intros [len buf]].
  destruct (len <? 0); [steps|]. destruct (len =? 0); [steps|].
  apply steps_bind; [steps|intros h'].
  apply steps_bind; [steps|intros nwrite].
  destruct (nwrite =? -1); [steps|exact IH].
Qed.

Lemma steps_Handler_on_read (fuel : nat) (data : list byte) :
  steps (Handler_on_read fuel data).
Proof.
  unfold Handler_on_read, on_write.
  apply steps_bind; [apply steps_feed_data|intros rv].
  destruct (negb (rv =? 0)); [steps|].
  apply steps_bind; [steps|intros h].
  destruct (_ <? _); [steps|apply steps_on_write_loop].
Qed.

End HandlerFacts.

Section SessionFacts.
Context {consts : Constants} {opaque : Opaque} {ext : Externals}.

Ltac monad :=
  unfold slog, log, this, world, update in *;
  unfold mbind, mret, prog_mbind, prog_mret, prog_bind, prog_ret,
    get, modify, fault in *;
  cbn beta iota in *.

(** X5. A Handler over the life of its Session. Whatever the engines do
    in their callbacks, and however many datagrams [Handler::on_read] is
    given, the peer address, the socket, the packet length and the timer
    stay as they were (the idle timer is not restarted by traffic), the TLS
    and connection objects stay in place, the two handshake queues are only
    appended to, and the cursors stay within them. *)
Theorem on_read_keeps_the_handler
    (fuel : nat) (datagrams : list (list byte)) (s s' : Handler * World) (rv : Z) :
  on_reads fuel datagrams s = Ret (rv, s') ->
  evolves s.1 s'.1.
Proof.
  revert s. induction datagrams as [|d rest IH]; intros s; cbn [on_reads].
  - intros [= <- <-]. apply evolves_refl.
  - unfold mbind, prog_mbind, prog_bind.
    destruct (Handler_on_read fuel d s) as [[r s1]| |] eqn:Hread; try discriminate.
    pose proof (steps_Handler_on_read _ _ _ _ _ Hread) as E1.
    destruct (negb (r =? 0)).
    + intros [= <- <-]. exact E1.
    + intros Hrest. exact (evolves_trans _ _ _ E1 (IH _ Hrest)).
Qed.

Lemma sends_only_to_app (fd : Z) (dest : sockaddr) (a b : list event) :
  sends_only_to fd dest a -> sends_only_to fd dest b -> sends_only_to fd dest (a ++ b).
Proof.
  intros Ha Hb fd' d a' r Hin. apply elem_of_app in Hin as [Hin|Hin]; eauto.
Qed.

Lemma no_sendto_sends_only_to (fd : Z) (dest : sockaddr) (evs : list event) :
  no_sendto evs -> sends_only_to fd dest evs.
Proof. intros Hq fd' d a r Hin. destruct (no_sendto_elem _ _ _ _ _ Hq Hin). Qed.

Lemma feed_data_reported (data : list byte) (s s' : Handler * World) (rv : Z) :
  feed_data data s = Ret (rv, s') ->
  exists evs, out s'.2 = out s.2 ++ evs /\ no_sendto evs /\ reported rv evs.
Proof.
  unfold feed_data. monad. cbn [fst snd].
  destruct (conn_ s.1) as [c|]; [|discriminate].
  destruct (run_conn_io _ s) as [[[r buf] s1]| |] eqn:Er; try discriminate.
  destruct (quiet_run_conn_io _ _ _ _ Er) as (e1 & E1 & Q1).
  destruct (negb (r =? 0)); intros [= <- <-].
  - exists (e1 ++ [Stderr "ngtcp2_conn_recv: "]). cbn. rewrite E1, app_assoc.
    split; [reflexivity|]. split; [apply no_sendto_app; [exact Q1|reflexivity]|].
    right. split; [reflexivity|]. eexists. apply last_snoc.
  - exists e1. split; [exact E1|]. split; [exact Q1|]. left. reflexivity.
Qed.

Lemma on_write_loop_reported (fuel : nat) (s s' : Handler * World) (rv : Z) :
  on_write_loop fuel s = Ret (rv, s') ->
  exists evs, out s'.2 = out s.2 ++ evs /\
    sends_only_to (fd_ s.1) (remote_addr_ s.1) evs /\ reported rv evs.
Proof.
  revert s. induction fuel as [|fuel IH]; intros s; [discriminate|].
  destruct (conn_ s.1) as [c|] eqn:Hc.
  2:{ cbn [on_write_loop]. monad. cbn [fst snd]. rewrite Hc. discriminate. }
  rewrite (on_write_loop_step fuel s c Hc).
  destruct (run_conn_io _ s) as [[[n buf] s1]| |] eqn:Er; try discriminate.
  destruct (quiet_run_conn_io _ _ _ _ Er) as (e1 & E1 & Q1).
  destruct (steps_run_conn_io _ _ _ _ Er) as (_ & _ & Ea & Ef & _). cbn [fst] in Ea, Ef.
  destruct (n <? 0).
  { intros [= <- <-]. exists (e1 ++ [Stderr "ngtcp2_conn_send: "]). cbn. rewrite E1, app_assoc.
    split; [reflexivity|]. split.
    - apply no_sendto_sends_only_to, no_sendto_app; [exact Q1|reflexivity].
    - right. split; [reflexivity|]. eexists. apply last_snoc. }
  destruct (n =? 0).
  { intros [= <- <-]. exists e1. split; [exact E1|].
    split; [apply no_sendto_sends_only_to, Q1 | left; reflexivity]. }
  cbv zeta.
  destruct (sendto _ _ _ _) as [r k]. cbn [fst snd].
  assert (Hone : sends_only_to (fd_ s.1) (remote_addr_ s.1)
                   [Sendto (fd_ s1.1) (take (Z.to_nat n) buf) (remote_addr_ s1.1) r]).
  { intros fd' d a r' Hin. apply list_elem_of_singleton in Hin.
    injection Hin as -> -> -> ->. split; assumption. }
  destruct (r =? -1).
  - intros [= <- <-].
    exists ((e1 ++ [Sendto (fd_ s1.1) (take (Z.to_nat n) buf) (remote_addr_ s1.1) r])
            ++ [Stderr "sendto: "]).
    cbn. rewrite E1, <- !app_assoc. split; [reflexivity|]. split.
    + apply sends_only_to_app; [apply no_sendto_sends_only_to, Q1|].
      apply (sends_only_to_app _ _ [_] [_]); [exact Hone|].
      apply no_sendto_sends_only_to. reflexivity.
    + right. split; [reflexivity|]. eexists.
      rewrite app_assoc. apply last_snoc.
  - intros Ek. destruct (IH _ Ek) as (e2 & E2 & S2 & R2).
    cbn [fst snd out emit set_os] in E2, S2.
    exists (e1 ++ [Sendto (fd_ s1.1) (take (Z.to_nat n) buf) (remote_addr_ s1.1) r] ++ e2).
    split; [rewrite E2, E1, <- !app_assoc; reflexivity|]. split.
    + apply sends_only_to_app; [apply no_sendto_sends_only_to, Q1|].
      apply sends_only_to_app; [exact Hone|]. rewrite <- Ea, <- Ef. exact S2.
    + destruct R2 as [->|[-> [msg Hl]]]; [left; reflexivity|].
      right. split; [reflexivity|]. exists msg.
      destruct e2 as [|e e2]; [discriminate|].
      rewrite app_assoc. rewrite last_app. rewrite Hl. reflexivity.
Qed.

Lemma Handler_on_read_reported (fuel : nat) (data : list byte) (s s' : Handler * World) (rv : Z) :
  Handler_on_read fuel data s = Ret (rv, s') ->
  exists evs, out s'.2 = out s.2 ++ evs /\
    sends_only_to (fd_ s.1) (remote_addr_ s.1) evs /\ reported rv evs.
Proof.
  unfold Handler_on_read, on_write.
  unfold mbind at 1, prog_mbind, prog_bind.
  destruct (feed_data data s) as [[r s1]| |] eqn:Ef; try discriminate.
  destruct (feed_data_reported _ _ _ _ Ef) as (e1 & E1 & Q1 & R1).
  destruct (steps_feed_data _ _ _ _ Ef) as (_ & _ & Ea & Efd & _).
  destruct (Z.eqb_spec r 0) as [->|Hr]; cbn [negb].
  - monad. cbn [fst snd]. destruct (_ <? _); [discriminate|].
    intros Ek. destruct (on_write_loop_reported _ _ _ _ Ek) as (e2 & E2 & S2 & R2).
    exists (e1 ++ e2). split; [rewrite E2, E1, app_assoc; reflexivity|]. split.
    + apply sends_only_to_app; [apply no_sendto_sends_only_to, Q1|].
      rewrite <- Ea, <- Efd. exact S2.
    + destruct R2 as [->|[-> [msg Hl]]]; [left; reflexivity|].
      right. split; [reflexivity|]. exists msg.
      destruct e2 as [|e e2]; [discriminate|]. rewrite last_app, Hl. reflexivity.
  - intros [= <- <-]. exists e1. split; [exact E1|].
    split; [apply no_sendto_sends_only_to, Q1|].
    destruct R1 as [->|[-> Hl]]; [contradiction|]. right. split; [reflexivity|exact Hl].
Qed.

(** X6. [Handler::on_read] returns 0 or -1; it never fails silently (a
    return of -1 follows a line on [std::cerr]); and every datagram it
    hands to [sendto] goes through the Handler's own socket to the peer
    address recorded at [init]. *)
Theorem on_read_fails_loudly_and_sends_to_its_peer
    (fuel : nat) (data : list byte) (s s' : Handler * World) (rv : Z) :
  Handler_on_read fuel data s = Ret (rv, s') ->
  exists evs, out s'.2 = out s.2 ++ evs /\
    sends_only_to (fd_ s.1) (remote_addr_ s.1) evs /\ reported rv evs.
Proof. apply Handler_on_read_reported. Qed.

Lemma to_ssize_t_small (z : Z) : 0 <= z < 2 ^ 63 -> to_ssize_t z = z.
Proof.
  unfold to_ssize_t, to_signed, wrap. intros Hz.
  rewrite Z.mod_small by lia.
  change (2 ^ (64 - 1)) with (2 ^ 63).
  destruct (Z.ltb_spec z (2 ^ 63)); lia.
Qed.

Lemma send_server_cleartext_after_handshake
    (flags : Z) (ppkt_num : bool) (s s1 : Handler * World) :
  tls_handshake s = Ret (0, s1) ->
  cursors_ok s1.1 -> sizes_fit s1.1 -> vsize (chandshake_ s1.1) < 2 ^ 63 ->
  let v := uniform_int_distribution 0 INT32_MAX (randgen s1.2) in
  let n := vsize (unread_server s1.1) in
  send_server_cleartext flags ppkt_num s =
    Ret ({| cb_rv := if ppkt_num && (n =? 0) then NGTCP2_ERR_CALLBACK_FAILURE else n;
            cb_pkt_num := if ppkt_num then Some v.1 else None;
            cb_dest := unread_server s1.1 |},
         (set_ncread_ (ncread_ s1.1 + n) s1.1,
          if ppkt_num then set_randgen v.2 s1.2 else s1.2)).
Proof.
  intros Et Hok Hfit Hbig v n. subst v n.
  unfold send_server_cleartext.
  unfold mbind at 1, prog_mbind, prog_bind. rewrite Et. cbn [Z.eqb negb].
  assert (Hn : 0 <= vsize (unread_server s1.1) < 2 ^ 63).
  { destruct Hok as [Hc _]. unfold unread_server. rewrite size_drop by exact Hc. lia. }
  destruct ppkt_num; monad; unfold draw; cbn [fst snd].
  - destruct (uniform_int_distribution 0 INT32_MAX (randgen s1.2)) as [v g]. cbn [fst snd].
    rewrite (read_server_handshake_spec s1.1 Hok Hfit). cbn [andb].
    destruct (vsize (unread_server s1.1) =? 0); [reflexivity|].
    rewrite to_ssize_t_small by exact Hn. reflexivity.
  - rewrite (read_server_handshake_spec s1.1 Hok Hfit). cbn [andb].
    rewrite to_ssize_t_small by exact Hn. destruct s1; reflexivity.
Qed.

Lemma cleartext_callback_cases
    (flags : Z) (ppkt_num : bool) (s s' : Handler * World) (r : cb_result) :
  cursors_ok s.1 ->
  vsize (chandshake_ s'.1) < 2 ^ 63 -> vsize (shandshake_ s'.1) < 2 ^ 64 ->
  send_server_cleartext flags ppkt_num s = Ret (r, s') ->
  exists rv s1, tls_handshake s = Ret (rv, s1) /\
    if rv =? 0 then
      cb_dest r = unread_server s1.1 /\
      unread_server s'.1 = [] /\ chandshake_ s'.1 = chandshake_ s1.1 /\
      cb_rv r = (if ppkt_num && (vsize (unread_server s1.1) =? 0)
                 then NGTCP2_ERR_CALLBACK_FAILURE else vsize (unread_server s1.1)) /\
      cb_pkt_num r =
        (if ppkt_num
         then Some (uniform_int_distribution 0 INT32_MAX (randgen s1.2)).1 else None)
    else r = failure None [] /\ s' = s1.
Proof.
  intros Hok Hc63 Hs64 Hrun.
  destruct (tls_handshake s) as [[rv s1]| |] eqn:Et.
  2,3: (unfold send_server_cleartext in Hrun;
        unfold mbind at 1, prog_mbind, prog_bind in Hrun; rewrite Et in Hrun; discriminate).
  exists rv, s1. split; [reflexivity|].
  destruct (Z.eqb_spec rv 0) as [->|Hrv].
  - pose proof (steps_send_server_cleartext flags ppkt_num _ _ _ Hrun) as Ev.
    pose proof (steps_tls_handshake _ _ _ Et) as (Pc & Ps & _ & _ & _ & _ & _ & _ & Cur).
    assert (Eq : chandshake_ s'.1 = chandshake_ s1.1 /\ shandshake_ s'.1 = shandshake_ s1.1).
    { unfold send_server_cleartext in Hrun.
      unfold mbind at 1, prog_mbind, prog_bind in Hrun. rewrite Et in Hrun.
      cbn [Z.eqb negb] in Hrun. revert Hrun.
      destruct ppkt_num; monad; unfold draw, read_server_handshake; cbn [fst snd].
      - destruct (uniform_int_distribution _ _ _) as [v g]. cbn [fst snd].
        destruct (_ && _); intros [= <- <-]; split; reflexivity.
      - intros [= <- <-]; split; reflexivity. }
    destruct Eq as [Eqc Eqs].
    assert (Hfit1 : sizes_fit s1.1) by (split; rewrite <- ?Eqc, <- ?Eqs; lia).
    assert (Hok1 : cursors_ok s1.1) by (apply Cur; assumption).
    rewrite (send_server_cleartext_after_handshake flags ppkt_num s s1 Et Hok1 Hfit1) in Hrun
      by (rewrite <- Eqc; exact Hc63).
    cbv zeta in Hrun. injection Hrun as <- <-. cbn [cb_dest cb_rv cb_pkt_num fst].
    split; [reflexivity|]. split.
    + unfold unread_server. cbn [ncread_ chandshake_ set_ncread_].
      apply drop_ge. destruct Hok1 as [Hc _].
      rewrite size_drop by exact Hc. unfold vsize. lia.
    + split; [reflexivity|]. split; reflexivity.
  - unfold send_server_cleartext in Hrun.
    unfold mbind at 1, prog_mbind, prog_bind in Hrun. rewrite Et in Hrun.
    destruct (Z.eqb_spec rv 0) as [?|_]; [contradiction|]. cbn [negb] in Hrun.
    injection Hrun as <- <-. split; reflexivity.
Qed.

(** X7. The [send_server_cleartext] callback. It first drives the TLS
    handshake and fails, with nothing read, if that fails. Otherwise it
    hands the engine all the unread bytes of the outbound queue and leaves
    the queue drained; the value returned is their number, except that an
    initial packet (the engine asks for a packet number) with no byte to
    carry is a callback failure; the packet number is a draw from [randgen]
    between 0 and INT32_MAX, made only when the engine asks for one. *)
Theorem send_server_cleartext_drains_the_outbound_queue
    (flags : Z) (ppkt_num : bool) (s s' : Handler * World) (r : cb_result) :
  cursors_ok s.1 ->
  vsize (chandshake_ s'.1) < 2 ^ 63 -> vsize (shandshake_ s'.1) < 2 ^ 64 ->
  send_server_cleartext flags ppkt_num s = Ret (r, s') ->
  exists rv s1, tls_handshake s = Ret (rv, s1) /\
    if rv =? 0 then
      cb_dest r = unread_server s1.1 /\
      unread_server s'.1 = [] /\ chandshake_ s'.1 = chandshake_ s1.1 /\
      cb_rv r = (if ppkt_num && (vsize (unread_server s1.1) =? 0)
                 then NGTCP2_ERR_CALLBACK_FAILURE else vsize (unread_server s1.1)) /\
      cb_pkt_num r =
        (if ppkt_num
         then Some (uniform_int_distribution 0 INT32_MAX (randgen s1.2)).1 else None)
    else r = failure None [] /\ s' = s1.
Proof. apply cleartext_callback_cases. Qed.

Lemma Handler_init_spec (fd : Z) (sa : sockaddr) (s s1 : Handler * World) (rv : Z) :
  Handler_init fd sa s = Ret (rv, s1) ->
  remote_addr_ s1.1 = sa /\
  chandshake_ s1.1 = chandshake_ s.1 /\ ncread_ s1.1 = ncread_ s.1 /\
  shandshake_ s1.1 = shandshake_ s.1 /\ nsread_ s1.1 = nsread_ s.1 /\
  match ss_family sa with
  | AF_other _ => rv = -1 /\ s1 = (set_remote_addr_ sa s.1, s.2)
  | fam =>
      fd_ s1.1 = fd /\ ssl_ s1.1 = Some SSL_new /\ bio_ s1.1 = BIO_no_retry /\
      max_pktlen_ s1.1 =
        match fam with AF_INET => NGTCP2_MAX_PKTLEN_IPV4 | _ => NGTCP2_MAX_PKTLEN_IPV6 end /\
      let c := (ngtcp2_conn_server_new
                  (uniform_int_distribution 0 UINT64_MAX (randgen s.2)).1
                  NGTCP2_PROTO_VERSION) in
      conn_ s1.1 = match c.2 with Some c => Some c | None => conn_ s.1 end /\
      (rv = if c.1 =? 0 then 0 else -1) /\
      timer_ s1.1 = (if c.1 =? 0 then true else timer_ s.1)
  end.
Proof.
  unfold Handler_init. monad. cbn [fst snd].
  destruct (ss_family sa); cbn [fst snd]; unfold draw; cbn [fst snd randgen].
  3:{ intros [= <- <-]. cbn. destruct s; auto 10. }
  all: destruct (uniform_int_distribution 0 UINT64_MAX (randgen s.2)) as [v g];
    cbn [fst snd];
    destruct (ngtcp2_conn_server_new v NGTCP2_PROTO_VERSION) as [r [c|]]; cbn [fst snd];
    destruct (r =? 0); cbn [negb]; intros [= <- <-]; cbn; auto 12.
Qed.

(** X8. [Handler::init] and the assertion of [on_write]. A successful
    [init] records the peer address and the server's socket, creates the
    TLS object, starts the idle timer and sets the packet length of the
    peer's address family; these stay as they are for the life of the
    Handler, so the assertion [buf.size() >= max_pktlen_] at the head of
    [on_write], whose buffer has the IPv4 length, holds in every later
    state, the IPv6 length being no larger than the IPv4 one in ngtcp2.h. *)
Theorem init_settles_what_on_write_asserts
    (fd : Z) (sa : sockaddr) (s s1 : Handler * World) (h' : Handler) :
  NGTCP2_MAX_PKTLEN_IPV6 <= NGTCP2_MAX_PKTLEN_IPV4 ->
  Handler_init fd sa s = Ret (0, s1) ->
  evolves s1.1 h' ->
  remote_addr_ h' = sa /\ fd_ h' = fd /\ timer_ h' = true /\ is_Some (ssl_ h') /\
  max_pktlen_ h' = match ss_family sa with
                   | AF_INET => NGTCP2_MAX_PKTLEN_IPV4
                   | _ => NGTCP2_MAX_PKTLEN_IPV6
                   end /\
  forall fuel w, on_write fuel (h', w) = on_write_loop fuel (h', w).
Proof.
  intros Hle Hinit (_ & _ & Ea & Ef & Em & Et & Hssl & _).
  destruct (Handler_init_spec _ _ _ _ _ Hinit) as (Ia & _ & _ & _ & _ & Hfam).
  assert (Hpost : fd_ s1.1 = fd /\ ssl_ s1.1 = Some SSL_new /\ timer_ s1.1 = true /\
            max_pktlen_ s1.1 = match ss_family sa with
                               | AF_INET => NGTCP2_MAX_PKTLEN_IPV4
                               | _ => NGTCP2_MAX_PKTLEN_IPV6
                               end).
  { destruct (ss_family sa).
    - destruct Hfam as (? & ? & _ & ? & _ & Hrv & Ht).
      destruct (_ =? 0); [|discriminate]. auto.
    - destruct Hfam as (? & ? & _ & ? & _ & Hrv & Ht).
      destruct (_ =? 0); [|discriminate]. auto.
    - destruct Hfam as [? _]. discriminate. }
  destruct Hpost as (Pf & Pssl & Pt & Pm).
  split; [congruence|]. split; [congruence|]. split; [congruence|].
  split; [apply Hssl; rewrite Pssl; eauto|]. split; [congruence|].
  intros fuel w. unfold on_write. monad. cbn [fst snd].
  rewrite Em, Pm.
  destruct (ss_family sa);
    match goal with |- context [?a <? ?b] => destruct (Z.ltb_spec a b) end;
    try reflexivity; lia.
Qed.

End SessionFacts.

Section DispatcherFacts.
Context {consts : Constants} {opaque : Opaque} {ext : Externals}.

Ltac monad :=
  unfold slog, log, this, world, update in *;
  unfold mbind, mret, prog_mbind, prog_mret, prog_bind, prog_ret,
    get, modify, fault in *;
  cbn beta iota in *.

Lemma sends_only_to_nil (fd : Z) (dest : sockaddr) : sends_only_to fd dest [].
Proof. intros fd' d a r Hin. inversion Hin. Qed.

Lemma sends_only_to_stderr (fd : Z) (dest : sockaddr) (msg : string) :
  sends_only_to fd dest [Stderr msg].
Proof. intros fd' d a r Hin. apply list_elem_of_singleton in Hin. discriminate. Qed.

Lemma send_version_negotiation_target
    (chd : ngtcp2_pkt_hd) (su : sockaddr) (s s' : Server) (r : Z) :
  send_version_negotiation chd su s = Ret (r, s') ->
  handlers_ s' = handlers_ s /\ objects s' = objects s /\
  next_address s' = next_address s /\ Server_fd_ s' = Server_fd_ s /\
  exists evs, written s s' evs /\ sends_only_to (Server_fd_ s) su evs.
Proof.
  unfold send_version_negotiation, ngtcp2_upe_new. cbn [negb Z.eqb].
  destruct (ngtcp2_upe_encode_hd _ _) as [rv1 upe1].
  destruct (negb (rv1 =? 0)).
  { intros [= <- <-]. split_and!; try reflexivity. exists []. split.
    - unfold written. rewrite app_nil_r. reflexivity.
    - apply sends_only_to_nil. }
  destruct (ngtcp2_upe_encode_version_negotiation _ _) as [rv2 upe2].
  destruct (negb (rv2 =? 0)).
  { monad. intros [= <- <-]. split_and!; try reflexivity. eexists [_].
    split; [reflexivity|]. apply sends_only_to_stderr. }
  unfold Server_sendto. monad.
  destruct (sendto _ _ _ _) as [r0 k].
  assert (Hone : forall d, sends_only_to (Server_fd_ s) su [Sendto (Server_fd_ s) d su r0]).
  { intros d fd' d' a r' Hin. apply list_elem_of_singleton in Hin.
    injection Hin as -> -> -> ->. split; reflexivity. }
  destruct (r0 =? -1); intros [= <- <-]; split_and!; try reflexivity.
  - eexists [_; _]. split.
    + unfold written. cbn. rewrite <- app_assoc. reflexivity.
    + apply (sends_only_to_app _ _ [_] [_]); [apply Hone | apply sends_only_to_stderr].
  - eexists [_]. split; [reflexivity | apply Hone].
Qed.

Lemma Handler_on_read_needs_conn (fuel : nat) (data : list byte) (s : Handler * World) :
  conn_ s.1 = None -> Handler_on_read fuel data s = Fault "ngtcp2_conn_recv: conn_ is null".
Proof.
  intros Hc. unfold Handler_on_read, feed_data. monad. cbn [fst snd]. rewrite Hc. reflexivity.
Qed.

(** What [Server::on_read] does with one datagram, case by case. *)
Lemma Server_on_read_cases
    (fuel : nat) (buf : list byte) (su : sockaddr) (s s' : Server) (rv : Z) :
  Server_on_read fuel (recvfrom_ok buf su) s = Ret (rv, s') ->
  rv = 0 /\ Server_fd_ s' = Server_fd_ s /\
  table_change (sender_key su) s s' /\
  (next_address s' <> next_address s -> opens_session buf su) /\
  exists evs, written s s' evs /\
    sends_only_to (reply_target s su).1 (reply_target s su).2 evs.
Proof.
  intros Hrun.
  destruct (getnameinfo su) as [rn [host serv]] eqn:Hname.
  assert (Ekey : sender_key su = conn_key_of host serv).
  { unfold sender_key. rewrite Hname. reflexivity. }
  unfold reply_target. rewrite Ekey.
  destruct (Z.eq_dec rn 0) as [->|Hrn].
  2:{ revert Hrun. unfold Server_on_read, create_conn_key. rewrite Hname.
      destruct (Z.eqb_spec rn 0) as [?|_]; [contradiction|]. cbn [negb]. monad.
      cbn [String.eqb]. intros [= <- <-]. split_and!; try reflexivity.
      - apply unchanged; reflexivity.
      - intros H. destruct H. reflexivity.
      - eexists [_]. split; [reflexivity | apply sends_only_to_stderr]. }
  destruct (handlers_ s !! conn_key_of host serv) as [p|] eqn:Hkey.
  - destruct (objects s !! p) as [h|] eqn:Hobj.
    2:{ revert Hrun. unfold Server_on_read. monad.
        rewrite (create_conn_key_ok su host serv s Hname).
        rewrite conn_key_nonempty, Hkey. unfold call. rewrite Hobj. discriminate. }
    rewrite (known_peer_read fuel buf su host serv s p h Hname Hkey Hobj) in Hrun.
    destruct (Handler_on_read fuel buf (h, env s)) as [[r [h' w']]| |] eqn:Hread;
      try discriminate.
    destruct (Handler_on_read_reported _ _ _ _ _ Hread) as (evs & E & Hs & _).
    cbn [fst snd] in E, Hs.
    destruct (negb (r =? 0)); injection Hrun as <- <-.
    + split_and!; try reflexivity.
      * apply (erased _ _ _ p); [exact Hkey|reflexivity..].
      * intros H. destruct H. reflexivity.
      * exists (evs ++ [Stderr "Closing QUIC connection"]). split.
        -- unfold written. cbn. rewrite E, app_assoc. reflexivity.
        -- apply sends_only_to_app; [exact Hs | apply sends_only_to_stderr].
    + split_and!; try reflexivity.
      * apply (fed _ _ _ p h'); [exact Hkey|rewrite Hobj; eauto|reflexivity..].
      * intros H. destruct H. reflexivity.
      * exists evs. split; [exact E | exact Hs].
  - cbn [fst snd].
    destruct (too_short (ss_family su) (vsize buf)) as [msg|] eqn:Hfloor.
    { rewrite (short_datagram_dropped fuel buf su host serv msg s Hname Hkey Hfloor) in Hrun.
      injection Hrun as <- <-. split_and!; try reflexivity.
      - apply unchanged; reflexivity.
      - intros H. destruct H. reflexivity.
      - eexists [_]. split; [reflexivity | apply sends_only_to_stderr]. }
    destruct (ngtcp2_accept buf) as [ra chd] eqn:Hacc.
    revert Hrun. unfold Server_on_read. monad.
    rewrite (create_conn_key_ok su host serv s Hname).
    rewrite conn_key_nonempty, Hkey, Hfloor, Hacc.
    destruct (Z.eqb_spec ra (-1)) as [->|Hra1].
    { intros [= <- <-]. split_and!; try reflexivity.
      - apply unchanged; reflexivity.
      - intros H. destruct H. reflexivity.
      - eexists [_]. split; [reflexivity | apply sends_only_to_stderr]. }
    destruct (Z.eqb_spec ra 1) as [->|Hra2].
    { destruct (send_version_negotiation chd su _) as [[r0 s0]| |] eqn:Hsend; try discriminate.
      intros [= <- <-].
      destruct (send_version_negotiation_target _ _ _ _ _ Hsend)
        as (Hh & Ho & Hn & Hf & evs & Hw & Hs).
      cbn [handlers_ objects next_address Server_fd_ set_env] in Hh, Ho, Hn, Hf, Hs.
      split_and!; try reflexivity; try assumption.
      - apply unchanged; assumption.
      - intros H. destruct H. exact Hn.
      - exists (Stderr "Unsupported version: Send Version Negotiation" :: evs). split.
        + unfold written in *. rewrite Hw. cbn. rewrite <- app_assoc. reflexivity.
        + apply (sends_only_to_app _ _ [_]); [apply sends_only_to_stderr | exact Hs]. }
    destruct buf as [|b0 rest]; [discriminate|].
    destruct (Z.eqb_spec (Z.land (u8 b0) 0x7f) NGTCP2_PKT_CLIENT_INITIAL) as [Htype|Htype];
      cbn [negb].
    2:{ intros [= <- <-]. split_and!; try reflexivity.
        - apply unchanged; reflexivity.
        - intros H. destruct H. reflexivity.
        - exists []. split; [unfold written; rewrite app_nil_r; reflexivity|].
          apply sends_only_to_nil. }
    assert (Hopens : opens_session (b0 :: rest) su).
    { unfold opens_session. rewrite Hname, Hacc. cbn [fst].
      split_and!; try assumption; try reflexivity. eauto. }
    unfold new_Handler, call. cbn [objects set_objects set_next_address env].
    rewrite lookup_insert_eq.
    destruct (Handler_init (Server_fd_ s) su (Handler_new, env s)) as [[ri [h0 w0]]| |] eqn:Hinit;
      try discriminate.
    cbn [objects set_objects set_next_address set_env env].
    rewrite lookup_insert_eq.
    destruct (Handler_on_read fuel (b0 :: rest) (h0, w0)) as [[rv' [h1 w1]]| |] eqn:Hread;
      try discriminate.
    destruct (quiet_Handler_init _ _ _ _ _ Hinit) as (e0 & E0 & Q0).
    destruct (Handler_on_read_reported _ _ _ _ _ Hread) as (e1 & E1 & S1 & _).
    cbn [fst snd] in E0, E1, S1.
    assert (Htarget : fd_ h0 = Server_fd_ s /\ remote_addr_ h0 = su).
    { destruct (Handler_init_spec _ _ _ _ _ Hinit) as (Ia & _ & _ & _ & _ & Hfam).
      cbn [fst snd] in Ia, Hfam. split; [|exact Ia].
      destruct (ss_family su).
      - apply Hfam.
      - apply Hfam.
      - destruct Hfam as [_ [= -> _]].
        rewrite (Handler_on_read_needs_conn fuel (b0 :: rest)
                   (set_remote_addr_ su Handler_new, w0) eq_refl) in Hread.
        discriminate. }
    destruct Htarget as [Tf Ta]. rewrite Tf, Ta in S1.
    destruct (negb (rv' =? 0)).
    + unfold delete_Handler. monad. cbn [objects set_objects set_next_address set_env env].
      rewrite lookup_insert_eq. intros [= <- <-]. split_and!; try reflexivity.
      * apply rejected; [exact Hkey|reflexivity| |reflexivity].
        cbn. rewrite !insert_insert_eq, delete_insert_eq. reflexivity.
      * intros _. exact Hopens.
      * exists (e0 ++ e1 ++ [Stderr "Closing QUIC connection"]). split.
        -- unfold written. cbn. rewrite E1, E0, <- !app_assoc. reflexivity.
        -- apply sends_only_to_app; [apply no_sendto_sends_only_to, Q0|].
           apply sends_only_to_app; [exact S1 | apply sends_only_to_stderr].
    + intros [= <- <-]. split_and!; try reflexivity.
      * apply (created _ _ _ h1); [exact Hkey|reflexivity| |reflexivity].
        cbn. rewrite !insert_insert_eq. reflexivity.
      * intros _. exact Hopens.
      * exists (e0 ++ e1). split.
        -- unfold written. cbn. rewrite E1, E0, app_assoc. reflexivity.
        -- apply sends_only_to_app; [apply no_sendto_sends_only_to, Q0 | exact S1].
Qed.

(** X9. Isolation. [Server::on_read] returns 0 to the event loop on every
    path, a failed [recvfrom] included, and keeps the server's socket; the
    datagram of one peer leaves the entry of every other peer and every
    Handler of another peer as they were, and a failed [recvfrom] leaves
    all entries and all Handlers as they were. *)
Theorem a_datagram_touches_only_its_senders_session
    (fuel : nat) (r : recvfrom_result) (s s' : Server) (rv : Z) :
  Server_on_read fuel r s = Ret (rv, s') ->
  rv = 0 /\ Server_fd_ s' = Server_fd_ s /\
  (forall key, sender_of r <> Some key -> handlers_ s' !! key = handlers_ s !! key) /\
  (forall p, (p < next_address s)%nat ->
     (forall key, sender_of r = Some key -> handlers_ s !! key <> Some p) ->
     objects s' !! p = objects s !! p).
Proof.
  intros Hrun. destruct r as [|buf su].
  { revert Hrun. unfold Server_on_read. monad. intros [= <- <-].
    split_and!; reflexivity. }
  destruct (Server_on_read_cases _ _ _ _ _ _ Hrun) as (Hrv & Hfd & Hch & _).
  split; [exact Hrv|]. split; [exact Hfd|]. cbn [sender_of].
  assert (Hother : forall key, Some (sender_key su) <> Some key -> key <> sender_key su).
  { intros key Hne ->. exact (Hne eq_refl). }
  destruct Hch as [Hh Ho Hn | p h' Hk Hl Hh Ho Hn | p Hk Hh Ho Hn | Hk Hh Ho Hn
                  | h' Hk Hh Ho Hn]; rewrite Hh, Ho; split.
  - reflexivity.
  - reflexivity.
  - reflexivity.
  - intros q _ Hq. apply lookup_insert_ne. intros ->. exact (Hq _ eq_refl Hk).
  - intros key Hne. apply lookup_delete_ne. apply not_eq_sym, Hother, Hne.
  - intros q _ Hq. apply lookup_delete_ne. intros ->. exact (Hq _ eq_refl Hk).
  - reflexivity.
  - intros q Hlt _. apply lookup_delete_ne. lia.
  - intros key Hne. apply lookup_insert_ne. apply not_eq_sym, Hother, Hne.
  - intros q Hlt _. apply lookup_insert_ne. lia.
Qed.

(** X10. A Handler is constructed, and a peer entered in the table, only
    for a datagram of a peer without an entry whose address has a numeric
    form, that is not under the length floor of its family, that
    [ngtcp2_accept] neither rejects nor reports as of an unsupported
    version, and whose first byte has the type Client Initial. *)
Theorem only_a_client_initial_opens_a_session
    (fuel : nat) (buf : list byte) (su : sockaddr) (s s' : Server) (rv : Z) :
  Server_on_read fuel (recvfrom_ok buf su) s = Ret (rv, s') ->
  next_address s' <> next_address s \/
    (exists key, handlers_ s !! key = None /\ is_Some (handlers_ s' !! key)) ->
  opens_session buf su /\ handlers_ s !! sender_key su = None.
Proof.
  intros Hrun Hnew.
  destruct (Server_on_read_cases _ _ _ _ _ _ Hrun) as (_ & _ & Hch & Hopens & _).
  assert (Halloc : next_address s' <> next_address s).
  { destruct Hnew as [H|(key & Hnone & Hsome)]; [exact H|].
    destruct Hch as [Hh Ho Hn | p h' Hk Hl Hh Ho Hn | p Hk Hh Ho Hn | Hk Hh Ho Hn
                    | h' Hk Hh Ho Hn]; rewrite Hh in Hsome.
    - rewrite Hnone in Hsome. destruct Hsome; discriminate.
    - rewrite Hnone in Hsome. destruct Hsome; discriminate.
    - destruct (decide (key = sender_key su)) as [->|Hne].
      + rewrite lookup_delete_eq in Hsome. destruct Hsome; discriminate.
      + rewrite lookup_delete_ne, Hnone in Hsome by congruence. destruct Hsome; discriminate.
    - rewrite Hnone in Hsome. destruct Hsome; discriminate.
    - rewrite Hn. lia. }
  split; [exact (Hopens Halloc)|].
  destruct Hch as [Hh Ho Hn | p h' Hk Hl Hh Ho Hn | p Hk Hh Ho Hn | Hk Hh Ho Hn
                  | h' Hk Hh Ho Hn]; try contradiction; exact Hk.
Qed.

(** X11. The answers to a datagram go to one place: through the socket and
    to the peer address recorded in the sender's Handler if the sender has
    a Session, else through the server's socket back to the address the
    datagram came from (a Version Negotiation packet, or the first flight
    of a new Session). *)
Theorem replies_go_to_the_recorded_peer
    (fuel : nat) (buf : list byte) (su : sockaddr) (s s' : Server) (rv : Z) :
  Server_on_read fuel (recvfrom_ok buf su) s = Ret (rv, s') ->
  exists evs, written s s' evs /\
    sends_only_to (reply_target s su).1 (reply_target s su).2 evs.
Proof.
  intros Hrun.
  destruct (Server_on_read_cases _ _ _ _ _ _ Hrun) as (_ & _ & _ & _ & Hev). exact Hev.
Qed.

Lemma table_change_ok (key : string) (s s' : Server) :
  table_change key s s' -> table_ok s -> table_ok s'.
Proof.
  intros Hch (Hlive & Hown & Hinj & Hbound).
  destruct Hch as [Hh Ho Hn | p h' Hk Hl Hh Ho Hn | p Hk Hh Ho Hn | Hk Hh Ho Hn
                  | h' Hk Hh Ho Hn]; unfold table_ok; rewrite Hh, Ho, Hn.
  - auto.
  - split_and!.
    + intros k q Hq. destruct (decide (q = p)) as [->|Hne].
      * rewrite lookup_insert_eq. eauto.
      * rewrite lookup_insert_ne by congruence. eauto.
    + intros q Hq. destruct (decide (q = p)) as [->|Hne]; [eauto|].
      rewrite lookup_insert_ne in Hq by congruence. eauto.
    + exact Hinj.
    + intros q Hq. destruct (decide (q = p)) as [->|Hne]; [eauto|].
      rewrite lookup_insert_ne in Hq by congruence. eauto.
  - split_and!.
    + intros k q Hq. apply lookup_delete_Some in Hq as [Hne Hq].
      rewrite lookup_delete_ne; [eauto|].
      intros ->. apply Hne. symmetry. exact (Hinj _ _ _ Hq Hk).
    + intros q Hq. destruct (decide (q = p)) as [->|Hne].
      * rewrite lookup_delete_eq in Hq. destruct Hq; discriminate.
      * rewrite lookup_delete_ne in Hq by congruence.
        destruct (Hown q Hq) as [k Hkq]. exists k.
        rewrite lookup_delete_ne; [exact Hkq|]. intros <-. congruence.
    + intros k1 k2 q H1 H2. apply lookup_delete_Some in H1 as [_ H1].
      apply lookup_delete_Some in H2 as [_ H2]. eauto.
    + intros q Hq. destruct (decide (q = p)) as [->|Hne].
      * rewrite lookup_delete_eq in Hq. destruct Hq; discriminate.
      * rewrite lookup_delete_ne in Hq by congruence. eauto.
  - assert (Hfresh : objects s !! next_address s = None).
    { destruct (objects s !! next_address s) eqn:E; [|reflexivity].
      assert (next_address s < next_address s)%nat by (apply Hbound; eexists; exact E). lia. }
    rewrite (delete_id _ _ Hfresh). split_and!; auto.
    intros q Hq. specialize (Hbound q Hq). lia.
  - assert (Hfresh : objects s !! next_address s = None).
    { destruct (objects s !! next_address s) eqn:E; [|reflexivity].
      assert (next_address s < next_address s)%nat by (apply Hbound; eexists; exact E). lia. }
    assert (Hold : forall k q, handlers_ s !! k = Some q -> q <> next_address s).
    { intros k q Hq ->. destruct (Hlive _ _ Hq) as [x Hx]. congruence. }
    split_and!.
    + intros k q Hq. apply lookup_insert_Some in Hq as [[<- <-]|[Hne Hq]].
      * rewrite lookup_insert_eq. eauto.
      * rewrite lookup_insert_ne by (apply not_eq_sym; eauto). eauto.
    + intros q Hq. destruct (decide (q = next_address s)) as [->|Hne].
      * exists key. apply lookup_insert_eq.
      * rewrite lookup_insert_ne in Hq by congruence.
        destruct (Hown q Hq) as [k Hkq]. exists k.
        rewrite lookup_insert_ne; [exact Hkq|]. intros <-. congruence.
    + intros k1 k2 q H1 H2.
      apply lookup_insert_Some in H1 as [[<- <-]|[Hne1 H1]];
        apply lookup_insert_Some in H2 as [[<- E2]|[Hne2 H2]].
      * reflexivity.
      * destruct (Hold _ _ H2 eq_refl).
      * destruct (Hold _ _ H1). symmetry. exact E2.
      * eauto.
    + intros q Hq. destruct (decide (q = next_address s)) as [->|Hne]; [lia|].
      rewrite lookup_insert_ne in Hq by congruence. specialize (Hbound q Hq). lia.
Qed.

Lemma table_ok_started (s : Server) : handlers_ s = ∅ -> objects s = ∅ -> table_ok s.
Proof.
  intros Hh Ho. unfold table_ok. rewrite Hh, Ho. split_and!.
  - intros key p H. rewrite lookup_empty in H. discriminate.
  - intros p [h H]. rewrite lookup_empty in H. discriminate.
  - intros k1 k2 p H. rewrite lookup_empty in H. discriminate.
  - intros p [h H]. rewrite lookup_empty in H. discriminate.
Qed.

Lemma readable_keeps_table_ok (fuel : nat) (r : recvfrom_result) (s s' : Server) (rv : Z) :
  table_ok s -> Server_on_read fuel r s = Ret (rv, s') -> table_ok s'.
Proof.
  intros Hok Hrun. destruct r as [|buf su].
  - revert Hrun. unfold Server_on_read. monad. intros [= <- <-]. exact Hok.
  - destruct (Server_on_read_cases _ _ _ _ _ _ Hrun) as (_ & _ & Hch & _).
    exact (table_change_ok _ _ _ Hch Hok).
Qed.

(** X12. The table and the Handlers stay in step under datagrams. From a
    state in which every entry points to a live Handler, every live
    Handler has exactly one entry and fresh addresses are unused (the
    state of a server that has just started is one), any sequence of
    socket events leads to such a state again: reading datagrams neither
    leaves an entry to a destroyed Handler nor a Handler without an entry. *)
Theorem datagrams_keep_table_and_handlers_in_step
    (fuel : nat) (rs : list recvfrom_result) (s s' : Server) :
  table_ok s ->
  ev_run fuel (map readable rs) s = Ret (tt, s') ->
  table_ok s'.
Proof.
  revert s. induction rs as [|r rs IH]; intros s Hok.
  - cbn. intros [= <-]. exact Hok.
  - cbn [map ev_run dispatch]. monad.
    destruct (Server_on_read fuel r s) as [[rv s1]| |] eqn:Hrun; try discriminate.
    intros Hrest. exact (IH s1 (readable_keeps_table_ok _ _ _ _ _ Hok Hrun) Hrest).
Qed.

(** X13. The result of [Handler::init] is not looked at (line 609). When
    [ngtcp2_conn_server_new] fails and leaves the connection pointer null,
    [init] returns -1, and [Server::on_read] goes on to [on_read] on that
    Handler: [ngtcp2_conn_recv] is called with a null connection. *)
Theorem init_failure_is_not_checked
    (fuel : nat) (b0 : byte) (rest : list byte) (su : sockaddr) (s : Server) :
  let conn_id := (uniform_int_distribution 0 UINT64_MAX (randgen (env s))).1 in
  opens_session (b0 :: rest) su ->
  handlers_ s !! sender_key su = None ->
  (ngtcp2_conn_server_new conn_id NGTCP2_PROTO_VERSION).1 <> 0 ->
  (ngtcp2_conn_server_new conn_id NGTCP2_PROTO_VERSION).2 = None ->
  (exists s0, Handler_init (Server_fd_ s) su (Handler_new, env s) = Ret (-1, s0)) /\
  Server_on_read fuel (recvfrom_ok (b0 :: rest) su) s =
    Fault "ngtcp2_conn_recv: conn_ is null".
Proof.
  intros conn_id (Hname & Hfloor & Hra1 & Hra2 & b & rest' & [= <- <-] & Htype)
    Hkey Hfail Hnull.
  destruct (getnameinfo su) as [rn [host serv]] eqn:En. cbn [fst] in Hname. subst rn.
  assert (Ekey : sender_key su = conn_key_of host serv).
  { unfold sender_key. rewrite En. reflexivity. }
  rewrite Ekey in Hkey.
  destruct (Handler_init_returns (Server_fd_ s) su (Handler_new, env s)) as (ri & s0 & Hinit).
  destruct (Handler_init_spec _ _ _ _ _ Hinit) as (_ & _ & _ & _ & _ & Hfam).
  cbn [fst snd] in Hfam. fold conn_id in Hfam.
  assert (Hconn : conn_ s0.1 = None /\ ri = -1).
  { destruct (ss_family su).
    - destruct Hfam as (_ & _ & _ & _ & Hc & Hrv & _). rewrite Hnull in Hc.
      split; [exact Hc|].
      destruct (Z.eqb_spec (ngtcp2_conn_server_new conn_id NGTCP2_PROTO_VERSION).1 0);
        [contradiction|exact Hrv].
    - destruct Hfam as (_ & _ & _ & _ & Hc & Hrv & _). rewrite Hnull in Hc.
      split; [exact Hc|].
      destruct (Z.eqb_spec (ngtcp2_conn_server_new conn_id NGTCP2_PROTO_VERSION).1 0);
        [contradiction|exact Hrv].
    - destruct Hfam as [-> ->]. split; reflexivity. }
  destruct Hconn as [Hconn ->]. split; [exists s0; exact Hinit|].
  destruct (ngtcp2_accept (b0 :: rest)) as [ra chd] eqn:Hacc. cbn [fst] in Hra1, Hra2.
  unfold Server_on_read. monad.
  rewrite (create_conn_key_ok su host serv s En).
  rewrite conn_key_nonempty, Hkey, Hfloor, Hacc.
  destruct (Z.eqb_spec ra (-1)) as [?|_]; [contradiction|].
  destruct (Z.eqb_spec ra 1) as [?|_]; [contradiction|].
  rewrite Htype, Z.eqb_refl. cbn [negb].
  unfold new_Handler, call. cbn [objects set_objects set_next_address env].
  rewrite lookup_insert_eq, Hinit. destruct s0 as [h0 w0].
  cbn [objects set_objects set_next_address set_env env].
  rewrite lookup_insert_eq.
  rewrite (Handler_on_read_needs_conn fuel (b0 :: rest) (h0, w0) Hconn). reflexivity.
Qed.

End DispatcherFacts.

Section CallbackFacts.
Context {consts : Constants} {opaque : Opaque} {ext : Externals}.

Ltac monad :=
  unfold slog, log, this, world, update in *;
  unfold mbind, mret, prog_mbind, prog_mret, prog_bind, prog_ret,
    get, modify, fault in *;
  cbn beta iota in *.

Lemma status_callback_result (m : hprog Z) (s s' : Handler * World) (r : Z) :
  (rv ← m; if negb (rv =? 0) then mret NGTCP2_ERR_CALLBACK_FAILURE else mret 0) s
    = Ret (r, s') ->
  r = NGTCP2_ERR_CALLBACK_FAILURE \/ r = 0.
Proof.
  monad. destruct (m s) as [[rv s1]| |]; try discriminate.
  destruct (negb (rv =? 0)); intros [= <- <-]; auto.
Qed.

(** X14. What the callbacks give back to the transport engine. Each of the
    three callbacks returns [NGTCP2_ERR_CALLBACK_FAILURE] or succeeds, with
    0 for [recv_handshake_data] and [handshake_completed] and with the
    number of bytes handed over for [send_server_cleartext]: the value a
    TLS or derivation call returned is never passed on. And no callback
    writes to the socket. *)
Theorem callbacks_fail_only_with_callback_failure
    (cb : callback) (s s' : Handler * World) (r : cb_result) :
  cursors_ok s.1 ->
  vsize (chandshake_ s'.1) < 2 ^ 63 -> vsize (shandshake_ s'.1) < 2 ^ 64 ->
  run_callback cb s = Ret (r, s') ->
  (cb_rv r = NGTCP2_ERR_CALLBACK_FAILURE \/
   match cb with
   | cb_send_server_cleartext _ _ => cb_rv r = vsize (cb_dest r)
   | _ => cb_rv r = 0
   end) /\
  exists evs, out s'.2 = out s.2 ++ evs /\ no_sendto evs.
Proof.
  intros Hok Hc Hs Hrun. split; [|exact (quiet_run_callback cb _ _ _ Hrun)].
  destruct cb as [flags ppkt_num|data|]; cbn [run_callback] in Hrun.
  - destruct (cleartext_callback_cases
                flags ppkt_num s s' r Hok Hc Hs Hrun) as (rv & s1 & _ & Hcase).
    destruct (rv =? 0).
    + destruct Hcase as (-> & _ & _ & -> & _).
      destruct (_ && _); [left|right]; reflexivity.
    + destruct Hcase as [-> _]. left. reflexivity.
  - revert Hrun. unfold mbind at 1, prog_mbind, prog_bind.
    destruct (recv_handshake_data data s) as [[rv s1]| |] eqn:E; try discriminate.
    intros [= <- <-]. cbn [cb_rv returns].
    exact (status_callback_result _ _ _ _ E).
  - revert Hrun. unfold mbind at 1, prog_mbind, prog_bind.
    destruct (handshake_completed s) as [[rv s1]| |] eqn:E; try discriminate.
    intros [= <- <-]. cbn [cb_rv returns].
    exact (status_callback_result _ _ _ _ E).
Qed.

(** X15. The failures [setup_crypto_context] does detect. A failure of the
    PRF query, of the AEAD query or of the export of the server secret makes
    the [handshake_completed] callback fail with the connection untouched.
    A failure of the export of the client secret makes it fail too, but
    after the send keys were installed: the connection is left with keys
    for one direction only. *)
Theorem checked_failures_abort_the_derivation
    (h : Handler) (w : World) (ssl : SSL) (conn : ngtcp2_conn) :
  let p1 := negotiated_prf (crypto_ctx_ h) ssl in
  let p2 := negotiated_aead p1.2 ssl in
  let ctx3 := set_secretlen (EVP_MD_size (prf p2.2)) p2.2 in
  let e1 := export_server_secret (tx_secret ctx3) (secretlen ctx3) ssl in
  let ctx4 := set_tx_secret e1.2 ctx3 in
  let k1 := derive_packet_protection_key (replicate 64 x00) 64
              (tx_secret ctx4) (secretlen ctx4) ctx4 in
  let i1 := derive_packet_protection_iv (replicate 64 x00) 64
              (tx_secret ctx4) (secretlen ctx4) ctx4 in
  let conn1 := ngtcp2_conn_update_tx_keys conn k1.2 (to_size_t k1.1) i1.2 (to_size_t i1.1) in
  let e2 := export_client_secret (rx_secret ctx4) (secretlen ctx4) ssl in
  let ctx5 := set_rx_secret e2.2 ctx4 in
  ssl_ h = Some ssl -> conn_ h = Some conn ->
  p1.1 <> 0 \/ p2.1 <> 0 \/ e1.1 <> 0 \/ e2.1 <> 0 ->
  exists ctx' conn',
    handshake_completed (h, w) =
      Ret (NGTCP2_ERR_CALLBACK_FAILURE,
           (set_conn_ (Some conn') (set_crypto_ctx_ ctx' h), w)) /\
    (p1.1 <> 0 \/ p2.1 <> 0 \/ e1.1 <> 0 -> conn' = conn) /\
    (p1.1 = 0 -> p2.1 = 0 -> e1.1 = 0 -> conn' = conn1 /\ ctx' = ctx5).
Proof.
  intros p1 p2 ctx3 e1 ctx4 k1 i1 conn1 e2 ctx5 Hs Hc Hfail.
  rewrite (handshake_completed_unfold h w ssl conn Hs Hc).
  rewrite setup_crypto_context_body_unfold.
  fold p1. fold p2. fold ctx3. fold e1. fold ctx4. fold k1. fold i1. fold conn1.
  fold e2. fold ctx5. cbv zeta.
  destruct (Z.eqb_spec p1.1 0) as [E1|N1]; cbn [negb].
  2:{ eexists _, _. split; [reflexivity|]. split; [reflexivity|]. contradiction. }
  destruct (Z.eqb_spec p2.1 0) as [E2|N2]; cbn [negb].
  2:{ eexists _, _. split; [reflexivity|]. split; [reflexivity|]. contradiction. }
  destruct (Z.eqb_spec e1.1 0) as [E3|N3]; cbn [negb].
  2:{ eexists _, _. split; [reflexivity|]. split; [reflexivity|]. contradiction. }
  destruct (Z.eqb_spec e2.1 0) as [E4|N4]; cbn [negb].
  { exfalso. destruct Hfail as [?|[?|[?|?]]]; contradiction. }
  eexists _, _. split; [reflexivity|]. split.
  - intros [?|[?|?]]; contradiction.
  - intros _ _ _. split; reflexivity.
Qed.

End CallbackFacts.

Section VersionFacts.

Lemma of_be_htonl_bytes (v : Z) : of_be (htonl_bytes v) = v mod 2 ^ 32.
Proof.
  unfold of_be, htonl_bytes. cbn [fold_left].
  rewrite !u8_byte_of_Z, !Z.shiftr_div_pow2 by lia.
  pose proof (Z.div_mod v 256 ltac:(lia)) as D0.
  pose proof (Z.div_mod (v / 256) 256 ltac:(lia)) as D1.
  pose proof (Z.div_mod (v / 256 / 256) 256 ltac:(lia)) as D2.
  pose proof (Z.div_mod (v / 256 / 256 / 256) 256 ltac:(lia)) as D3.
  pose proof (Z.mod_pos_bound v 256 ltac:(lia)) as B0.
  pose proof (Z.mod_pos_bound (v / 256) 256 ltac:(lia)) as B1.
  pose proof (Z.mod_pos_bound (v / 256 / 256) 256 ltac:(lia)) as B2.
  pose proof (Z.mod_pos_bound (v / 256 / 256 / 256) 256 ltac:(lia)) as B3.
  change (2 ^ 24) with (256 * 256 * 256). change (2 ^ 16) with (256 * 256).
  change (2 ^ 8) with 256.
  rewrite <- !Z.div_div by lia.
  apply (Z.mod_unique_pos _ _ (v / 256 / 256 / 256 / 256)); lia.
Qed.

(** X16. The reserved version is never a version in use. Whatever the
    address and the client's version, the value [generate_reserved_vesrion]
    returns differs from every 32-bit version that does not have all four
    low nibbles equal to 0xA (the supported version 0xff000005 is one), and
    so do the four bytes that stand for it in the Version Negotiation
    packet: the packet never lists the same version twice. *)
Theorem reserved_version_differs_from_real_versions (sa : list byte) (version w : Z) :
  0 <= w < 2 ^ 32 ->
  Z.land w 0x0f0f0f0f <> 0x0a0a0a0a ->
  generate_reserved_vesrion sa version <> w /\
  htonl_bytes (generate_reserved_vesrion sa version) <> htonl_bytes w.
Proof.
  intros Hw Hpat.
  assert (Hr : 0 <= generate_reserved_vesrion sa version < 2 ^ 32 /\
               Z.land (generate_reserved_vesrion sa version) 0x0f0f0f0f = 0x0a0a0a0a).
  { unfold generate_reserved_vesrion. cbv zeta.
    pose proof (force_pattern_masks
      (fold_left fnv_round (htonl_bytes version) (fold_left fnv_round sa 0x811C9DC5)))
      as (Hrange & Hlow & _).
    split; assumption. }
  destruct Hr as [Hrange Hlow].
  assert (Hne : generate_reserved_vesrion sa version <> w) by congruence.
  split; [exact Hne|].
  intros Hb. apply Hne.
  apply (f_equal of_be) in Hb. rewrite !of_be_htonl_bytes in Hb.
  rewrite !Z.mod_small in Hb by assumption. exact Hb.
Qed.

End VersionFacts.

Section PacketLengthFacts.
Context {consts : Constants} {opaque : Opaque} {ext : Externals}.

Ltac monad :=
  unfold slog, log, this, world, update in *;
  unfold mbind, mret, prog_mbind, prog_mret, prog_bind, prog_ret,
    get, modify, fault in *;
  cbn beta iota in *.

Lemma ignores_bind {A B : Type} (m : hprog A) (k : A -> hprog B) :
  ignores_max_pktlen m -> (forall a, ignores_max_pktlen (k a)) ->
  ignores_max_pktlen (m ≫= k).
Proof.
  intros Hm Hk v h w. unfold mbind, prog_mbind, prog_bind. rewrite Hm.
  destruct (m (h, w)) as [[a [h1 w1]]| |]; cbn [with_max_pktlen]; [apply Hk|reflexivity..].
Qed.

Lemma ignores_ret {A : Type} (a : A) : ignores_max_pktlen (mret a : hprog A).
Proof. intros v h w. reflexivity. Qed.

Lemma ignores_log (msg : string) : ignores_max_pktlen (log msg).
Proof. intros v h w. reflexivity. Qed.

Lemma ignores_draw (lo hi : Z) : ignores_max_pktlen (draw lo hi).
Proof.
  intros v h w. unfold draw. cbn [fst snd].
  destruct (uniform_int_distribution lo hi (randgen w)); reflexivity.
Qed.

Lemma ignores_status {A : Type} (m : hprog Z) (a b : A) :
  ignores_max_pktlen m ->
  ignores_max_pktlen (rv ← m; if negb (rv =? 0) then mret a else mret b).
Proof.
  intros Hm. apply ignores_bind; [exact Hm|]. intros rv.
  destruct (negb (rv =? 0)); apply ignores_ret.
Qed.

Lemma bio_read_max_pktlen (len v : Z) (h : Handler) :
  bio_read len (set_max_pktlen_ v h) =
    ((bio_read len h).1, set_max_pktlen_ v (bio_read len h).2).
Proof.
  unfold bio_read, read_client_handshake. cbn.
  destruct (to_int _ =? 0); reflexivity.
Qed.

Lemma run_ssl_io_max_pktlen (p : ssl_io SSL) (v : Z) (h : Handler) :
  run_ssl_io p (set_max_pktlen_ v h) =
    ((run_ssl_io p h).1, set_max_pktlen_ v (run_ssl_io p h).2).
Proof.
  revert h. induction p as [rv s | len k IH | buf k IH]; intros h; cbn [run_ssl_io].
  - reflexivity.
  - rewrite bio_read_max_pktlen.
    destruct (bio_read len h) as [[r bs] h1]. cbn [fst snd]. apply IH.
  - unfold bio_write, write_server_handshake. cbn.
    exact (IH _ (set_chandshake_ (chandshake_ h ++ buf)
                   (set_bio_ (BIO_clear_retry_flags (bio_ h)) h))).
Qed.

Lemma ignores_tls_handshake : ignores_max_pktlen tls_handshake.
Proof.
  intros v h w. unfold tls_handshake. monad. cbn [fst snd ssl_ set_max_pktlen_].
  destruct (ssl_ h) as [ssl|]; [|reflexivity].
  rewrite run_ssl_io_max_pktlen.
  destruct (run_ssl_io (SSL_do_handshake ssl) h) as [[rv ssl'] h1]. cbn [fst snd].
  destruct (rv <=? 0).
  - destruct (_ || _); reflexivity.
  - cbn [conn_ set_max_pktlen_ set_ssl_]. destruct (conn_ h1); reflexivity.
Qed.

Lemma ignores_setup_crypto_context : ignores_max_pktlen setup_crypto_context.
Proof.
  intros v h w. unfold setup_crypto_context. monad. cbn [fst snd ssl_ conn_ set_max_pktlen_].
  destruct (ssl_ h) as [ssl|]; [|reflexivity].
  destruct (conn_ h) as [conn|]; [|reflexivity].
  change (crypto_ctx_ (set_max_pktlen_ v h)) with (crypto_ctx_ h).
  destruct (setup_crypto_context_body ssl (crypto_ctx_ h) conn) as [[rv ctx] c].
  reflexivity.
Qed.

Lemma ignores_run_callback (cb : callback) : ignores_max_pktlen (run_callback cb).
Proof.
  destruct cb as [flags ppkt_num|data|]; cbn [run_callback].
  - unfold send_server_cleartext.
    apply ignores_bind; [apply ignores_tls_handshake|intros rv].
    destruct (negb (rv =? 0)); [apply ignores_ret|].
    apply ignores_bind.
    { destruct ppkt_num; [|apply ignores_ret].
      apply ignores_bind; [apply ignores_draw|intros ?; apply ignores_ret]. }
    intros pkt_num v h w. monad. unfold read_server_handshake. cbn.
    destruct (_ && _); reflexivity.
  - apply ignores_bind; [|intros ?; apply ignores_ret].
    unfold recv_handshake_data.
    apply ignores_bind; [intros v h w; reflexivity|intros ?].
    apply ignores_status, ignores_tls_handshake.
  - apply ignores_bind; [|intros ?; apply ignores_ret].
    apply ignores_status, ignores_setup_crypto_context.
Qed.

Lemma ignores_run_conn_io (p : conn_io ngtcp2_conn) : ignores_max_pktlen (run_conn_io p).
Proof.
  induction p as [rv buf c | c cb k IH]; intros v h w; cbn [run_conn_io fst snd].
  - reflexivity.
  - change (set_conn_ (Some c) (set_max_pktlen_ v h))
      with (set_max_pktlen_ v (set_conn_ (Some c) h)).
    rewrite ignores_run_callback.
    destruct (run_callback cb (set_conn_ (Some c) h, w)) as [[r [h1 w1]]| |];
      cbn [with_max_pktlen fst snd conn_ set_max_pktlen_]; try reflexivity.
    destruct (conn_ h1) as [c'|]; [apply IH | reflexivity].
Qed.

Lemma ignores_feed_data (data : list byte) : ignores_max_pktlen (feed_data data).
Proof.
  intros v h w. unfold feed_data. monad. cbn [fst snd conn_ set_max_pktlen_].
  destruct (conn_ h) as [c|]; [|reflexivity].
  rewrite ignores_run_conn_io.
  destruct (run_conn_io _ (h, w)) as [[[rv buf] [h1 w1]]| |]; cbn [with_max_pktlen];
    try reflexivity.
  destruct (negb (rv =? 0)); reflexivity.
Qed.

Lemma ignores_on_write_loop (fuel : nat) : ignores_max_pktlen (on_write_loop fuel).
Proof.
  induction fuel as [|fuel IH]; intros v h w; [reflexivity|].
  destruct (conn_ h) as [c|] eqn:Hc.
  2:{ cbn [on_write_loop]. monad. cbn [fst snd conn_ set_max_pktlen_]. rewrite Hc.
      reflexivity. }
  rewrite (on_write_loop_step fuel (set_max_pktlen_ v h, w) c Hc).
  rewrite (on_write_loop_step fuel (h, w) c Hc).
  cbn [fst snd]. rewrite ignores_run_conn_io.
  destruct (run_conn_io _ (h, w)) as [[[n buf] [h1 w1]]| |]; cbn [with_max_pktlen];
    try reflexivity.
  destruct (n <? 0); [reflexivity|]. destruct (n =? 0); [reflexivity|].
  cbv zeta. cbn [fst snd fd_ remote_addr_ set_max_pktlen_].
  destruct (sendto _ _ _ _) as [r k]. cbn [fst snd].
  destruct (r =? -1); [reflexivity | apply IH].
Qed.

(** X17. [max_pktlen_] is asserted on and never used. With the assertion
    of [on_write] satisfied, [Handler::on_read] runs the same for every
    value of [max_pktlen_]: the same result, the same datagrams, the same
    log lines. The lengths of the datagrams sent do not depend on it (the
    engine is given the size of the buffer, which is the IPv4 length, for
    IPv6 peers too). *)
Theorem max_pktlen_is_only_asserted
    (fuel : nat) (data : list byte) (v : Z) (h : Handler) (w : World) :
  max_pktlen_ h <= NGTCP2_MAX_PKTLEN_IPV4 ->
  v <= NGTCP2_MAX_PKTLEN_IPV4 ->
  Handler_on_read fuel data (set_max_pktlen_ v h, w) =
    with_max_pktlen v (Handler_on_read fuel data (h, w)).
Proof.
  intros Hh Hv. unfold Handler_on_read.
  unfold mbind, prog_mbind, prog_bind.
  rewrite ignores_feed_data.
  destruct (feed_data data (h, w)) as [[rv [h1 w1]]| |] eqn:Ef; cbn [with_max_pktlen];
    try reflexivity.
  destruct (negb (rv =? 0)); [reflexivity|].
  destruct (steps_feed_data _ _ _ _ Ef) as (_ & _ & _ & _ & Em & _). cbn [fst] in Em.
  unfold on_write. monad. cbn [fst snd max_pktlen_ set_max_pktlen_].
  destruct (Z.ltb_spec NGTCP2_MAX_PKTLEN_IPV4 v); [lia|].
  destruct (Z.ltb_spec NGTCP2_MAX_PKTLEN_IPV4 (max_pktlen_ h1)); [lia|].
  apply ignores_on_write_loop.
Qed.

End PacketLengthFacts.

Section HeapFacts.
Context {consts : Constants} {opaque : Opaque} {ext : Externals}.

Ltac monad :=
  unfold slog, log, this, world, update in *;
  unfold mbind, mret, prog_mbind, prog_mret, prog_bind, prog_ret,
    get, modify, fault in *;
  cbn beta iota in *.

Lemma off_bind {S A B : Type} (m : prog S A) (k : A -> prog S B) :
  off_the_heap m -> (forall a, off_the_heap (k a)) -> off_the_heap (m ≫= k).
Proof.
  intros Hm Hk s why. unfold mbind, prog_mbind, prog_bind.
  destruct (m s) as [[a s1]| |] eqn:Em.
  - apply Hk.
  - intros [= <-]. exact (Hm _ _ Em).
  - discriminate.
Qed.

Lemma off_ret {S A : Type} (a : A) : off_the_heap (mret a : prog S A).
Proof. intros s why [=]. Qed.

Lemma off_fault {S A : Type} (why : string) :
  ~ heap_fault why -> off_the_heap (fault why : prog S A).
Proof. intros Hn s why' [= <-]. exact Hn. Qed.

Lemma off_this : off_the_heap this.
Proof. intros s why [=]. Qed.

Lemma off_world : off_the_heap world.
Proof. intros s why [=]. Qed.

Lemma off_update (f : Handler -> Handler) : off_the_heap (update f).
Proof. intros s why [=]. Qed.

Lemma off_log (msg : string) : off_the_heap (log msg).
Proof. intros s why [=]. Qed.

Lemma off_draw (lo hi : Z) : off_the_heap (draw lo hi).
Proof.
  intros s why. unfold draw. destruct (uniform_int_distribution _ _ _). discriminate.
Qed.

Lemma off_do_sendto (fd : Z) (data : list byte) (dest : sockaddr) :
  off_the_heap (do_sendto fd data dest).
Proof.
  intros s why. unfold do_sendto. destruct (sendto _ _ _ _). discriminate.
Qed.

Ltac off :=
  repeat first
    [ apply off_ret | apply off_this | apply off_world
    | apply off_update | apply off_log | apply off_draw | apply off_do_sendto
    | apply off_fault; intros [H|H]; discriminate H
    | apply off_bind; [|intros ?]
    | progress cbv zeta
    | match goal with
      | |- off_the_heap (if ?b then _ else _) => destruct b
      | |- off_the_heap (match ?x with _ => _ end) => destruct x
      | |- off_the_heap (let '(_, _) := ?x in _) => destruct x
      end ].

Lemma off_tls_handshake : off_the_heap tls_handshake.
Proof. unfold tls_handshake. off. Qed.

Lemma off_setup_crypto_context : off_the_heap setup_crypto_context.
Proof. unfold setup_crypto_context. off. Qed.

Lemma off_run_callback (cb : callback) : off_the_heap (run_callback cb).
Proof.
  destruct cb; cbn [run_callback];
    unfold send_server_cleartext, recv_handshake_data, handshake_completed.
  - apply off_bind; [apply off_tls_handshake|intros ?]. off.
  - apply off_bind; [|intros ?; off].
    apply off_bind; [off|intros ?].
    apply off_bind; [apply off_tls_handshake|intros ?]. off.
  - apply off_bind; [|intros ?; off].
    apply off_bind; [apply off_setup_crypto_context|intros ?]. off.
Qed.

Lemma off_run_conn_io (p : conn_io ngtcp2_conn) : off_the_heap (run_conn_io p).
Proof.
  induction p as [rv buf c | c cb k IH]; intros s why; cbn [run_conn_io].
  - discriminate.
  - destruct (run_callback cb _) as [[r s1]| |] eqn:Ecb.
    + destruct (conn_ s1.1) as [c'|]; [apply IH|].
      intros [= <-] [H|H]; discriminate H.
    + intros [= <-]. exact (off_run_callback cb _ _ Ecb).
    + discriminate.
Qed.

Lemma off_feed_data (data : list byte) : off_the_heap (feed_data data).
Proof.
  unfold feed_data.
  apply off_bind; [off|intros h]. destruct (conn_ h); [|off].
  apply off_bind; [off|intros w].
  apply off_bind; [apply off_run_conn_io|intros [rv buf]]. off.
Qed.

Lemma off_on_write_loop (fuel : nat) : off_the_heap (on_write_loop fuel).
Proof.
  induction fuel as [|fuel IH]; [intros s why; discriminate|].
  cbn [on_write_loop].
  apply off_bind; [off|intros h]. destruct (conn_ h); [|off].
  apply off_bind; [off|intros w].
  apply off_bind; [apply off_run_conn_io|intros [len buf]].
  destruct (len <? 0); [off|]. destruct (len =? 0); [off|].
  apply off_bind; [off|intros h'].
  apply off_bind; [off|intros nwrite].
  destruct (nwrite =? -1); [off|exact IH].
Qed.

Lemma off_Handler_on_read (fuel : nat) (data : list byte) :
  off_the_heap (Handler_on_read fuel data).
Proof.
  unfold Handler_on_read, on_write.
  apply off_bind; [apply off_feed_data|intros rv].
  destruct (negb (rv =? 0)); [off|].
  apply off_bind; [off|intros h].
  destruct (_ <? _); [off|apply off_on_write_loop].
Qed.

Lemma send_version_negotiation_returns (chd : ngtcp2_pkt_hd) (su : sockaddr) (s : Server) :
  exists r s', send_version_negotiation chd su s = Ret (r, s').
Proof.
  unfold send_version_negotiation, ngtcp2_upe_new. cbn [negb Z.eqb].
  destruct (ngtcp2_upe_encode_hd _ _) as [rv1 upe1].
  destruct (negb (rv1 =? 0)); [eauto|].
  destruct (ngtcp2_upe_encode_version_negotiation _ _) as [rv2 upe2].
  destruct (negb (rv2 =? 0)); [monad; eauto|].
  unfold Server_sendto. monad.
  destruct (sendto _ _ _ _) as [r0 k]. destruct (r0 =? -1); eauto.
Qed.

Lemma Server_on_read_off_the_heap (fuel : nat) (r : recvfrom_result) (s : Server) (why : string) :
  table_ok s -> Server_on_read fuel r s = Fault why -> ~ heap_fault why.
Proof.
  intros (Hlive & _) Hrun. destruct r as [|buf su]; [discriminate|].
  destruct (getnameinfo su) as [rn [host serv]] eqn:Hname.
  destruct (Z.eq_dec rn 0) as [->|Hrn].
  2:{ revert Hrun. unfold Server_on_read, create_conn_key. rewrite Hname.
      destruct (Z.eqb_spec rn 0) as [?|_]; [contradiction|]. discriminate. }
  destruct (handlers_ s !! conn_key_of host serv) as [p|] eqn:Hkey.
  - destruct (Hlive _ _ Hkey) as [h Hobj].
    rewrite (known_peer_read fuel buf su host serv s p h Hname Hkey Hobj) in Hrun.
    destruct (Handler_on_read fuel buf (h, env s)) as [[rv [h' w']]| |] eqn:Hread.
    + destruct (negb (rv =? 0)); discriminate.
    + injection Hrun as <-. exact (off_Handler_on_read _ _ _ _ Hread).
    + discriminate.
  - destruct (too_short (ss_family su) (vsize buf)) as [msg|] eqn:Hfloor.
    { rewrite (short_datagram_dropped fuel buf su host serv msg s Hname Hkey Hfloor) in Hrun.
      discriminate. }
    destruct (ngtcp2_accept buf) as [ra chd] eqn:Hacc.
    revert Hrun. unfold Server_on_read. monad.
    rewrite (create_conn_key_ok su host serv s Hname).
    rewrite conn_key_nonempty, Hkey, Hfloor, Hacc.
    destruct (ra =? -1); [discriminate|].
    destruct (ra =? 1).
    { destruct (send_version_negotiation_returns chd su
                  (set_env (emit (Stderr "Unsupported version: Send Version Negotiation")
                              (env s)) s)) as (r0 & s0 & ->).
      discriminate. }
    destruct buf as [|b0 rest]; [intros [= <-] [H|H]; discriminate H|].
    destruct (negb _); [discriminate|].
    unfold new_Handler, call. cbn [objects set_objects set_next_address env].
    rewrite lookup_insert_eq.
    destruct (Handler_init_returns (Server_fd_ s) su (Handler_new, env s))
      as (ri & [h0 w0] & ->).
    cbn [objects set_objects set_next_address set_env env].
    rewrite lookup_insert_eq.
    destruct (Handler_on_read fuel (b0 :: rest) (h0, w0)) as [[rv' [h1 w1]]| |] eqn:Hread.
    + destruct (negb (rv' =? 0)); [|discriminate].
      unfold delete_Handler. monad. cbn [objects set_objects set_next_address set_env env].
      rewrite lookup_insert_eq. discriminate.
    + intros [= <-]. exact (off_Handler_on_read _ _ _ _ Hread).
    + discriminate.
Qed.

(** X18. No use after free under datagrams. From a state in which the
    table and the live Handlers are in step, no sequence of socket events
    makes the server call a member function of a destroyed Handler or
    destroy a Handler twice: the dangling pointer of a Session that timed
    out is the only way to either. *)
Theorem datagrams_never_reach_a_destroyed_handler
    (fuel : nat) (rs : list recvfrom_result) (s : Server) (why : string) :
  table_ok s ->
  heap_fault why ->
  ev_run fuel (map readable rs) s <> Fault why.
Proof.
  revert s. induction rs as [|r rs IH]; intros s Hok Hheap; [discriminate|].
  cbn [map ev_run dispatch]. monad.
  destruct (Server_on_read fuel r s) as [[rv s1]| |] eqn:Hrun.
  - exact (IH s1 (readable_keeps_table_ok _ _ _ _ _ Hok Hrun) Hheap).
  - intros [= ->]. exact (Server_on_read_off_the_heap _ _ _ _ Hok Hrun Hheap).
  - discriminate.
Qed.

(** X19. A datagram the transport engine rejects ends the Session. When
    [ngtcp2_conn_recv] fails on a datagram for a peer with a Session,
    [Server::on_read] still returns 0; the peer's entry is erased and its
    Handler destroyed; nothing is sent to the peer, who is not told; the
    failure and the closing are logged. *)
Theorem a_rejected_datagram_ends_the_session
    (fuel : nat) (buf : list byte) (su : sockaddr) (host serv : string)
    (s : Server) (p : address) (h : Handler) (s1 : Handler * World) (rv : Z) :
  getnameinfo su = (0, (host, serv)) ->
  handlers_ s !! conn_key_of host serv = Some p ->
  objects s !! p = Some h ->
  feed_data buf (h, env s) = Ret (rv, s1) -> rv <> 0 ->
  exists s' evs,
    Server_on_read fuel (recvfrom_ok buf su) s = Ret (0, s') /\
    handlers_ s' = delete (conn_key_of host serv) (handlers_ s) /\
    objects s' = delete p (objects s) /\
    written s s' (evs ++ [Stderr "ngtcp2_conn_recv: "; Stderr "Closing QUIC connection"]) /\
    no_sendto (evs ++ [Stderr "ngtcp2_conn_recv: "; Stderr "Closing QUIC connection"]).
Proof.
  intros Hname Hkey Hobj Hfeed Hrv.
  rewrite (known_peer_read fuel buf su host serv s p h Hname Hkey Hobj).
  unfold Handler_on_read. unfold mbind at 1, prog_mbind, prog_bind. rewrite Hfeed.
  destruct (Z.eqb_spec rv 0) as [?|_]; [contradiction|]. cbn [negb].
  destruct s1 as [h1 w1]. cbn [mret prog_mret prog_ret Z.eqb negb].
  revert Hfeed. unfold feed_data. monad. cbn [fst snd].
  destruct (conn_ h) as [c|]; [|discriminate].
  destruct (run_conn_io _ (h, env s)) as [[[r b] s0]| |] eqn:Er; try discriminate.
  destruct (quiet_run_conn_io _ _ _ _ Er) as (e1 & E1 & Q1).
  destruct (negb (r =? 0)); [|intros [= <- _]; contradiction].
  intros [= <- <- <-].
  eexists _, e1. split; [reflexivity|]. split; [reflexivity|]. split; [reflexivity|].
  split.
  - unfold written. cbn. rewrite E1, <- !app_assoc. reflexivity.
  - apply no_sendto_app; [exact Q1 | reflexivity].
Qed.

End HeapFacts.

(** * Closed examples on the instance *)

Section Examples.
#[local] Existing Instances ngtcp2_h demo_opaque demo_ext.

(** Closed arithmetic facts: evaluate, then read the comparisons off. *)
Ltac evaluated := vm_compute; repeat split; (discriminate || reflexivity).

Lemma reserved_version_example :
  generate_reserved_vesrion (sa_bytes demo_peer) 0x99 = 0x1a1a6a8a.
Proof. vm_compute. reflexivity. Qed.

Lemma queue_cursors_invariant_witness :
  cursors_ok (bridge_run demo_ops Handler_new).2 /\
  Forall call_ok (bridge_run demo_ops Handler_new).1.
Proof.
  apply queue_cursors_invariant.
  - evaluated.
  - evaluated.
Defined.

Lemma bio_read_blocks_when_empty_witness :
  let h := write_client_handshake [x01; x02; x03] Handler_new in
  (cursors_ok h /\ sizes_fit h /\ 0 < 2 <= INT_MAX) /\
  (cursors_ok Handler_new /\ sizes_fit Handler_new) /\
  ((bio_read 2 h).1.1 = Z.min 2 (vsize [x01; x02; x03]) /\
   (bio_read 2 h).1.2 = take (Z.to_nat (bio_read 2 h).1.1) [x01; x02; x03] /\
   nsread_ (bio_read 2 h).2 = nsread_ h + (bio_read 2 h).1.1) /\
  ((bio_read 2 Handler_new).1.1 = -1 /\
   bio_ (bio_read 2 Handler_new).2 = BIO_retry_read /\
   nsread_ (bio_read 2 Handler_new).2 = nsread_ Handler_new).
Proof.
  intros h.
  assert (C1 : cursors_ok h) by evaluated.
  assert (F1 : sizes_fit h) by evaluated.
  assert (C2 : cursors_ok Handler_new) by evaluated.
  assert (F2 : sizes_fit Handler_new) by evaluated.
  assert (L : 0 < 2 <= INT_MAX) by evaluated.
  pose proof (bio_read_blocks_when_empty 2 h C1 F1 L) as H1.
  pose proof (bio_read_blocks_when_empty 2 Handler_new C2 F2 L) as H2.
  cbv zeta in H1, H2.
  change (unread_client h) with [x01; x02; x03] in H1.
  change (unread_client Handler_new) with (@nil byte) in H2.
  destruct H1 as (_ & _ & _ & _ & Hret1 & Hbuf1 & Hns1 & _).
  destruct H2 as (_ & _ & _ & Hret2 & _ & Hbio2 & Hns2).
  repeat split; assumption || apply C1 || apply F1 || apply C2 || apply F2 || apply L.
Defined.

Lemma timeout_leaves_dangling_entry_witness :
  let s := demo_established x01 [] in
  let d := demo_datagram 0xff000005 x01 1252 in
  (getnameinfo demo_peer = (0, ("127.0.0.1", "4433")) /\
   handlers_ s !! conn_key_of "127.0.0.1" "4433" = Some 0%nat /\
   objects s !! 0%nat = Some (demo_handler x01) /\
   timer_ (demo_handler x01) = true) /\
  exists s',
    dispatch demo_fuel (timer_expired 0%nat) s = Ret (tt, s') /\
    written s s' [Stderr "Timeout"; Stderr "Closing QUIC connection"] /\
    objects s' = delete 0%nat (objects s) /\
    handlers_ s' !! conn_key_of "127.0.0.1" "4433" = Some 0%nat /\
    Server_on_read demo_fuel (recvfrom_ok d demo_peer) s' =
      Fault "member call on a deleted Handler".
Proof.
  intros s d.
  assert (H1 : getnameinfo demo_peer = (0, ("127.0.0.1", "4433"))) by evaluated.
  assert (H2 : handlers_ s !! conn_key_of "127.0.0.1" "4433" = Some 0%nat) by evaluated.
  assert (H3 : objects s !! 0%nat = Some (demo_handler x01)) by evaluated.
  assert (H4 : timer_ (demo_handler x01) = true) by evaluated.
  exact (conj (conj H1 (conj H2 (conj H3 H4)))
           (timeout_leaves_dangling_entry demo_fuel d demo_peer "127.0.0.1" "4433" s 0%nat
              (demo_handler x01) H1 H2 H3 H4)).
Defined.

(** C3, as stated, fails: a 20-byte datagram from an IPv4 peer without a
    Session, with version field 0x00000099, is dropped without any
    [sendto]. *)
Lemma datagram_of_20_bytes_gets_no_reply :
  let d := demo_datagram 0x99 x01 20 in
  let s := demo_server [] in
  exists s',
    length d = 20%nat /\ ss_family demo_peer = AF_INET /\
    handlers_ s !! demo_key = None /\
    ngtcp2_accept d =
      (1, {| hd_flags := 1; hd_type := 2; hd_conn_id := 1; hd_pkt_num := 7;
             hd_version := 0x99 |}) /\
    Server_on_read demo_fuel (recvfrom_ok d demo_peer) s = Ret (0, s') /\
    out (env s') = [Stderr "IPv4 packet is too short: "] /\
    filter is_sendto (out (env s')) = [] /\
    handlers_ s' = ∅ /\ objects s' = ∅.
Proof.
  intros d s.
  exists (final s (Server_on_read demo_fuel (recvfrom_ok d demo_peer) s)).
  evaluated.
Qed.

Lemma ipv4_floor_precedes_version_negotiation_witness :
  let s := demo_server [] in
  let short := demo_datagram 0x99 x01 20 in
  let long := demo_datagram 0x99 x01 1252 in
  (ss_family demo_peer = AF_INET /\
   getnameinfo demo_peer = (0, ("127.0.0.1", "4433")) /\
   handlers_ s !! conn_key_of "127.0.0.1" "4433" = None /\
   vsize short < NGTCP2_MAX_PKTLEN_IPV4 /\
   NGTCP2_MAX_PKTLEN_IPV4 <= vsize long /\
   NGTCP2_PKT_FLAG_LONG_FORM <> 0 /\
   ngtcp2_accept long = (1, demo_hd x82 (drop 1 long))) /\
  (exists s',
     Server_on_read demo_fuel (recvfrom_ok short demo_peer) s = Ret (0, s') /\
     handlers_ s' = handlers_ s /\ objects s' = objects s /\
     written s s' [Stderr "IPv4 packet is too short: "]) /\
  (exists s' ret evs,
     Server_on_read demo_fuel (recvfrom_ok long demo_peer) s = Ret (0, s') /\
     handlers_ s' = handlers_ s /\ objects s' = objects s /\
     written s s' evs /\
     filter is_sendto evs =
       [Sendto (Server_fd_ s) (vn_packet (demo_hd x82 (drop 1 long)) demo_peer)
          demo_peer ret]).
Proof.
  intros s short long.
  assert (H1 : ss_family demo_peer = AF_INET) by reflexivity.
  assert (H2 : getnameinfo demo_peer = (0, ("127.0.0.1", "4433"))) by evaluated.
  assert (H3 : handlers_ s !! conn_key_of "127.0.0.1" "4433" = None) by evaluated.
  assert (H4 : vsize short < NGTCP2_MAX_PKTLEN_IPV4) by evaluated.
  assert (H5 : NGTCP2_MAX_PKTLEN_IPV4 <= vsize long) by evaluated.
  assert (H6 : NGTCP2_PKT_FLAG_LONG_FORM <> 0) by evaluated.
  assert (H7 : ngtcp2_accept long = (1, demo_hd x82 (drop 1 long))) by evaluated.
  refine (conj (conj H1 (conj H2 (conj H3 (conj H4 (conj H5 (conj H6 H7)))))) _). split.
  - exact (proj1 (ipv4_floor_precedes_version_negotiation demo_fuel short demo_peer
                    "127.0.0.1" "4433" s H1 H2 H3) H4).
  - exact (proj2 (ipv4_floor_precedes_version_negotiation demo_fuel long demo_peer
                    "127.0.0.1" "4433" s H1 H2 H3) H5 H6 _ H7).
Defined.

Lemma version_negotiation_for_unsupported_version_witness :
  let s := demo_server [] in
  let d := demo_datagram 0x99 x01 1252 in
  let chd := {| hd_flags := 1; hd_type := 2; hd_conn_id := 1; hd_pkt_num := 7;
                hd_version := 0x99 |} in
  (NGTCP2_PKT_FLAG_LONG_FORM <> 0 /\
   getnameinfo demo_peer = (0, ("127.0.0.1", "4433")) /\
   handlers_ s !! conn_key_of "127.0.0.1" "4433" = None /\
   too_short (ss_family demo_peer) (vsize d) = None /\
   ngtcp2_accept d = (1, chd)) /\
  exists s' ret evs,
    Server_on_read demo_fuel (recvfrom_ok d demo_peer) s = Ret (0, s') /\
    handlers_ s' = handlers_ s /\ objects s' = objects s /\
    written s s' evs /\
    filter is_sendto evs =
      [Sendto 3
         ([x81] ++ [x00; x00; x00; x00; x00; x00; x00; x01] ++ [x00; x00; x00; x07]
          ++ [x00; x00; x00; x99] ++ [x1a; x1a; x6a; x8a] ++ [xff; x00; x00; x05])
         demo_peer ret].
Proof.
  intros s d chd.
  assert (H1 : NGTCP2_PKT_FLAG_LONG_FORM <> 0) by evaluated.
  assert (H2 : getnameinfo demo_peer = (0, ("127.0.0.1", "4433"))) by evaluated.
  assert (H3 : handlers_ s !! conn_key_of "127.0.0.1" "4433" = None) by evaluated.
  assert (H4 : too_short (ss_family demo_peer) (vsize d) = None) by evaluated.
  assert (H5 : ngtcp2_accept d = (1, chd)) by evaluated.
  refine (conj (conj H1 (conj H2 (conj H3 (conj H4 H5)))) _).
  exact (version_negotiation_for_unsupported_version demo_fuel d demo_peer
           "127.0.0.1" "4433" chd s H1 H2 H3 H4 H5).
Defined.

Lemma failed_first_feed_leaves_table_unchanged_witness :
  let s := demo_server [] in
  let d := demo_datagram 0xff000005 x00 1252 in
  let s0 := final (Handler_new, env s) (Handler_init (Server_fd_ s) demo_peer (Handler_new, env s)) in
  let s1 := final s0 (Handler_on_read demo_fuel (x82 :: drop 1 d) s0) in
  (getnameinfo demo_peer = (0, ("127.0.0.1", "4433")) /\
   handlers_ s !! conn_key_of "127.0.0.1" "4433" = None /\
   too_short (ss_family demo_peer) (vsize (x82 :: drop 1 d)) = None /\
   ngtcp2_accept (x82 :: drop 1 d) = (0, demo_hd x82 (drop 1 d)) /\
   Z.land (u8 x82) 0x7f = NGTCP2_PKT_CLIENT_INITIAL /\
   objects s !! next_address s = None /\
   Handler_init (Server_fd_ s) demo_peer (Handler_new, env s) = Ret (0, s0) /\
   Handler_on_read demo_fuel (x82 :: drop 1 d) s0 = Ret (-1, s1)) /\
  exists s',
    Server_on_read demo_fuel (recvfrom_ok (x82 :: drop 1 d) demo_peer) s = Ret (0, s') /\
    handlers_ s' = handlers_ s /\ objects s' = objects s /\
    out (env s') = out s1.2 ++ [Stderr "Closing QUIC connection"].
Proof.
  intros s d s0 s1.
  assert (H1 : getnameinfo demo_peer = (0, ("127.0.0.1", "4433"))) by evaluated.
  assert (H2 : handlers_ s !! conn_key_of "127.0.0.1" "4433" = None) by evaluated.
  assert (H3 : too_short (ss_family demo_peer) (vsize (x82 :: drop 1 d)) = None) by evaluated.
  assert (H4 : ngtcp2_accept (x82 :: drop 1 d) = (0, demo_hd x82 (drop 1 d))) by evaluated.
  assert (H5 : Z.land (u8 x82) 0x7f = NGTCP2_PKT_CLIENT_INITIAL) by evaluated.
  assert (H6 : objects s !! next_address s = None) by evaluated.
  assert (H7 : Handler_init (Server_fd_ s) demo_peer (Handler_new, env s) = Ret (0, s0))
    by evaluated.
  assert (H8 : Handler_on_read demo_fuel (x82 :: drop 1 d) s0 = Ret (-1, s1)) by evaluated.
  assert (N1 : 0 <> -1) by discriminate.
  assert (N2 : 0 <> 1) by discriminate.
  assert (N3 : -1 <> 0) by discriminate.
  exact (conj (conj H1 (conj H2 (conj H3 (conj H4 (conj H5 (conj H6 (conj H7 H8)))))))
           (failed_first_feed_leaves_table_unchanged demo_fuel x82 (drop 1 d) demo_peer
              "127.0.0.1" "4433" s 0 0 (-1) (demo_hd x82 (drop 1 d)) s0 s1
              H1 H2 H3 H4 N1 N2 H5 H6 H7 H8 N3)).
Defined.

(** C2, as stated, fails: a Session is in the table, a datagram for it
    arrives, the one datagram the drain produces is refused by [sendto];
    after the step the Session's Handler is deleted and its entry is gone. *)
Lemma session_does_not_survive_failed_sendto :
  let s := demo_established x01 [-1] in
  let d := demo_datagram 0xff000005 x01 1252 in
  let s' := final s (Server_on_read demo_fuel (recvfrom_ok d demo_peer) s) in
  (handlers_ s !! demo_key = Some 0%nat /\
   timer_ <$> objects s !! 0%nat = Some true) /\
  Server_on_read demo_fuel (recvfrom_ok d demo_peer) s = Ret (0, s') /\
  added s s' = [Sendto 3 [x84] demo_peer (-1); Stderr "sendto: ";
                Stderr "Closing QUIC connection"] /\
  handlers_ s' !! demo_key = None /\ objects s' !! 0%nat = None.
Proof. evaluated. Qed.

Lemma failed_sendto_deletes_the_session_witness :
  let s := demo_established x01 [-1] in
  let t := demo_server [-1] in
  let d := demo_datagram 0xff000005 x01 1252 in
  let h := demo_handler x01 in
  let s1 := final (h, env s) (feed_data d (h, env s)) in
  let s2 := final s1 (on_write_loop 1 s1) in
  let t0 := final (Handler_new, env t) (Handler_init (Server_fd_ t) demo_peer (Handler_new, env t)) in
  let t1 := final t0 (feed_data d t0) in
  let t2 := final t1 (on_write_loop 1 t1) in
  let sent := Sendto 3 [x84] demo_peer (-1) in
  let flight := Sendto 3 [x84; x16; x03; x03] demo_peer (-1) in
  (getnameinfo demo_peer = (0, ("127.0.0.1", "4433")) /\
   handlers_ s !! conn_key_of "127.0.0.1" "4433" = Some 0%nat /\
   objects s !! 0%nat = Some h /\
   feed_data d (h, env s) = Ret (0, s1) /\
   max_pktlen_ s1.1 <= NGTCP2_MAX_PKTLEN_IPV4 /\
   on_write_loop 1 s1 = Ret (-1, s2) /\
   out s2.2 = out s1.2 ++ [sent; Stderr "sendto: "] /\
   sent ∈ [sent; Stderr "sendto: "]) /\
  (d = x82 :: drop 1 d /\
   handlers_ t !! conn_key_of "127.0.0.1" "4433" = None /\
   objects t !! next_address t = None /\
   too_short (ss_family demo_peer) (vsize d) = None /\
   ngtcp2_accept d = (0, demo_hd x82 (drop 1 d)) /\
   Z.land (u8 x82) 0x7f = NGTCP2_PKT_CLIENT_INITIAL /\
   Handler_init (Server_fd_ t) demo_peer (Handler_new, env t) = Ret (0, t0) /\
   feed_data d t0 = Ret (0, t1) /\
   max_pktlen_ t1.1 <= NGTCP2_MAX_PKTLEN_IPV4 /\
   on_write_loop 1 t1 = Ret (-1, t2) /\
   out t2.2 = out t1.2 ++ [flight; Stderr "sendto: "] /\
   flight ∈ [flight; Stderr "sendto: "]) /\
  Handler_on_read demo_fuel d (h, env s) = on_write_loop demo_fuel s1 /\
  Server_on_read demo_fuel (recvfrom_ok d demo_peer) s =
    Ret (0, set_handlers_ (delete (conn_key_of "127.0.0.1" "4433") (handlers_ s))
              (set_objects (delete 0%nat (objects s))
                 (set_env (emit (Stderr "Closing QUIC connection") s2.2) s))) /\
  Server_on_read demo_fuel (recvfrom_ok d demo_peer) t =
    Ret (0, set_next_address (S (next_address t))
              (set_env (emit (Stderr "Closing QUIC connection") t2.2) t)).
Proof.
  intros s t d h s1 s2 t0 t1 t2 sent flight.
  assert (H1 : getnameinfo demo_peer = (0, ("127.0.0.1", "4433"))) by evaluated.
  assert (K1 : handlers_ s !! conn_key_of "127.0.0.1" "4433" = Some 0%nat) by evaluated.
  assert (K2 : objects s !! 0%nat = Some h) by evaluated.
  assert (K3 : feed_data d (h, env s) = Ret (0, s1)) by evaluated.
  assert (K4 : max_pktlen_ s1.1 <= NGTCP2_MAX_PKTLEN_IPV4) by evaluated.
  assert (K5 : on_write_loop 1 s1 = Ret (-1, s2)) by evaluated.
  assert (K6 : out s2.2 = out s1.2 ++ [sent; Stderr "sendto: "]) by evaluated.
  assert (K7 : sent ∈ [sent; Stderr "sendto: "]) by apply list_elem_of_here.
  assert (U0 : d = x82 :: drop 1 d) by evaluated.
  assert (U1 : handlers_ t !! conn_key_of "127.0.0.1" "4433" = None) by evaluated.
  assert (U2 : objects t !! next_address t = None) by evaluated.
  assert (U3 : too_short (ss_family demo_peer) (vsize d) = None) by evaluated.
  assert (U4 : ngtcp2_accept d = (0, demo_hd x82 (drop 1 d))) by evaluated.
  assert (U5 : Z.land (u8 x82) 0x7f = NGTCP2_PKT_CLIENT_INITIAL) by evaluated.
  assert (U6 : Handler_init (Server_fd_ t) demo_peer (Handler_new, env t) = Ret (0, t0))
    by evaluated.
  assert (U7 : feed_data d t0 = Ret (0, t1)) by evaluated.
  assert (U8 : max_pktlen_ t1.1 <= NGTCP2_MAX_PKTLEN_IPV4) by evaluated.
  assert (U9 : on_write_loop 1 t1 = Ret (-1, t2)) by evaluated.
  assert (U10 : out t2.2 = out t1.2 ++ [flight; Stderr "sendto: "]) by evaluated.
  assert (U11 : flight ∈ [flight; Stderr "sendto: "]) by apply list_elem_of_here.
  assert (N1 : 0 <> -1) by discriminate.
  assert (N2 : 0 <> 1) by discriminate.
  assert (L : (1 <= demo_fuel)%nat) by (unfold demo_fuel; lia).
  pose proof (failed_sendto_deletes_the_session 1 d demo_peer
                "127.0.0.1" "4433" s H1) as (Drain & _ & _ & Kn & _).
  pose proof (failed_sendto_deletes_the_session 1 d demo_peer
                "127.0.0.1" "4433" t H1) as (_ & _ & _ & _ & Un).
  exact (conj (conj H1 (conj K1 (conj K2 (conj K3 (conj K4 (conj K5 (conj K6 K7)))))))
          (conj (conj U0 (conj U1 (conj U2 (conj U3 (conj U4 (conj U5 (conj U6 (conj U7
                  (conj U8 (conj U9 (conj U10 U11)))))))))))
            (conj (Drain demo_fuel (h, env s) s1 K3 K4)
              (conj (Kn 0%nat h s1 s2 (-1) [sent; Stderr "sendto: "] 3 [x84] demo_peer
                       demo_fuel K1 K2 K3 K4 K5 K6 K7 L)
                    (Un x82 (drop 1 d) 0 0 (demo_hd x82 (drop 1 d)) t0 t1 t2 (-1)
                       [flight; Stderr "sendto: "] 3 [x84; x16; x03; x03] demo_peer
                       demo_fuel U0 U1 U2 U3 U4 N1 N2 U5 U6 U7 U8 U9 U10 U11 L))))).
Defined.

Lemma derivation_failure_is_not_detected_witness :
  let h := demo_handler xff in
  let w := env (demo_established xff []) in
  let ctx := (negotiated_aead (negotiated_prf (crypto_ctx_ h) 0x13ff).2 0x13ff).2 in
  (ssl_ h = Some 0x13ff /\ conn_ h = Some (demo_conn_of h) /\
   (negotiated_prf (crypto_ctx_ h) 0x13ff).1 = 0 /\
   (negotiated_aead (negotiated_prf (crypto_ctx_ h) 0x13ff).2 0x13ff).1 = 0 /\
   (derive_packet_protection_key (replicate 64 x00) 64 (replicate 32 x53) 32 ctx).1 = -1) /\
  result 1 (handshake_completed (h, w)) = 0 /\
  map demo_lengths (drop 2 (demo_installs (final (h, w) (handshake_completed (h, w))).1)) =
    [(2 ^ 64 - 1, 12); (2 ^ 64 - 1, 12)].
Proof.
  intros h w ctx.
  split; [evaluated|].
  pose proof (derivation_failure_is_not_detected h w 0x13ff (demo_conn_of h)) as T.
  cbv zeta in T.
  rewrite T; [evaluated | evaluated | evaluated | evaluated | evaluated | evaluated
             | evaluated | left; evaluated].
Defined.

(** C5, as stated, fails: the Handler of an established Session has its
    keys installed (one installation per direction); the
    handshake-completed callback, invoked on it a second time, succeeds
    and installs keys for both directions again. *)
Lemma second_handshake_completed_installs_again :
  let h := demo_handler x01 in
  let w := env (demo_established x01 []) in
  let h' := (final (h, w) (handshake_completed (h, w))).1 in
  map demo_lengths (demo_installs h) = [(16, 12); (16, 12)] /\
  result 1 (handshake_completed (h, w)) = 0 /\
  map demo_lengths (demo_installs h') = [(16, 12); (16, 12); (16, 12); (16, 12)] /\
  length (api (demo_conn_of h')) = (length (api (demo_conn_of h)) + 3)%nat.
Proof. evaluated. Qed.

Lemma handshake_complete_path_has_no_guard_witness :
  let h := demo_handler x01 in
  let w := env (demo_established x01 []) in
  let c := demo_conn_of h in
  let b := setup_crypto_context_body 0x1301 (crypto_ctx_ h) c in
  let r := run_ssl_io (SSL_do_handshake 0x1301) h in
  (ssl_ h = Some 0x1301 /\ conn_ h = Some c /\
   setup_crypto_context_body 0x1301 (crypto_ctx_ h) c = (0, b.1.2, b.2) /\
   run_ssl_io (SSL_do_handshake 0x1301) h = (r.1.1, r.1.2, r.2) /\ 0 < r.1.1) /\
  (handshake_completed (h, w) = Ret (0, (set_conn_ (Some b.2) (set_crypto_ctx_ b.1.2 h), w)) /\
   exists key keylen iv ivlen key' keylen' iv' ivlen',
     b.2 = ngtcp2_conn_set_aead_overhead
             (ngtcp2_conn_update_rx_keys
                (ngtcp2_conn_update_tx_keys c key keylen iv ivlen)
                key' keylen' iv' ivlen')
             (aead_max_overhead b.1.2)) /\
  tls_handshake (h, w) =
    Ret (0, (set_conn_ (Some (ngtcp2_conn_handshake_completed c))
               (set_ssl_ (Some r.1.2) r.2), w)).
Proof.
  intros h w c b r.
  assert (H1 : ssl_ h = Some 0x1301) by evaluated.
  assert (H2 : conn_ h = Some c) by evaluated.
  assert (H3 : setup_crypto_context_body 0x1301 (crypto_ctx_ h) c = (0, b.1.2, b.2))
    by evaluated.
  assert (H4 : run_ssl_io (SSL_do_handshake 0x1301) h = (r.1.1, r.1.2, r.2)) by evaluated.
  assert (H5 : 0 < r.1.1) by evaluated.
  pose proof (handshake_complete_path_has_no_guard h w 0x1301 c H1 H2) as (P1 & P2).
  exact (conj (conj H1 (conj H2 (conj H3 (conj H4 H5))))
           (conj (P1 b.1.2 b.2 H3) (P2 r.1.1 r.1.2 r.2 H4 H5))).
Defined.

End Examples.

(** ** Closed examples for the further properties *)

Section MoreExamples.
#[local] Existing Instances ngtcp2_h demo_opaque demo_ext.

Ltac evaluated := vm_compute; repeat split; (discriminate || reflexivity).

Lemma reads_are_first_in_first_out_witness :
  (cursors_ok Handler_new /\ sizes_fit (bridge_run demo_ops Handler_new).2) /\
  let hf := (bridge_run demo_ops Handler_new).2 in
  let calls := (bridge_run demo_ops Handler_new).1 in
  nsread_ Handler_new <= nsread_ hf /\ ncread_ Handler_new <= ncread_ hf /\
  read_client calls =
    take (Z.to_nat (nsread_ hf - nsread_ Handler_new))
      (drop (Z.to_nat (nsread_ Handler_new)) (shandshake_ hf)) /\
  read_server calls =
    take (Z.to_nat (ncread_ hf - ncread_ Handler_new))
      (drop (Z.to_nat (ncread_ Handler_new)) (chandshake_ hf)).
Proof.
  assert (C : cursors_ok Handler_new) by evaluated.
  assert (F : sizes_fit (bridge_run demo_ops Handler_new).2) by evaluated.
  exact (conj (conj C F) (reads_are_first_in_first_out demo_ops Handler_new C F)).
Defined.

Lemma inbound_round_trip_witness :
  let data := [x01; x02; x03] in
  let r := bio_read 2 (write_client_handshake data Handler_new) in
  (cursors_ok Handler_new /\ sizes_fit (write_client_handshake data Handler_new) /\
   0 < 2 <= INT_MAX /\ unread_client Handler_new ++ data <> []) /\
  r.1.1 = Z.min 2 (vsize (unread_client Handler_new ++ data)) /\
  r.1.2 = take (Z.to_nat r.1.1) (unread_client Handler_new ++ data) /\
  unread_client r.2 = drop (Z.to_nat r.1.1) (unread_client Handler_new ++ data) /\
  (unread_client Handler_new = [] -> vsize data <= 2 ->
   r.1.2 = data /\ unread_client r.2 = []).
Proof.
  intros data r.
  assert (C : cursors_ok Handler_new) by evaluated.
  assert (F : sizes_fit (write_client_handshake data Handler_new)) by evaluated.
  assert (L : 0 < 2 <= INT_MAX) by evaluated.
  assert (N : unread_client Handler_new ++ data <> []) by evaluated.
  exact (conj (conj C (conj F (conj L N))) (inbound_round_trip data 2 Handler_new C F L N)).
Defined.

Lemma outbound_round_trip_witness :
  let h := write_server_handshake [x16] Handler_new in
  let w := bio_write [x03; x03] h in
  let r1 := read_server_handshake w.2 in
  let r2 := read_server_handshake r1.2 in
  (cursors_ok h /\ sizes_fit (bio_write [x03; x03] h).2) /\
  w.1 = vsize [x03; x03] /\ bio_ w.2 = BIO_no_retry /\
  r1.1.2 = unread_server h ++ [x03; x03] /\
  r1.1.1 = vsize (unread_server h ++ [x03; x03]) /\
  unread_server r1.2 = [] /\
  r2.1.1 = 0 /\ r2.1.2 = [] /\ ncread_ r2.2 = ncread_ r1.2.
Proof.
  intros h w r1 r2.
  assert (C : cursors_ok h) by evaluated.
  assert (F : sizes_fit (bio_write [x03; x03] h).2) by evaluated.
  exact (conj (conj C F) (outbound_round_trip [x03; x03] h C F)).
Defined.

Lemma on_read_keeps_the_handler_witness :
  let d := demo_datagram 0xff000005 x01 1252 in
  let s' := final demo_session (on_reads demo_fuel [d; d; d] demo_session) in
  on_reads demo_fuel [d; d; d] demo_session = Ret (0, s') /\
  evolves demo_session.1 s'.1.
Proof.
  intros d s'.
  assert (H : on_reads demo_fuel [d; d; d] demo_session = Ret (0, s')) by evaluated.
  exact (conj H (on_read_keeps_the_handler demo_fuel [d; d; d] demo_session s' 0 H)).
Defined.

Lemma on_read_fails_loudly_and_sends_to_its_peer_witness :
  let d := demo_datagram 0xff000005 x01 1252 in
  let s' := final demo_session (Handler_on_read demo_fuel d demo_session) in
  Handler_on_read demo_fuel d demo_session = Ret (0, s') /\
  exists evs, out s'.2 = out demo_session.2 ++ evs /\
    sends_only_to (fd_ demo_session.1) (remote_addr_ demo_session.1) evs /\ reported 0 evs.
Proof.
  intros d s'.
  assert (H : Handler_on_read demo_fuel d demo_session = Ret (0, s')) by evaluated.
  exact (conj H (on_read_fails_loudly_and_sends_to_its_peer demo_fuel d demo_session s' 0 H)).
Defined.

Lemma send_server_cleartext_drains_the_outbound_queue_witness :
  let run := send_server_cleartext 0 true demo_greeted in
  let r := result (failure None []) run in
  let s' := final demo_greeted run in
  (cursors_ok demo_greeted.1 /\
   vsize (chandshake_ s'.1) < 2 ^ 63 /\ vsize (shandshake_ s'.1) < 2 ^ 64 /\
   send_server_cleartext 0 true demo_greeted = Ret (r, s')) /\
  (cb_rv r = 3 /\ cb_dest r = demo_server_flight) /\
  exists rv s1, tls_handshake demo_greeted = Ret (rv, s1) /\
    if rv =? 0 then
      cb_dest r = unread_server s1.1 /\
      unread_server s'.1 = [] /\ chandshake_ s'.1 = chandshake_ s1.1 /\
      cb_rv r = (if true && (vsize (unread_server s1.1) =? 0)
                 then NGTCP2_ERR_CALLBACK_FAILURE else vsize (unread_server s1.1)) /\
      cb_pkt_num r =
        (if true
         then Some (uniform_int_distribution 0 INT32_MAX (randgen s1.2)).1 else None)
    else r = failure None [] /\ s' = s1.
Proof.
  intros run r s'.
  assert (C : cursors_ok demo_greeted.1) by evaluated.
  assert (F1 : vsize (chandshake_ s'.1) < 2 ^ 63) by evaluated.
  assert (F2 : vsize (shandshake_ s'.1) < 2 ^ 64) by evaluated.
  assert (H : send_server_cleartext 0 true demo_greeted = Ret (r, s')) by evaluated.
  assert (V : cb_rv r = 3 /\ cb_dest r = demo_server_flight) by evaluated.
  exact (conj (conj C (conj F1 (conj F2 H)))
           (conj V (send_server_cleartext_drains_the_outbound_queue
                      0 true demo_greeted s' r C F1 F2 H))).
Defined.

Lemma init_settles_what_on_write_asserts_witness :
  let s := (Handler_new, env (demo_server [])) in
  let d := demo_datagram 0xff000005 x01 1252 in
  let h' := (final demo_initialised (Handler_on_read demo_fuel d demo_initialised)).1 in
  (NGTCP2_MAX_PKTLEN_IPV6 <= NGTCP2_MAX_PKTLEN_IPV4 /\
   Handler_init 3 demo_peer s = Ret (0, demo_initialised) /\
   Handler_on_read demo_fuel d demo_initialised =
     Ret (0, final demo_initialised (Handler_on_read demo_fuel d demo_initialised))) /\
  remote_addr_ h' = demo_peer /\ fd_ h' = 3 /\ timer_ h' = true /\ is_Some (ssl_ h') /\
  max_pktlen_ h' = match ss_family demo_peer with
                   | AF_INET => NGTCP2_MAX_PKTLEN_IPV4
                   | _ => NGTCP2_MAX_PKTLEN_IPV6
                   end /\
  forall fuel w, on_write fuel (h', w) = on_write_loop fuel (h', w).
Proof.
  intros s d h'.
  assert (L : NGTCP2_MAX_PKTLEN_IPV6 <= NGTCP2_MAX_PKTLEN_IPV4) by evaluated.
  assert (I : Handler_init 3 demo_peer s = Ret (0, demo_initialised)) by evaluated.
  assert (R : Handler_on_read demo_fuel d demo_initialised =
              Ret (0, final demo_initialised (Handler_on_read demo_fuel d demo_initialised)))
    by evaluated.
  exact (conj (conj L (conj I R))
           (init_settles_what_on_write_asserts 3 demo_peer s demo_initialised h' L I
              (steps_Handler_on_read demo_fuel d _ _ _ R))).
Defined.

Lemma a_datagram_touches_only_its_senders_session_witness :
  let s := demo_two_sessions [-1] in
  let d := demo_datagram 0xff000005 x01 1252 in
  let r := recvfrom_ok d demo_peer in
  let s' := final s (Server_on_read demo_fuel r s) in
  let e' := final s (Server_on_read demo_fuel recvfrom_error s) in
  (Server_on_read demo_fuel r s = Ret (0, s') /\
   Server_on_read demo_fuel recvfrom_error s = Ret (0, e')) /\
  (handlers_ s !! "[127.0.0.1]:4433" = Some 0%nat /\
   handlers_ s !! "[127.0.0.2]:4433" = Some 1%nat /\
   remote_addr_ <$> objects s !! 0%nat = Some demo_peer /\
   remote_addr_ <$> objects s !! 1%nat = Some demo_other_peer /\
   handlers_ s' !! "[127.0.0.1]:4433" = None /\ objects s' !! 0%nat = None) /\
  (handlers_ s' !! "[127.0.0.2]:4433" = handlers_ s !! "[127.0.0.2]:4433" /\
   objects s' !! 1%nat = objects s !! 1%nat) /\
  (handlers_ e' !! "[127.0.0.1]:4433" = handlers_ s !! "[127.0.0.1]:4433" /\
   objects e' !! 0%nat = objects s !! 0%nat) /\
  (0 = 0 /\ Server_fd_ s' = Server_fd_ s /\
   (forall key, sender_of r <> Some key -> handlers_ s' !! key = handlers_ s !! key) /\
   (forall p, (p < next_address s)%nat ->
      (forall key, sender_of r = Some key -> handlers_ s !! key <> Some p) ->
      objects s' !! p = objects s !! p)).
Proof.
  intros s d r s' e'.
  assert (H : Server_on_read demo_fuel r s = Ret (0, s')) by evaluated.
  assert (E : Server_on_read demo_fuel recvfrom_error s = Ret (0, e')) by evaluated.
  assert (F : handlers_ s !! "[127.0.0.1]:4433" = Some 0%nat /\
              handlers_ s !! "[127.0.0.2]:4433" = Some 1%nat /\
              remote_addr_ <$> objects s !! 0%nat = Some demo_peer /\
              remote_addr_ <$> objects s !! 1%nat = Some demo_other_peer /\
              handlers_ s' !! "[127.0.0.1]:4433" = None /\ objects s' !! 0%nat = None)
    by evaluated.
  assert (N : sender_of r <> Some "[127.0.0.2]:4433") by evaluated.
  assert (L1 : (1 < next_address s)%nat) by (vm_compute; lia).
  assert (L0 : (0 < next_address s)%nat) by (vm_compute; lia).
  assert (P : forall key, sender_of r = Some key -> handlers_ s !! key <> Some 1%nat).
  { intros key [= <-]. evaluated. }
  assert (NE : sender_of recvfrom_error <> Some "[127.0.0.1]:4433").
  { intros HH. discriminate HH. }
  assert (PE : forall key, sender_of recvfrom_error = Some key ->
                 handlers_ s !! key <> Some 0%nat).
  { intros key HH. discriminate HH. }
  pose proof (a_datagram_touches_only_its_senders_session demo_fuel r s s' 0 H) as T.
  pose proof (a_datagram_touches_only_its_senders_session demo_fuel recvfrom_error s e' 0 E)
    as (_ & _ & Ek & Eo).
  exact (conj (conj H E)
          (conj F
            (conj (conj (proj1 (proj2 (proj2 T)) "[127.0.0.2]:4433" N)
                        (proj2 (proj2 (proj2 T)) 1%nat L1 P))
              (conj (conj (Ek "[127.0.0.1]:4433" NE) (Eo 0%nat L0 PE)) T)))).
Defined.

Lemma only_a_client_initial_opens_a_session_witness :
  let s := demo_server [] in
  let d := demo_datagram 0xff000005 x01 1252 in
  let s' := final s (Server_on_read demo_fuel (recvfrom_ok d demo_peer) s) in
  (Server_on_read demo_fuel (recvfrom_ok d demo_peer) s = Ret (0, s') /\
   next_address s' <> next_address s) /\
  opens_session d demo_peer /\ handlers_ s !! sender_key demo_peer = None.
Proof.
  intros s d s'.
  assert (H : Server_on_read demo_fuel (recvfrom_ok d demo_peer) s = Ret (0, s')) by evaluated.
  assert (N : next_address s' <> next_address s) by evaluated.
  exact (conj (conj H N)
           (only_a_client_initial_opens_a_session demo_fuel d demo_peer s s' 0 H
              (or_introl N))).
Defined.

Lemma replies_go_to_the_recorded_peer_witness :
  let s := demo_server [] in
  let d := demo_datagram 0x99 x01 1252 in
  let s' := final s (Server_on_read demo_fuel (recvfrom_ok d demo_peer) s) in
  Server_on_read demo_fuel (recvfrom_ok d demo_peer) s = Ret (0, s') /\
  exists evs, written s s' evs /\
    sends_only_to (reply_target s demo_peer).1 (reply_target s demo_peer).2 evs.
Proof.
  intros s d s'.
  assert (H : Server_on_read demo_fuel (recvfrom_ok d demo_peer) s = Ret (0, s')) by evaluated.
  exact (conj H (replies_go_to_the_recorded_peer demo_fuel d demo_peer s s' 0 H)).
Defined.

Lemma datagrams_keep_table_and_handlers_in_step_witness :
  let s := demo_server [0; -1] in
  let d := demo_datagram 0xff000005 x01 1252 in
  let rs := [recvfrom_ok d demo_peer; recvfrom_error; recvfrom_ok d demo_peer;
             recvfrom_ok (demo_datagram 0x99 x01 1252) demo_peer] in
  let s' := final s (ev_run demo_fuel (map readable rs) s) in
  (table_ok s /\ ev_run demo_fuel (map readable rs) s = Ret (tt, s')) /\
  table_ok s'.
Proof.
  intros s d rs s'.
  assert (T : table_ok s) by (apply table_ok_started; reflexivity).
  assert (H : ev_run demo_fuel (map readable rs) s = Ret (tt, s')) by evaluated.
  exact (conj (conj T H) (datagrams_keep_table_and_handlers_in_step demo_fuel rs s s' T H)).
Defined.

Lemma callbacks_fail_only_with_callback_failure_witness :
  let cb := cb_recv_handshake_data [x00] in
  let run := run_callback cb demo_initialised in
  let r := result (failure None []) run in
  let s' := final demo_initialised run in
  (cursors_ok demo_initialised.1 /\
   vsize (chandshake_ s'.1) < 2 ^ 63 /\ vsize (shandshake_ s'.1) < 2 ^ 64 /\
   run_callback cb demo_initialised = Ret (r, s')) /\
  cb_rv r = -207 /\
  (cb_rv r = NGTCP2_ERR_CALLBACK_FAILURE \/ cb_rv r = 0) /\
  exists evs, out s'.2 = out demo_initialised.2 ++ evs /\ no_sendto evs.
Proof.
  intros cb run r s'.
  assert (C : cursors_ok demo_initialised.1) by evaluated.
  assert (F1 : vsize (chandshake_ s'.1) < 2 ^ 63) by evaluated.
  assert (F2 : vsize (shandshake_ s'.1) < 2 ^ 64) by evaluated.
  assert (H : run_callback cb demo_initialised = Ret (r, s')) by evaluated.
  assert (V : cb_rv r = -207) by evaluated.
  exact (conj (conj C (conj F1 (conj F2 H)))
           (conj V (callbacks_fail_only_with_callback_failure
                      cb demo_initialised s' r C F1 F2 H))).
Defined.

Lemma reserved_version_differs_from_real_versions_witness :
  (0 <= 0xff000005 < 2 ^ 32 /\ Z.land 0xff000005 0x0f0f0f0f <> 0x0a0a0a0a) /\
  generate_reserved_vesrion (sa_bytes demo_peer) 0x99 <> 0xff000005 /\
  htonl_bytes (generate_reserved_vesrion (sa_bytes demo_peer) 0x99) <>
    htonl_bytes 0xff000005.
Proof.
  assert (R : 0 <= 0xff000005 < 2 ^ 32) by evaluated.
  assert (P : Z.land 0xff000005 0x0f0f0f0f <> 0x0a0a0a0a) by evaluated.
  exact (conj (conj R P)
           (reserved_version_differs_from_real_versions (sa_bytes demo_peer) 0x99
              0xff000005 R P)).
Defined.

Lemma max_pktlen_is_only_asserted_witness :
  let d := demo_datagram 0xff000005 x01 1252 in
  (max_pktlen_ demo_session.1 <= NGTCP2_MAX_PKTLEN_IPV4 /\
   NGTCP2_MAX_PKTLEN_IPV6 <= NGTCP2_MAX_PKTLEN_IPV4) /\
  Handler_on_read demo_fuel d
    (set_max_pktlen_ NGTCP2_MAX_PKTLEN_IPV6 demo_session.1, demo_session.2) =
    with_max_pktlen NGTCP2_MAX_PKTLEN_IPV6
      (Handler_on_read demo_fuel d (demo_session.1, demo_session.2)).
Proof.
  intros d.
  assert (M : max_pktlen_ demo_session.1 <= NGTCP2_MAX_PKTLEN_IPV4) by evaluated.
  assert (V : NGTCP2_MAX_PKTLEN_IPV6 <= NGTCP2_MAX_PKTLEN_IPV4) by evaluated.
  exact (conj (conj M V)
           (max_pktlen_is_only_asserted demo_fuel d NGTCP2_MAX_PKTLEN_IPV6
              demo_session.1 demo_session.2 M V)).
Defined.

Lemma datagrams_never_reach_a_destroyed_handler_witness :
  let s := demo_server [0; -1] in
  let d := demo_datagram 0xff000005 x01 1252 in
  let rs := [recvfrom_ok d demo_peer; recvfrom_ok d demo_peer; recvfrom_ok d demo_peer] in
  (table_ok s /\ heap_fault "member call on a deleted Handler") /\
  ev_run demo_fuel (map readable rs) s <> Fault "member call on a deleted Handler".
Proof.
  intros s d rs.
  assert (T : table_ok s) by (apply table_ok_started; reflexivity).
  assert (F : heap_fault "member call on a deleted Handler") by (left; reflexivity).
  exact (conj (conj T F)
           (datagrams_never_reach_a_destroyed_handler demo_fuel rs s
              "member call on a deleted Handler" T F)).
Defined.

Lemma a_rejected_datagram_ends_the_session_witness :
  let s := demo_alerted in
  let h := demo_alerted_handler in
  let d := demo_datagram 0xff000005 x01 1252 in
  let s1 := final (h, env s) (feed_data d (h, env s)) in
  (getnameinfo demo_peer = (0, ("127.0.0.1", "4433")) /\
   handlers_ s !! conn_key_of "127.0.0.1" "4433" = Some 0%nat /\
   objects s !! 0%nat = Some h /\
   feed_data d (h, env s) = Ret (-1, s1) /\ -1 <> 0) /\
  exists s' evs,
    Server_on_read demo_fuel (recvfrom_ok d demo_peer) s = Ret (0, s') /\
    handlers_ s' = delete (conn_key_of "127.0.0.1" "4433") (handlers_ s) /\
    objects s' = delete 0%nat (objects s) /\
    written s s' (evs ++ [Stderr "ngtcp2_conn_recv: "; Stderr "Closing QUIC connection"]) /\
    no_sendto (evs ++ [Stderr "ngtcp2_conn_recv: "; Stderr "Closing QUIC connection"]).
Proof.
  intros s h d s1.
  assert (H1 : getnameinfo demo_peer = (0, ("127.0.0.1", "4433"))) by evaluated.
  assert (H2 : handlers_ s !! conn_key_of "127.0.0.1" "4433" = Some 0%nat) by evaluated.
  assert (H3 : objects s !! 0%nat = Some h) by evaluated.
  assert (H4 : feed_data d (h, env s) = Ret (-1, s1)) by evaluated.
  assert (H5 : -1 <> 0) by discriminate.
  exact (conj (conj H1 (conj H2 (conj H3 (conj H4 H5))))
           (a_rejected_datagram_ends_the_session demo_fuel d demo_peer
              "127.0.0.1" "4433" s 0%nat h s1 (-1) H1 H2 H3 H4 H5)).
Defined.

End MoreExamples.

Section OutOfMemoryExamples.
#[local] Existing Instances ngtcp2_h demo_opaque demo_out_of_memory.

Ltac evaluated := vm_compute; repeat split; (discriminate || reflexivity).

Lemma init_failure_is_not_checked_witness :
  let s := demo_server [] in
  let d := demo_datagram 0xff000005 x01 1252 in
  let conn_id := (uniform_int_distribution 0 UINT64_MAX (randgen (env s))).1 in
  (opens_session (x82 :: drop 1 d) demo_peer /\
   handlers_ s !! sender_key demo_peer = None /\
   (ngtcp2_conn_server_new conn_id NGTCP2_PROTO_VERSION).1 <> 0 /\
   (ngtcp2_conn_server_new conn_id NGTCP2_PROTO_VERSION).2 = None) /\
  (exists s0, Handler_init (Server_fd_ s) demo_peer (Handler_new, env s) = Ret (-1, s0)) /\
  Server_on_read demo_fuel (recvfrom_ok (x82 :: drop 1 d) demo_peer) s =
    Fault "ngtcp2_conn_recv: conn_ is null".
Proof.
  intros s d conn_id.
  assert (O : opens_session (x82 :: drop 1 d) demo_peer).
  { unfold opens_session. split; [evaluated|]. split; [evaluated|].
    split; [evaluated|]. split; [evaluated|].
    exists x82, (drop 1 d). split; [reflexivity | evaluated]. }
  assert (K : handlers_ s !! sender_key demo_peer = None) by evaluated.
  assert (F : (ngtcp2_conn_server_new conn_id NGTCP2_PROTO_VERSION).1 <> 0) by evaluated.
  assert (N : (ngtcp2_conn_server_new conn_id NGTCP2_PROTO_VERSION).2 = None) by evaluated.
  exact (conj (conj O (conj K (conj F N)))
           (init_failure_is_not_checked demo_fuel x82 (drop 1 d) demo_peer s O K F N)).
Defined.

End OutOfMemoryExamples.

Section NoClientSecretExamples.
#[local] Existing Instances ngtcp2_h demo_opaque demo_no_client_secret.

Ltac evaluated := vm_compute; repeat split; (discriminate || reflexivity).

Lemma checked_failures_abort_the_derivation_witness :
  let h := demo_session.1 in
  let w := demo_session.2 in
  let c := demo_conn_of h in
  let r := handshake_completed (h, w) in
  (ssl_ h = Some 0x1301 /\ conn_ h = Some c /\
   (export_client_secret [] 32 0x1301).1 <> 0) /\
  (result 0 r = -207 /\
   map demo_lengths (drop 2 (demo_installs (final (h, w) r).1)) = [(16, 12)]) /\
  exists ctx' conn',
    handshake_completed (h, w) =
      Ret (NGTCP2_ERR_CALLBACK_FAILURE,
           (set_conn_ (Some conn') (set_crypto_ctx_ ctx' h), w)).
Proof.
  intros h w c r.
  assert (S : ssl_ h = Some 0x1301) by evaluated.
  assert (C : conn_ h = Some c) by evaluated.
  assert (E : (export_client_secret [] 32 0x1301).1 <> 0) by evaluated.
  assert (V : result 0 r = -207 /\
              map demo_lengths (drop 2 (demo_installs (final (h, w) r).1)) = [(16, 12)])
    by evaluated.
  pose proof (checked_failures_abort_the_derivation h w 0x1301 c) as T.
  cbv zeta in T.
  destruct (T S C) as (ctx' & conn' & Hrun & _).
  { right. right. right. evaluated. }
  exact (conj (conj S (conj C E)) (conj V (ex_intro _ ctx' (ex_intro _ conn' Hrun)))).
Defined.

End NoClientSecretExamples.
